(** * Airbnb wishlist content script: the extraction engine of [content.js]

    A shallow embedding of the scraping functions of [src/content.js] and the
    properties of its natural-language specification.

    - JavaScript strings are sequences of UTF-16 code units: [jsstring] is
      [list N], so [length], [substring], indexing and [includes] count code
      units exactly as the engine does.
    - JavaScript numbers are IEEE-754 binary64 values: the one place where the
      script divides ([areStringSimilar]) is embedded with the executable
      binary64 operations of [SpecFloat].
    - The page is the environment of the script.  It is a record [Dom] of
      the DOM calls the script makes; every call may throw, so that the
      [try]/[catch] structure of the script has something to catch.
    - [console.log] output is not part of the model; the DOM reads that the
      script performs only to log them are, because they may throw. *)

From Stdlib Require Import List NArith ZArith Bool Arith Lia String Ascii.
From Stdlib Require Import QArith.
Close Scope Q_scope.
From Stdlib Require Import Floats.SpecFloat.
From Stdlib Require Import DecimalString.
Import ListNotations.

Set Implicit Arguments.

(** ** JavaScript strings *)

Module JsString.

Definition jsstring := list N.

(** An ASCII literal of the script as a sequence of code units. *)
Definition lit (s : string) : jsstring :=
  map N_of_ascii (list_ascii_of_string s).

Definition eqb (s t : jsstring) : bool :=
  if list_eq_dec N.eq_dec s t then true else false.

(** [WhiteSpace] and [LineTerminator] of ECMAScript: what
    [String.prototype.trim] removes and what [\s] matches. *)
Definition isWhiteSpace (c : N) : bool :=
  ((9 <=? c) && (c <=? 13) || (c =? 32) || (c =? 160) || (c =? 5760)
   || (8192 <=? c) && (c <=? 8202) || (c =? 8232) || (c =? 8233)
   || (c =? 8239) || (c =? 8287) || (c =? 12288) || (c =? 65279))%N.

(** [\d] without the unicode flag: the ten ASCII digits. *)
Definition isDigit (c : N) : bool := ((48 <=? c) && (c <=? 57))%N.

Fixpoint trimStart (s : jsstring) : jsstring :=
  match s with
  | c :: r => if isWhiteSpace c then trimStart r else s
  | [] => []
  end.

Definition trimEnd (s : jsstring) : jsstring := rev (trimStart (rev s)).

(** [s.trim()] *)
Definition trim (s : jsstring) : jsstring := trimEnd (trimStart s).

(** [s.substring(a, b)] and [s.substring(a)] for [0 <= a <= b]. *)
Definition substring (a b : nat) (s : jsstring) : jsstring :=
  firstn (b - a) (skipn a s).
Definition substringFrom (a : nat) (s : jsstring) : jsstring := skipn a s.

Fixpoint startsWith (p s : jsstring) : bool :=
  match p, s with
  | [], _ => true
  | a :: p', b :: s' => (a =? b)%N && startsWith p' s'
  | _ :: _, [] => false
  end.

(** [s.includes(sub)] *)
Fixpoint includes (s sub : jsstring) : bool :=
  startsWith sub s
  || match s with
     | [] => false
     | _ :: r => includes r sub
     end.

(** [s[i]]: a code unit, or [undefined] past the end. *)
Definition charAt (s : jsstring) (i : nat) : option N := nth_error s i.

(** [===] on two values that are each a one-unit string or [undefined]. *)
Definition strictEq (a b : option N) : bool :=
  match a, b with
  | Some x, Some y => (x =? y)%N
  | None, None => true
  | _, _ => false
  end.

(** The longest prefix of [s] made of characters satisfying [p], and the
    rest: what a greedy [p+] or [p*] consumes. *)
Fixpoint span (p : N -> bool) (s : jsstring) : jsstring * jsstring :=
  match s with
  | c :: r => if p c then let (a, b) := span p r in (c :: a, b) else ([], s)
  | [] => ([], [])
  end.

(** [s.split(sep)[0]] for a one-unit separator: the text before the first
    occurrence of [sep], the whole text when there is none. *)
Fixpoint beforeFirst (sep : N) (s : jsstring) : jsstring :=
  match s with
  | c :: r => if (c =? sep)%N then [] else c :: beforeFirst sep r
  | [] => []
  end.

(** [s.replace(/^prefix\s*/, "")]: when [s] starts with the literal
    [prefix], the prefix and the white space after it are removed. *)
Fixpoint stripPrefix (p s : jsstring) : option jsstring :=
  match p, s with
  | [], _ => Some s
  | a :: p', b :: s' => if (a =? b)%N then stripPrefix p' s' else None
  | _ :: _, [] => None
  end.

Definition replaceLeadingLabel (label s : jsstring) : jsstring :=
  match stripPrefix label s with
  | Some rest => trimStart rest
  | None => s
  end.

(** Case-insensitive comparison of a code unit with an ASCII letter of a
    pattern under the [i] flag (no [u] flag): only the two ASCII cases of
    the letter canonicalize to it. *)
Definition toAsciiUpper (c : N) : N :=
  if ((97 <=? c) && (c <=? 122))%N then (c - 32)%N else c.

Fixpoint stripPrefixCI (p s : jsstring) : option jsstring :=
  match p, s with
  | [], _ => Some s
  | a :: p', b :: s' =>
      if (toAsciiUpper a =? toAsciiUpper b)%N then stripPrefixCI p' s' else None
  | _ :: _, [] => None
  end.

(** [s.replace(/word/i, "")] for an ASCII-letter [word]: the first
    (leftmost) case-insensitive occurrence is removed. *)
Fixpoint removeFirstCI (word s : jsstring) : jsstring :=
  match stripPrefixCI word s with
  | Some rest => rest
  | None => match s with
            | c :: r => c :: removeFirstCI word r
            | [] => []
            end
  end.

End JsString.
Import JsString.

Definition euro : N := 8364.

(** ** JavaScript numbers *)

Module JsNumber.

(** A Number is a binary64 value. *)
Definition number := spec_float.
Definition prec : Z := 53.
Definition emax : Z := 1024.

(** The Number of a non-negative integer (a string length or a counter). *)
Definition ofNat (n : nat) : number :=
  binary_normalize prec emax (Z.of_nat n) 0 false.

(** [a / b] *)
Definition div (a b : number) : number := SFdiv prec emax a b.

(** [a >= b] *)
Definition geb (a b : number) : bool := SFleb b a.

(** The literal [0.8]: the binary64 value nearest to 4/5,
    [0x1.999999999999Ap-1]. *)
Definition lit_0_8 : number := S754_finite false 7205759403792794 (-53).

End JsNumber.

(** ** Regular expressions of the script *)

(** One attempt of [/\/rooms\/(\d+)/] at the start of [s]: the capture. *)
Definition roomIdAt (s : jsstring) : option jsstring :=
  match stripPrefix (lit "/rooms/") s with
  | Some rest =>
      match fst (span isDigit rest) with
      | [] => None
      | ds => Some ds
      end
  | None => None
  end.

(** [s.match(/\/rooms\/(\d+)/)]: capture 1 of the leftmost match, or [None]
    for [null]. *)
Fixpoint matchRoomId (s : jsstring) : option jsstring :=
  match roomIdAt s with
  | Some id => Some id
  | None => match s with
            | _ :: r => matchRoomId r
            | [] => None
            end
  end.

Definition isDecimalSep (c : N) : bool := ((c =? 46) || (c =? 44))%N.

(** One attempt of [/(\d+[.,]\d+)/] at the start of [s].  Both [\d+] are
    greedy; giving digits back never helps, as the character after a
    maximal run of digits is the only one that can be the separator. *)
Definition decimalAt (s : jsstring) : option jsstring :=
  match span isDigit s with
  | ([], _) => None
  | (int, sep :: rest) =>
      if isDecimalSep sep then
        match fst (span isDigit rest) with
        | [] => None
        | frac => Some (int ++ sep :: frac)
        end
      else None
  | (_, []) => None
  end.

(** [s.match(/(\d+[.,]\d+)/)]: capture 1 of the leftmost match. *)
Fixpoint matchDecimal (s : jsstring) : option jsstring :=
  match decimalAt s with
  | Some m => Some m
  | None => match s with
            | _ :: r => matchDecimal r
            | [] => None
            end
  end.

(** ** The similarity matcher: [areStringSimilar] *)

(** The loop [for (let i = 0; i < Math.min(...); i++)] with [n] iterations
    left, the index [i] and the counter [matches]. *)
Fixpoint countMatches (str1 str2 : jsstring) (n i matches : nat) : nat :=
  match n with
  | O => matches
  | S n' =>
      countMatches str1 str2 n' (S i)
        (if strictEq (charAt str1 i) (charAt str2 i) then S matches else matches)
  end.

(** Lengths and the counter are integers below [2^53], on which the
    arithmetic of Numbers is exact; the division is the one operation that
    rounds. *)
Definition areStringSimilar (str1 str2 : jsstring) : bool :=
  if includes str1 str2 || includes str2 str1 then true
  else if (3 <? Z.abs (Z.of_nat (List.length str1) - Z.of_nat (List.length str2)))%Z
  then false
  else
    let matches :=
      countMatches str1 str2 (Nat.min (List.length str1) (List.length str2)) 0 0 in
    JsNumber.geb
      (JsNumber.div (JsNumber.ofNat matches)
         (JsNumber.ofNat (Nat.max (List.length str1) (List.length str2))))
      JsNumber.lit_0_8.

(** ** The duplicate-text heuristic of [extractBedInfo] *)

(** Lines 293-316 of [content.js], on the trimmed text [fullText] of the
    third child. *)
Definition dedupBedText (fullText : jsstring) : jsstring :=
  if Nat.even (List.length fullText) then
    let halfLength := Nat.div (List.length fullText) 2 in
    let firstHalf := trim (substring 0 halfLength fullText) in
    let secondHalf := trim (substringFrom halfLength fullText) in
    if JsString.eqb firstHalf secondHalf || areStringSimilar firstHalf secondHalf
    then firstHalf
    else fullText
  else fullText.

(** ** Exceptions *)

(** A thrown value, as far as the script looks at it: its [message]
    property, [None] when the property is absent. *)
Record JsError : Type := { message : option jsstring }.

(** The outcome of evaluating an expression: a value or a thrown error. *)
Inductive Res (A : Type) : Type :=
| Ok (a : A)
| Throw (e : JsError).
Arguments Ok {A} a.
Arguments Throw {A} e.

Definition bind {A B : Type} (c : Res A) (k : A -> Res B) : Res B :=
  match c with
  | Ok a => k a
  | Throw e => Throw e
  end.

Declare Scope js_scope.
Delimit Scope js_scope with js.
Notation "x <- c ;; k" := (bind c (fun x => k))
  (at level 61, c at next level, right associativity) : js_scope.
Notation "c ;;; k" := (bind c (fun _ => k))
  (at level 61, right associativity) : js_scope.
Open Scope js_scope.

(** [try { body } catch (error) { handler }] around a body that returns. *)
Definition tryCatch {A : Type} (body : Res A) (handler : JsError -> A) : A :=
  match body with
  | Ok a => a
  | Throw e => handler e
  end.

(** Reading the property [property] of [value], which is [null] or
    [undefined]: a [TypeError], with the message that V8, the engine of
    Chrome, gives it. *)
Definition typeError (value property : string) : JsError :=
  {| message :=
       Some (lit "Cannot read properties of " ++ lit value
             ++ lit " (reading '" ++ lit property ++ lit "')") |}.

(** [error.message || fallback] *)
Definition messageOr (e : JsError) (fallback : jsstring) : jsstring :=
  match message e with
  | Some (c :: m) => c :: m
  | Some [] | None => fallback
  end.

(** ** The page *)

(** The DOM calls of the script.  Selectors, attribute names and class
    names are the literals of the script, passed through unchanged. *)
Record Dom (Element : Type) : Type := {
  doc_querySelector : string -> Res (option Element);
  doc_querySelectorAll : string -> Res (list Element);
  querySelector : Element -> string -> Res (option Element);
  querySelectorAll : Element -> string -> Res (list Element);
  textContent : Element -> Res jsstring;
  getAttribute : Element -> string -> Res (option jsstring);
  nextElementSibling : Element -> Res (option Element);
  classList_contains : Element -> string -> Res bool;
  outerHTML : Element -> Res jsstring;
  innerHTML : Element -> Res jsstring
}.

(** The double quote inside a selector literal. *)
Definition dq : string := String (ascii_of_nat 34) EmptyString.

Module Selectors.
Open Scope string_scope.

Definition cardContainer : string := "[data-testid=" ++ dq ++ "card-container" ++ dq ++ "]".
Definition cyGroup : string := ".cy5jw6o[role=" ++ dq ++ "group" ++ dq ++ "]".
Definition wishlistDashCard : string := ".wishlist-card".
Definition wishlistCard : string := ".wishlistCard".
Definition divGroup : string := "div[role=" ++ dq ++ "group" ++ dq ++ "]".

Definition subtitle : string :=
  "[data-testid=" ++ dq ++ "listing-card-subtitle" ++ dq ++ "] span, .t6mzqp7".
Definition title : string := "[data-testid=" ++ dq ++ "listing-card-title" ++ dq ++ "]".
Definition rating : string := ".r4a59j5, [data-testid*='rating']".
Definition dateButton : string := "button.c12tvzjc".
Definition details : string := ".g1qv1ctd".
Definition visibleDivChildren : string := ":scope > div:not([aria-hidden='true'])".
Definition price : string := "._tt122m, [class*='price'], [class*='total']".
Definition divOrSpan : string := "div, span".
Definition roomLink : string := "a[href*=" ++ dq ++ "/rooms/" ++ dq ++ "]".
Definition commentWrapperClass : string := "cpj3fk1".
Definition commentText : string := "div.nzkbe2g".

End Selectors.

(** ** Results *)

Record ListingRecord : Type := {
  propertyName : jsstring;
  rating : jsstring;
  date : jsstring;
  beds : jsstring;
  totalPrice : jsstring;
  link : jsstring;
  comment : jsstring
}.

(** The object handed to [sendResponse]; an absent property is [None]. *)
Record ExtractionResult : Type := {
  success : bool;
  data : option (list ListingRecord);
  wishlistName : option jsstring;
  error : option jsstring
}.

Definition noCardsMessage : jsstring :=
  lit "No listing cards found. Please refresh the page and try again.".
Definition unknownErrorMessage : jsstring :=
  lit "Unknown error occurred during extraction".
Definition defaultWishlistName : jsstring := lit "Airbnb Wishlist".
Definition airbnbBase : jsstring := lit "https://www.airbnb.com".
Definition roomsBase : jsstring := lit "https://www.airbnb.com/rooms/".

(** ** The script *)

Section ContentScript.

Variable Element : Type.
Variable dom : Dom Element.

(** [a || b] on strings: the empty string is falsy. *)
Definition orElse (a b : jsstring) : jsstring :=
  match a with
  | [] => b
  | _ :: _ => a
  end.

Definition extractWishlistName_try : Res jsstring :=
  h1 <- doc_querySelector dom "h1" ;;
  match h1 with
  | Some e => t <- textContent dom e ;; Ok (orElse (trim t) defaultWishlistName)
  | None => Ok defaultWishlistName
  end.

Definition extractWishlistName : jsstring :=
  tryCatch extractWishlistName_try (fun _ => defaultWishlistName).

(** The loop of [findListingCards] over the selectors that are left:
    [listingCards] stays [[]] until a selector matches; then the loop
    breaks. *)
Fixpoint trySelectors (selectors : list string) : Res (list Element) :=
  match selectors with
  | [] => Ok []
  | selector :: rest =>
      elements <- doc_querySelectorAll dom selector ;;
      if 0 <? List.length elements then Ok elements else trySelectors rest
  end.

Definition cardSelectors : list string :=
  [ Selectors.cardContainer; Selectors.cyGroup; Selectors.wishlistDashCard;
    Selectors.wishlistCard; Selectors.divGroup ].

Definition findListingCards : Res (list Element) :=
  trySelectors cardSelectors.

(** [sendResponse] is the identity here: the value of
    [handleNoListingsFound] and of [extractAndSendListingData] is the
    object they send. *)
Definition handleNoListingsFound : Res ExtractionResult :=
  wishlistArea <- doc_querySelector dom "main" ;;
  match wishlistArea with
  | Some w => innerHTML dom w ;;; Ok tt
  | None => Ok tt
  end ;;;
  Ok {| success := false; data := None; wishlistName := None;
        error := Some noCardsMessage |}.

Definition extractPropertyName_try (card : Element) : Res jsstring :=
  titleElement <- querySelector dom card Selectors.subtitle ;;
  match titleElement with
  | Some e => t <- textContent dom e ;; Ok (trim t)
  | None =>
      propertyNameElements <- querySelectorAll dom card Selectors.title ;;
      match propertyNameElements with
      | e0 :: _ => t <- textContent dom e0 ;; Ok (trim t)
      | [] => Ok []
      end
  end.

Definition extractPropertyName (card : Element) : jsstring :=
  tryCatch (extractPropertyName_try card) (fun _ => []).

Definition extractRating_try (card : Element) : Res jsstring :=
  ratingContainer <- querySelector dom card Selectors.rating ;;
  match ratingContainer with
  | Some e =>
      t <- textContent dom e ;;
      match matchDecimal (trim t) with
      | Some r => Ok r
      | None => Ok []
      end
  | None => Ok []
  end.

Definition extractRating (card : Element) : jsstring :=
  tryCatch (extractRating_try card) (fun _ => []).

(** The parameter [card] is not used by the body, as in the script. *)
Definition extractDate_try (card : Element) : Res jsstring :=
  dateButton <- doc_querySelector dom Selectors.dateButton ;;
  match dateButton with
  | Some b => t <- textContent dom b ;; Ok (trim t)
  | None => Ok []
  end.

Definition extractDate (card : Element) : jsstring :=
  tryCatch (extractDate_try card) (fun _ => []).

(** [if (card)] holds for every element; [divChildren.length >= 3] and
    [divChildren[2]] are the pattern with a third element. *)
Definition extractBedInfo_try (card : Element) : Res jsstring :=
  detailsContainer <- querySelector dom card Selectors.details ;;
  match detailsContainer with
  | Some container =>
      divChildren <- querySelectorAll dom container Selectors.visibleDivChildren ;;
      match divChildren with
      | _ :: _ :: potentialBedDiv :: _ =>
          t <- textContent dom potentialBedDiv ;;
          Ok (dedupBedText (trim t))
      | _ => Ok []
      end
  | None => Ok []
  end.

Definition extractBedInfo (card : Element) : jsstring :=
  tryCatch (extractBedInfo_try card) (fun _ => []).

(** The [for ... of] loop of [extractPrice]: the trimmed text of the first
    element whose text is non-empty and contains a currency sign.  The
    text of an element is read once per element: reading the same property
    of the same page again gives the same outcome. *)
Fixpoint firstCurrencyText (allElements : list Element) : Res (option jsstring) :=
  match allElements with
  | [] => Ok None
  | el :: rest =>
      t <- textContent dom el ;;
      if negb (JsString.eqb t [])
         && (includes t [euro] || includes t (lit "$"))
      then Ok (Some (trim t))
      else firstCurrencyText rest
  end.

Definition extractPrice_try (card : Element) : Res jsstring :=
  totalPriceElement <- querySelector dom card Selectors.price ;;
  match totalPriceElement with
  | Some e =>
      t <- textContent dom e ;;
      let totalPrice := trim t in
      let totalPrice := replaceLeadingLabel (lit "Gesamtpreis:") totalPrice in
      let totalPrice := replaceLeadingLabel (lit "Insgesamt") totalPrice in
      Ok totalPrice
  | None =>
      allElements <- querySelectorAll dom card Selectors.divOrSpan ;;
      found <- firstCurrencyText allElements ;;
      match found with
      | Some totalPrice => Ok totalPrice
      | None => Ok []
      end
  end.

Definition extractPrice (card : Element) : jsstring :=
  tryCatch (extractPrice_try card) (fun _ => []).

Definition questionMark : N := 63.

Definition extractLink_try (card : Element) : Res jsstring :=
  linkElement <- querySelector dom card Selectors.roomLink ;;
  match linkElement with
  | Some a =>
      href <- getAttribute dom a "href" ;;
      match href with
      | Some (c :: h) =>
          match matchRoomId (c :: h) with
          | Some id => Ok (roomsBase ++ id)
          | None => Ok (airbnbBase ++ beforeFirst questionMark (c :: h))
          end
      | Some [] | None => Ok []
      end
  | None => Ok []
  end.

Definition extractLink (card : Element) : jsstring :=
  tryCatch (extractLink_try card) (fun _ => []).

(** The first block of [extractComment]: the room id of the card's link.
    [href.match] on a [null] [href] throws. *)
Definition commentRoomId (card : Element) : Res jsstring :=
  linkElement <- querySelector dom card Selectors.roomLink ;;
  match linkElement with
  | Some a =>
      href <- getAttribute dom a "href" ;;
      match href with
      | Some h =>
          match matchRoomId h with
          | Some id => Ok id
          | None => Ok []
          end
      | None => Throw (typeError "null" "match")
      end
  | None => Ok []
  end.

(** The second block of [extractComment]: the element after the card. *)
Definition commentAfter (card : Element) : Res jsstring :=
  nextElement <- nextElementSibling dom card ;;
  match nextElement with
  | Some next =>
      isWrapper <- classList_contains dom next Selectors.commentWrapperClass ;;
      if isWrapper then
        commentDiv <- querySelector dom next Selectors.commentText ;;
        match commentDiv with
        | Some d =>
            t <- textContent dom d ;;
            Ok (trim (removeFirstCI (lit "Bearbeiten") t))
        | None => Ok []
        end
      else Ok []
  | None => Ok []
  end.

Definition extractComment_try (card : Element) : Res jsstring :=
  roomId <- commentRoomId card ;;
  commentAfter card.

Definition extractComment (card : Element) : jsstring :=
  tryCatch (extractComment_try card) (fun _ => []).

Definition extractListingData (card : Element) (index : nat) : Res ListingRecord :=
  (if index =? 0 then outerHTML dom card ;;; Ok tt else Ok tt) ;;;
  Ok {| propertyName := extractPropertyName card;
        rating := extractRating card;
        date := extractDate card;
        beds := extractBedInfo card;
        totalPrice := extractPrice card;
        link := extractLink card;
        comment := extractComment card |}.

(** [array.map((card, index) => f(card, index))], from index [i] on. *)
Fixpoint mapWithIndex {A B : Type} (f : A -> nat -> Res B) (l : list A) (i : nat)
  : Res (list B) :=
  match l with
  | [] => Ok []
  | x :: r =>
      y <- f x i ;;
      ys <- mapWithIndex f r (S i) ;;
      Ok (y :: ys)
  end.

Definition extractAndSendListingData (name : jsstring) : ExtractionResult :=
  tryCatch
    (listingCards <- findListingCards ;;
     if List.length listingCards =? 0 then handleNoListingsFound
     else
       wishlistData <- mapWithIndex extractListingData listingCards 0 ;;
       Ok {| success := true; data := Some wishlistData;
             wishlistName := Some name; error := None |})
    (fun e =>
       {| success := false; data := None; wishlistName := None;
          error := Some (messageOr e unknownErrorMessage) |}).

End ContentScript.

(** ** Notions used to state the properties *)

(** The number of positions below the shorter length at which the two
    strings carry the same code unit. *)
Definition alignedMatches (a b : jsstring) : nat :=
  List.length
    (filter (fun i => strictEq (charAt a i) (charAt b i))
       (seq 0 (Nat.min (List.length a) (List.length b)))).

(** [strips label s s']: [s'] is [s] without the leading [label] and the
    white space after it, and is [s] when [s] does not start with [label]. *)
Inductive strips (label s : jsstring) : jsstring -> Prop :=
| strips_present (ws rest : jsstring) :
    s = label ++ ws ++ rest ->
    forallb isWhiteSpace ws = true ->
    trimStart rest = rest ->
    strips label s rest
| strips_absent :
    startsWith label s = false ->
    strips label s s.

(** One of the ten ASCII digits, by its code unit. *)
Definition asciiDigit (c : N) : Prop := (48 <= c <= 57)%N.

(** What [/\/rooms\/(\d+)/] matches in [href], by the rules of regular
    expression matching: [href] is [pre], "/rooms/", [id], [post]; [id] is
    a run of digits that is not empty and that [post] does not continue,
    as [\d+] is greedy; and no "/rooms/" that starts further left is
    followed by a digit, as the leftmost match is the one taken. *)
Definition roomIdMatch (href pre id post : jsstring) : Prop :=
  href = pre ++ lit "/rooms/" ++ id ++ post
  /\ id <> []
  /\ Forall asciiDigit id
  /\ (forall d rest, post = d :: rest -> ~ asciiDigit d)
  /\ (forall pre' d rest,
         href = pre' ++ lit "/rooms/" ++ d :: rest -> asciiDigit d ->
         (List.length pre <= List.length pre')%nat).

(** No "/rooms/" of [href] is followed by a digit: the expression does not
    match. *)
Definition noRoomId (href : jsstring) : Prop :=
  forall pre d rest, href = pre ++ lit "/rooms/" ++ d :: rest -> ~ asciiDigit d.

(** The anchor lookup of a card answers as a DOM does: it does not throw,
    and an anchor selected by [a[href*=...]] has an [href] attribute. *)
Definition roomLinkConforms (Element : Type) (dom : Dom Element) (card : Element) : Prop :=
  querySelector dom card Selectors.roomLink = Ok None
  \/ exists (a : Element) (h : jsstring),
       querySelector dom card Selectors.roomLink = Ok (Some a)
       /\ getAttribute dom a "href" = Ok (Some h).

(** What the script can see of the element after a card. *)
Inductive SiblingView : Type :=
| NoSibling
| NotWrapper
| WrapperWithoutText
| WrapperWithText (t : jsstring)
| SiblingThrows.

(** The view of the element after [card]: whether there is one, whether it
    has the wrapper class, and the text of its comment element; a call
    that throws gives [SiblingThrows]. *)
Definition siblingView (Element : Type) (dom : Dom Element) (card : Element)
  : SiblingView :=
  match nextElementSibling dom card with
  | Ok None => NoSibling
  | Ok (Some next) =>
      match classList_contains dom next Selectors.commentWrapperClass with
      | Ok false => NotWrapper
      | Ok true =>
          match querySelector dom next Selectors.commentText with
          | Ok None => WrapperWithoutText
          | Ok (Some d) =>
              match textContent dom d with
              | Ok t => WrapperWithText t
              | Throw _ => SiblingThrows
              end
          | Throw _ => SiblingThrows
          end
      | Throw _ => SiblingThrows
      end
  | Throw _ => SiblingThrows
  end.

(** The comment that a view stands for: the comment text without the first
    "Bearbeiten" (in any case), trimmed; the empty string otherwise. *)
Definition commentOfView (v : SiblingView) : jsstring :=
  match v with
  | WrapperWithText t => trim (removeFirstCI (lit "Bearbeiten") t)
  | _ => []
  end.

(** Two pages that answer alike to every call except the anchor lookup and
    the attribute reads. *)
Definition sameExceptLinks (Element : Type) (dom1 dom2 : Dom Element) : Prop :=
  (forall x, nextElementSibling dom1 x = nextElementSibling dom2 x)
  /\ (forall x cls, classList_contains dom1 x cls = classList_contains dom2 x cls)
  /\ (forall x, textContent dom1 x = textContent dom2 x)
  /\ (forall x sel, sel <> Selectors.roomLink ->
                    querySelector dom1 x sel = querySelector dom2 x sel).

(** What an extractor returns for the outcome of its [try] block. *)
Definition caught (body : Res jsstring) (value : jsstring) : Prop :=
  match body with
  | Ok s => value = s
  | Throw _ => value = []
  end.

(** The record of a card: the object literal of [extractListingData]. *)
Definition listingOf (Element : Type) (dom : Dom Element) (card : Element)
  : ListingRecord :=
  {| propertyName := extractPropertyName dom card;
     rating := extractRating dom card;
     date := extractDate dom card;
     beds := extractBedInfo dom card;
     totalPrice := extractPrice dom card;
     link := extractLink dom card;
     comment := extractComment dom card |}.

(** The debug read of [extractListingData] on the first card does not
    throw.  It is outside the seven extractors. *)
Definition firstCardReadable (Element : Type) (dom : Dom Element)
           (cards : list Element) : Prop :=
  forall (c : Element) (rest : list Element),
    cards = c :: rest -> exists h, outerHTML dom c = Ok h.

(** The text of [x] is read and carries no currency sign. *)
Definition noCurrency (Element : Type) (dom : Dom Element) (x : Element) : Prop :=
  exists tx, textContent dom x = Ok tx
             /\ includes tx [euro] = false /\ includes tx (lit "$") = false.

(** The debug reads of [handleNoListingsFound] do not throw. *)
Definition mainAreaReadable (Element : Type) (dom : Dom Element) : Prop :=
  doc_querySelector dom "main" = Ok None
  \/ exists (w : Element) (h : jsstring),
       doc_querySelector dom "main" = Ok (Some w) /\ innerHTML dom w = Ok h.

(** ** Binary64 rounding: auxiliary definitions *)

(** The last step of [binary_round_aux]: a rounded mantissa of 53 bits is
    kept, the mantissa [2^53] is renormalized. *)
Definition finish (m e : Z) : spec_float :=
  if (m <? 2 ^ 53)%Z then S754_finite false (Z.to_pos m) e
  else S754_finite false (Z.to_pos (2 ^ 52)) (e + 1).

(** The location after one more bit is shifted out of [q]. *)
Definition shifted_loc (q : Z) (l : location) : location :=
  match Z.odd q, l with
  | false, loc_Exact => loc_Exact
  | false, loc_Inexact _ => loc_Inexact Lt
  | true, loc_Exact => loc_Inexact Eq
  | true, loc_Inexact _ => loc_Inexact Gt
  end.

(** The mantissa of [0.8] at exponent [-53]. *)
Definition C08 : Z := 7205759403792794.

(** [m * 2^e >= 0.8] for a 53-bit mantissa [m]. *)
Definition geC (m e : Z) : bool :=
  ((-53 <? e) || ((e =? -53) && (C08 <=? m)))%Z.

(** ** Example pages *)

(** Pages given by the answers of the DOM; elements are numbered. *)
Module Pages.

Definition boom : JsError := {| message := Some (lit "boom") |}.

(** A page on which nothing is found. *)
Definition blank : Dom nat :=
  {| doc_querySelector := fun _ => Ok None;
     doc_querySelectorAll := fun _ => Ok [];
     querySelector := fun _ _ => Ok None;
     querySelectorAll := fun _ _ => Ok [];
     textContent := fun _ => Ok [];
     getAttribute := fun _ _ => Ok None;
     nextElementSibling := fun _ => Ok None;
     classList_contains := fun _ _ => Ok false;
     outerHTML := fun _ => Ok [];
     innerHTML := fun _ => Ok [] |}.

(** A wishlist with two cards, [1] and [2], found by the last selector
    only.  Card [1] is complete; every call on card [2] throws.  The
    date button is element [3] of the document. *)
Definition wishlist : Dom nat :=
  {| doc_querySelector := fun sel =>
       if String.eqb sel "h1" then Ok (Some 9)
       else if String.eqb sel Selectors.dateButton then Ok (Some 3)
       else Ok None;
     doc_querySelectorAll := fun sel =>
       if String.eqb sel Selectors.divGroup then Ok [1; 2] else Ok [];
     querySelector := fun el sel =>
       match el with
       | 1 =>
           if String.eqb sel Selectors.subtitle then Ok (Some 11)
           else if String.eqb sel Selectors.rating then Ok (Some 12)
           else if String.eqb sel Selectors.details then Ok (Some 13)
           else if String.eqb sel Selectors.price then Ok (Some 14)
           else if String.eqb sel Selectors.roomLink then Ok (Some 15)
           else Ok None
       | 2 => Throw boom
       | 16 => if String.eqb sel Selectors.commentText then Ok (Some 17) else Ok None
       | _ => Ok None
       end;
     querySelectorAll := fun el sel =>
       match el with
       | 2 => Throw boom
       | 13 => if String.eqb sel Selectors.visibleDivChildren
               then Ok [131; 132; 133] else Ok []
       | _ => Ok []
       end;
     textContent := fun el =>
       match el with
       | 3 => Ok (lit "Jun 1 - 5")
       | 9 => Ok (lit "Summer")
       | 11 => Ok (lit "  Cozy loft ")
       | 12 => Ok (lit "4,92 (12)")
       | 14 => Ok (lit "Gesamtpreis: " ++ euro :: lit "540")
       | 17 => Ok (lit "Great viewBearbeiten")
       | 133 => Ok (lit "2 beds2 beds")
       | _ => Ok []
       end;
     getAttribute := fun el name =>
       match el with
       | 15 => if String.eqb name "href"
               then Ok (Some (lit "/rooms/12345678?source=wishlist"))
               else Ok None
       | _ => Ok None
       end;
     nextElementSibling := fun el =>
       match el with
       | 1 => Ok (Some 16)
       | 2 => Throw boom
       | _ => Ok None
       end;
     classList_contains := fun el cls =>
       match el with
       | 16 => Ok (String.eqb cls Selectors.commentWrapperClass)
       | _ => Ok false
       end;
     outerHTML := fun _ => Ok (lit "<div>");
     innerHTML := fun _ => Ok [] |}.

(** [wishlist] with other links: no card has a room anchor. *)
Definition wishlistWithoutLinks : Dom nat :=
  {| doc_querySelector := doc_querySelector wishlist;
     doc_querySelectorAll := doc_querySelectorAll wishlist;
     querySelector := fun el sel =>
       if String.eqb sel Selectors.roomLink then Ok None
       else querySelector wishlist el sel;
     querySelectorAll := querySelectorAll wishlist;
     textContent := textContent wishlist;
     getAttribute := fun _ _ => Ok None;
     nextElementSibling := nextElementSibling wishlist;
     classList_contains := classList_contains wishlist;
     outerHTML := outerHTML wishlist;
     innerHTML := innerHTML wishlist |}.

(** A card [1] whose price element [14] carries an English label. *)
Definition totalLabel : Dom nat :=
  {| doc_querySelector := fun _ => Ok None;
     doc_querySelectorAll := fun _ => Ok [];
     querySelector := fun el sel =>
       match el with
       | 1 => if String.eqb sel Selectors.price then Ok (Some 14) else Ok None
       | _ => Ok None
       end;
     querySelectorAll := fun _ _ => Ok [];
     textContent := fun el =>
       match el with
       | 14 => Ok (lit "Total: " ++ euro :: lit "540")
       | _ => Ok []
       end;
     getAttribute := fun _ _ => Ok None;
     nextElementSibling := fun _ => Ok None;
     classList_contains := fun _ _ => Ok false;
     outerHTML := fun _ => Ok [];
     innerHTML := fun _ => Ok [] |}.

(** A card [1] without a price element; its [div] and [span] descendants
    are [21], [22] and [23], and [22] is the first with a currency sign. *)
Definition currencyScan : Dom nat :=
  {| doc_querySelector := fun _ => Ok None;
     doc_querySelectorAll := fun _ => Ok [];
     querySelector := fun _ _ => Ok None;
     querySelectorAll := fun el sel =>
       match el with
       | 1 => if String.eqb sel Selectors.divOrSpan then Ok [21; 22; 23] else Ok []
       | _ => Ok []
       end;
     textContent := fun el =>
       match el with
       | 21 => Ok (lit "Loft in Berlin")
       | 22 => Ok (lit " $120 night ")
       | 23 => Ok (euro :: lit "99")
       | _ => Ok []
       end;
     getAttribute := fun _ _ => Ok None;
     nextElementSibling := fun _ => Ok None;
     classList_contains := fun _ _ => Ok false;
     outerHTML := fun _ => Ok [];
     innerHTML := fun _ => Ok [] |}.

(** [wishlist], but the debug read of [outerHTML] throws. *)
Definition unreadableCard : Dom nat :=
  {| doc_querySelector := doc_querySelector wishlist;
     doc_querySelectorAll := doc_querySelectorAll wishlist;
     querySelector := querySelector wishlist;
     querySelectorAll := querySelectorAll wishlist;
     textContent := textContent wishlist;
     getAttribute := getAttribute wishlist;
     nextElementSibling := nextElementSibling wishlist;
     classList_contains := classList_contains wishlist;
     outerHTML := fun _ => Throw boom;
     innerHTML := innerHTML wishlist |}.

(** [blank], but the lookup of the [main] element throws. *)
Definition unreadableMain : Dom nat :=
  {| doc_querySelector := fun sel =>
       if String.eqb sel "main" then Throw boom else Ok None;
     doc_querySelectorAll := doc_querySelectorAll blank;
     querySelector := querySelector blank;
     querySelectorAll := querySelectorAll blank;
     textContent := textContent blank;
     getAttribute := getAttribute blank;
     nextElementSibling := nextElementSibling blank;
     classList_contains := classList_contains blank;
     outerHTML := outerHTML blank;
     innerHTML := innerHTML blank |}.

(** [wishlist], but the anchor [15] has no [href]: not an answer that a
    DOM gives for the selector of the script. *)
Definition anchorWithoutHref : Dom nat :=
  {| doc_querySelector := doc_querySelector wishlist;
     doc_querySelectorAll := doc_querySelectorAll wishlist;
     querySelector := querySelector wishlist;
     querySelectorAll := querySelectorAll wishlist;
     textContent := textContent wishlist;
     getAttribute := fun _ _ => Ok None;
     nextElementSibling := nextElementSibling wishlist;
     classList_contains := classList_contains wishlist;
     outerHTML := outerHTML wishlist;
     innerHTML := innerHTML wishlist |}.

End Pages.

(** * The rest of the extension *)

(** ** The message listener of the content script *)

(** What the listener does with [sendResponse]: it calls it before it
    returns, it registers a call for [DOMContentLoaded] (made on the page
    as it is then), or it never calls it. *)
Inductive Reply (Element : Type) : Type :=
| Sent (response : ExtractionResult)
| AtLoad (run : Dom Element -> ExtractionResult)
| NoReply.
Arguments Sent {Element} response.
Arguments AtLoad {Element} run.
Arguments NoReply {Element}.

(** The reply and the value the listener returns ([true] keeps the
    channel open; [undefined] is [false]). *)
Record Listened (Element : Type) : Type := {
  reply : Reply Element;
  keepsChannelOpen : bool
}.

Definition pingResponse : ExtractionResult :=
  {| success := true; data := None; wishlistName := None; error := None |}.

(** [request.action === literal]; an absent [action] is [None]. *)
Definition actionIs (action : option jsstring) (literal : string) : bool :=
  match action with
  | Some a => JsString.eqb a (lit literal)
  | None => false
  end.

(** The listener of lines 12-50.  [readyState] is the outcome of reading
    [document.readyState]; [dom] is the page when the message arrives. *)
Definition onMessage (Element : Type) (dom : Dom Element)
           (readyState : Res jsstring) (action : option jsstring)
  : Listened Element :=
  if actionIs action "ping" then
    {| reply := Sent pingResponse; keepsChannelOpen := true |}
  else if actionIs action "extractWishlistData" then
    {| reply :=
         tryCatch
           (let name := extractWishlistName dom in
            state <- readyState ;;
            if JsString.eqb state (lit "loading")
            then Ok (AtLoad (fun loaded => extractAndSendListingData loaded name))
            else Ok (Sent (extractAndSendListingData dom name)))
           (fun e =>
              Sent {| success := false; data := None; wishlistName := None;
                      error := Some (messageOr e unknownErrorMessage) |});
       keepsChannelOpen := true |}
  else {| reply := NoReply; keepsChannelOpen := false |}.

(** ** The popup: the callback of [extractWishlistData] *)

(** [value || fallback] for a property that may be absent. *)
Definition optOr (value : option jsstring) (fallback : jsstring) : jsstring :=
  match value with
  | Some (c :: m) => c :: m
  | Some [] | None => fallback
  end.

(** What the callback goes on to do, after it has reset the button:
    [showStatus(message, type)], or [processExtractedData]. *)
Inductive PopupStep : Type :=
| ShowStatus (statusMessage statusType : jsstring)
| ProcessExtractedData (wishlistData : list ListingRecord)
                       (name : option jsstring).

(** [lastError] is the message of [chrome.runtime.lastError] when it is
    set; [response] is [None] for an [undefined] response. *)
Definition onExtractionResponse (lastError : option jsstring)
           (response : option ExtractionResult) : PopupStep :=
  match lastError with
  | Some m =>
      ShowStatus (lit "Error communicating with the page: " ++ m) (lit "error")
  | None =>
      match response with
      | None =>
          ShowStatus (lit "No response from the page. Please refresh and try again.")
                     (lit "error")
      | Some r =>
          if negb (success r) then
            ShowStatus
              (lit "Failed to extract data: " ++ optOr (error r) (lit "Unknown error"))
              (lit "error")
          else
            match data r with
            | Some (item :: items) =>
                ProcessExtractedData (item :: items) (wishlistName r)
            | Some [] | None =>
                ShowStatus (lit "No wishlist items found to extract.") (lit "error")
            end
      end
  end.

(** ** The background script: rows of the sheet *)

(** The truth value of [isValidWishlistData]; [None] is an absent
    [wishlistData]. *)
Definition isValidWishlistData (wishlistData : option (list ListingRecord)) : bool :=
  match wishlistData with
  | Some (_ :: _) => true
  | Some [] | None => false
  end.

Definition headers : list jsstring :=
  [ lit "Property Name"; lit "Rating"; lit "Date"; lit "Beds";
    lit "Total Price"; lit "Link to listing"; lit "Comment" ].

(** The row that [saveToGoogleSheets] pushes for [item]. *)
Definition rowOf (item : ListingRecord) : list jsstring :=
  [ orElse (propertyName item) [];
    orElse (rating item) [];
    orElse (date item) [];
    orElse (beds item) [];
    orElse (totalPrice item) [];
    orElse (link item) [];
    orElse (comment item) [] ].

(** [values] of [saveToGoogleSheets]: the header row, then a row per item. *)
Definition sheetValues (wishlistData : list ListingRecord) : list (list jsstring) :=
  headers :: map rowOf wishlistData.

(** ** The background script: sheet names *)

(** The title that [createSpreadsheet] gives to the one sheet it asks for;
    an [undefined] [wishlistName] is [None]. *)
Definition createdSheetTitle (name : option jsstring) : jsstring :=
  optOr name (lit "Wishlist").

(** [s.properties] of a sheet of the spreadsheet; an absent [index] is
    [None]. *)
Record SheetProperties : Type := {
  title : jsstring;
  index : option nat
}.

(** The predicate of [spreadsheetData.sheets.find] in [updateSpreadsheet]. *)
Definition sheetMatches (sheetName : option jsstring) (s : SheetProperties) : bool :=
  match sheetName with
  | Some n => JsString.eqb (title s) n
  | None =>
      match index s with
      | Some 0 => true
      | _ => false
      end
  end.

Definition findSheet (sheets : list SheetProperties) (sheetName : option jsstring)
  : option SheetProperties :=
  find (sheetMatches sheetName) sheets.

(** ** The background script: responses of the Sheets API *)

(** [String(n)] for a non-negative integer. *)
Definition decimal (n : nat) : jsstring :=
  lit (NilZero.string_of_uint (Nat.to_uint n)).

(** What [response.json()] gives: a rejection with a [SyntaxError], the
    value [null], or another value, of which the script reads
    [data.error?.message] ([None] when it is absent). *)
Inductive JsonBody (P : Type) : Type :=
| NotJson (syntaxError : JsError)
| JsonNull
| JsonData (errorMessage : option jsstring) (payload : P).
Arguments NotJson {P} syntaxError.
Arguments JsonNull {P}.
Arguments JsonData {P} errorMessage payload.

Record HttpResponse (P : Type) : Type := {
  ok : bool;
  status : nat;
  statusText : jsstring;
  json : JsonBody P
}.

(** The promise of [handleApiResponse]: resolved with the data ([None] for
    [null]) or rejected. *)
Definition handleApiResponse (P : Type) (response : HttpResponse P)
  : Res (option P) :=
  if negb (ok response) then
    match json response with
    | NotJson _ =>
        Throw {| message :=
                   Some (lit "HTTP Error " ++ decimal (status response)
                         ++ lit ": " ++ statusText response) |}
    | JsonNull => Throw (typeError "null" "error")
    | JsonData errorMessage _ =>
        Throw {| message :=
                   Some (optOr errorMessage
                           (orElse (statusText response)
                              (lit "HTTP Error " ++ decimal (status response)))) |}
    end
  else
    match json response with
    | NotJson e => Throw e
    | JsonNull => Ok None
    | JsonData _ payload => Ok (Some payload)
    end.

(** The test of the [catch] in [handleSaveToGoogleSheets]: the error asks
    for a new sign-in. *)
Definition isAuthError (e : JsError) : bool :=
  match message e with
  | Some (c :: m) =>
      includes (c :: m) (lit "401")
      || includes (c :: m) (lit "auth")
      || includes (c :: m) (lit "permission")
  | Some [] | None => false
  end.

(** ** The background script: the token *)

(** What [chrome.storage.local.get(["token"], ...)] calls back with:
    [chrome.runtime.lastError] is set, or the stored token ([None] when
    there is none). *)
Inductive StorageRead : Type :=
| StorageFailed (lastError : jsstring)
| Stored (token : option jsstring).

(** What [chrome.identity.getAuthToken] calls back with. *)
Inductive IdentityAnswer : Type :=
| IdentityFailed (lastError : jsstring)
| IdentityToken (token : option jsstring).

(** The promise of [validateToken] and what it did on the way: the token
    it removed from the cache of the identity API and the token it wrote to
    the storage, if any. *)
Record TokenCheck : Type := {
  checked : Res jsstring;
  removedCachedToken : option jsstring;
  writtenToken : option jsstring
}.

Definition errorOf (text : jsstring) : JsError := {| message := Some text |}.

(** [first] answers the call of [validateToken], [second] the call of
    [attemptTokenRefresh], which is made only when the first fails.
    [setError] is the message of [chrome.runtime.lastError] after
    [chrome.storage.local.set], when it is set: the token is then not
    written, the failure is logged, and the promise resolves all the
    same. *)
Definition validateToken (read : StorageRead) (first second : IdentityAnswer)
           (setError : option jsstring) : TokenCheck :=
  match read with
  | StorageFailed m =>
      {| checked := Throw (errorOf (lit "Storage error: " ++ m));
         removedCachedToken := None; writtenToken := None |}
  | Stored None | Stored (Some []) =>
      {| checked := Throw (errorOf (lit "No authentication token found"));
         removedCachedToken := None; writtenToken := None |}
  | Stored (Some (c :: old)) =>
      match first with
      | IdentityToken (Some (t :: token)) =>
          {| checked := Ok (t :: token);
             removedCachedToken := None; writtenToken := None |}
      | IdentityFailed _ | IdentityToken None | IdentityToken (Some []) =>
          match second with
          | IdentityToken (Some (t :: newToken)) =>
              {| checked := Ok (t :: newToken);
                 removedCachedToken := Some (c :: old);
                 writtenToken :=
                   match setError with
                   | None => Some (t :: newToken)
                   | Some _ => None
                   end |}
          | IdentityFailed _ | IdentityToken None | IdentityToken (Some []) =>
              {| checked := Throw (errorOf (lit "Authentication token expired"));
                 removedCachedToken := Some (c :: old);
                 writtenToken := None |}
          end
      end
  end.

(** ** The background script: the requests to the Sheets API *)

(** A call of [fetch], by what it is for.  [token] is the bearer token of
    the [Authorization] header; [lastRow] is the number in the range of the
    update, and [values] its body. *)
Inductive Request : Type :=
| CreateSpreadsheet (token documentTitle sheetTitle : jsstring)
| GetSpreadsheet (token spreadsheetId : jsstring)
| ClearValues (token spreadsheetId sheetTitle : jsstring)
| UpdateValues (token spreadsheetId sheetTitle : jsstring) (lastRow : nat)
               (values : list (list jsstring)).

Definition sheetsEndpoint : jsstring :=
  lit "https://sheets.googleapis.com/v4/spreadsheets".

(** The URL of the call. *)
Definition urlOf (r : Request) : jsstring :=
  match r with
  | CreateSpreadsheet _ _ _ => sheetsEndpoint
  | GetSpreadsheet _ id => sheetsEndpoint ++ lit "/" ++ id
  | ClearValues _ id sheetTitle =>
      sheetsEndpoint ++ lit "/" ++ id ++ lit "/values/" ++ sheetTitle
      ++ lit "!A1:Z1000:clear"
  | UpdateValues _ id sheetTitle lastRow _ =>
      sheetsEndpoint ++ lit "/" ++ id ++ lit "/values/" ++ sheetTitle
      ++ lit "!A1:G" ++ decimal lastRow ++ lit "?valueInputOption=USER_ENTERED"
  end.

(** The Sheets API as the script meets it: for each call of [fetch], a
    rejection or a response.  The payload of a created spreadsheet is its
    [spreadsheetId], that of a fetched one its [sheets] ([None] when the
    property is absent). *)
Record SheetsApi : Type := {
  fetchCreate : Request -> Res (HttpResponse (option jsstring));
  fetchGet : Request -> Res (HttpResponse (option (list SheetProperties)));
  fetchClear : Request -> Res (HttpResponse unit);
  fetchUpdate : Request -> Res (HttpResponse unit)
}.

(** [title] of [createSpreadsheet]; [today] is
    [new Date().toLocaleDateString()]. *)
Definition documentTitleOf (name : option jsstring) (today : jsstring) : jsstring :=
  lit "Airbnb Wishlist: " ++ optOr name (lit "Untitled") ++ lit " - " ++ today.

(** A template literal's text for a property that may be absent. *)
Definition textOf (value : option jsstring) : jsstring :=
  match value with
  | Some s => s
  | None => lit "undefined"
  end.

(** What the promise of [saveToGoogleSheets] resolves with: [resultId] is
    the [spreadsheetId] of the created spreadsheet as it came, [None] when
    the property was absent. *)
Record SaveResult : Type := {
  resultId : option jsstring;
  resultUrl : jsstring
}.

Definition spreadsheetUrlOf (id : jsstring) : jsstring :=
  lit "https://docs.google.com/spreadsheets/d/" ++ id.

(** [saveToGoogleSheets] with [createSpreadsheet], [updateSpreadsheet],
    [clearSpreadsheetData] and [updateSpreadsheetData] in line: the calls
    of [fetch] that were made, in order, and the outcome of the promise.
    Reading a property of a [null] or [undefined] value throws. *)
Definition saveToGoogleSheets (api : SheetsApi) (token : jsstring)
           (wishlistData : list ListingRecord) (name : option jsstring)
           (today : jsstring) : list Request * Res SaveResult :=
  let values := sheetValues wishlistData in
  let create :=
    CreateSpreadsheet token (documentTitleOf name today) (createdSheetTitle name) in
  match bind (fetchCreate api create) (@handleApiResponse _) with
  | Throw e => ([create], Throw e)
  | Ok None => ([create], Throw (typeError "null" "spreadsheetId"))
  | Ok (Some created) =>
      let spreadsheetId := textOf created in
      let get := GetSpreadsheet token spreadsheetId in
      match bind (fetchGet api get) (@handleApiResponse _) with
      | Throw e => ([create; get], Throw e)
      | Ok None => ([create; get], Throw (typeError "null" "sheets"))
      | Ok (Some None) => ([create; get], Throw (typeError "undefined" "find"))
      | Ok (Some (Some sheets)) =>
          match findSheet sheets name with
          | None =>
              ([create; get],
               Throw (errorOf (lit "Sheet " ++ optOr name (lit "Sheet1")
                               ++ lit " not found in the spreadsheet")))
          | Some sheet =>
              let clear := ClearValues token spreadsheetId (title sheet) in
              match bind (fetchClear api clear) (@handleApiResponse _) with
              | Throw e => ([create; get; clear], Throw e)
              | Ok _ =>
                  let update :=
                    UpdateValues token spreadsheetId (title sheet)
                                 (List.length values) values in
                  match bind (fetchUpdate api update) (@handleApiResponse _) with
                  | Throw e => ([create; get; clear; update], Throw e)
                  | Ok _ =>
                      ([create; get; clear; update],
                       Ok {| resultId := created;
                             resultUrl := spreadsheetUrlOf spreadsheetId |})
                  end
              end
          end
      end
  end.

(** ** The background script: [handleSaveToGoogleSheets] *)

(** The object handed to [sendResponse]: [saved] is its [success],
    [saveError] its [error]; an absent or [undefined] property is [None],
    an absent [needsAuth] is [false]. *)
Record SaveResponse : Type := {
  saved : bool;
  spreadsheetId : option jsstring;
  spreadsheetUrl : option jsstring;
  saveError : option jsstring;
  needsAuth : bool
}.

(** What [handleSaveToGoogleSheets] did: its response, whether it called
    [chrome.storage.local.clear], and its calls of [fetch]. *)
Record SaveRun : Type := {
  response : SaveResponse;
  clearedStorage : bool;
  requests : list Request
}.

Definition authRequired (log : list Request) : SaveRun :=
  {| response :=
       {| saved := false; spreadsheetId := None; spreadsheetUrl := None;
          saveError := Some (lit "Authentication required. Please sign in with Google.");
          needsAuth := true |};
     clearedStorage := true;
     requests := log |}.

Definition saveFailed (text : jsstring) (log : list Request) : SaveRun :=
  {| response :=
       {| saved := false; spreadsheetId := None; spreadsheetUrl := None;
          saveError := Some text; needsAuth := false |};
     clearedStorage := false;
     requests := log |}.

(** The array that valid [wishlistData] is. *)
Definition arrayOf (wishlistData : option (list ListingRecord)) : list ListingRecord :=
  match wishlistData with
  | Some items => items
  | None => []
  end.

(** The storage is read by the handler and again by [validateToken]: both
    reads give [read].  [first], [second] and [setError] are the answers
    that [validateToken] gets.  The callback of
    [chrome.storage.local.clear] sends the response whether the call
    failed or not. *)
Definition handleSaveToGoogleSheets (api : SheetsApi)
           (wishlistData : option (list ListingRecord)) (name : option jsstring)
           (today : jsstring)
           (read : StorageRead) (first second : IdentityAnswer)
           (setError : option jsstring) : SaveRun :=
  if negb (isValidWishlistData wishlistData) then
    saveFailed (lit "No valid wishlist data to save") []
  else
    match read with
    | StorageFailed m => saveFailed (lit "Storage error: " ++ m) []
    | Stored None | Stored (Some []) => authRequired []
    | Stored (Some (_ :: _)) =>
        match checked (validateToken read first second setError) with
        | Throw _ => authRequired []
        | Ok validToken =>
            match saveToGoogleSheets api validToken (arrayOf wishlistData) name today with
            | (log, Ok result) =>
                {| response :=
                     {| saved := true;
                        spreadsheetId := resultId result;
                        spreadsheetUrl := Some (resultUrl result);
                        saveError := None; needsAuth := false |};
                   clearedStorage := false;
                   requests := log |}
            | (log, Throw e) =>
                if isAuthError e then authRequired log
                else saveFailed (messageOr e (lit "Error saving to Google Sheets")) log
            end
        end
    end.

(** ** The background script: authorization *)

(** The promise of [authorize]; [answer] is what the interactive
    [chrome.identity.getAuthToken] calls back with. *)
Definition authorize (answer : IdentityAnswer) : Res jsstring :=
  match answer with
  | IdentityFailed m => Throw (errorOf (orElse m (lit "Authentication failed")))
  | IdentityToken None | IdentityToken (Some []) =>
      Throw (errorOf (lit "No authentication token returned"))
  | IdentityToken (Some (t :: token)) => Ok (t :: token)
  end.

(** The response of [handleAuthorization]; an absent [error] is [None]. *)
Record AuthResponse : Type := {
  authorized : bool;
  authError : option jsstring
}.

(** What [handleAuthorization] did: its response and the token it wrote
    to the storage, if the write succeeded. *)
Record AuthRun : Type := {
  authResponse : AuthResponse;
  storedToken : option jsstring
}.

(** [setError] is the message of [chrome.runtime.lastError] after
    [chrome.storage.local.set], when it is set. *)
Definition handleAuthorization (answer : IdentityAnswer) (setError : option jsstring)
  : AuthRun :=
  match authorize answer with
  | Ok token =>
      match setError with
      | Some m =>
          {| authResponse :=
               {| authorized := false;
                  authError := Some (lit "Error saving authentication: " ++ m) |};
             storedToken := None |}
      | None =>
          {| authResponse := {| authorized := true; authError := None |};
             storedToken := Some token |}
      end
  | Throw e =>
      {| authResponse := {| authorized := false; authError := message e |};
         storedToken := None |}
  end.

(** ** The popup: the responses of the background script *)

(** What the callback of [handleAuthorizeClick] goes on to do, after it
    has reset the button: it shows the extraction controls, or not, and
    calls [showStatus]. *)
Record AuthorizeStep : Type := {
  showsExtractionControls : bool;
  authStatus : jsstring;
  authStatusType : jsstring
}.

Definition onAuthorizeResponse (lastError : option jsstring)
           (response : option AuthResponse) : AuthorizeStep :=
  match lastError with
  | Some m =>
      {| showsExtractionControls := false;
         authStatus := lit "Error connecting to Google: " ++ m;
         authStatusType := lit "error" |}
  | None =>
      match response with
      | Some r =>
          if authorized r then
            {| showsExtractionControls := true;
               authStatus := lit "Successfully signed in with Google";
               authStatusType := lit "success" |}
          else
            {| showsExtractionControls := false;
               authStatus := optOr (authError r) (lit "Failed to sign in with Google")
                             ++ lit ". Please try again.";
               authStatusType := lit "error" |}
      | None =>
          {| showsExtractionControls := false;
             authStatus := lit "Failed to sign in with Google" ++ lit ". Please try again.";
             authStatusType := lit "error" |}
      end
  end.

(** What the callback of [processExtractedData] goes on to do:
    [handleSuccessfulSave], which shows "Data successfully exported to
    Google Sheets!", stores the id and the URL of the response and opens
    the URL in a new tab when it is truthy; the sign-in prompt of
    [handleFailedSave], which shows the login controls and "Please sign in
    with Google to continue"; or [showStatus]. *)
Inductive SaveStep : Type :=
| SuccessfulSave (storedId storedUrl openedTab : option jsstring)
| SignInPrompt
| SaveStatus (statusMessage statusType : jsstring).

(** The URL, if it is truthy. *)
Definition truthy (s : option jsstring) : option jsstring :=
  match s with
  | Some (c :: m) => Some (c :: m)
  | Some [] | None => None
  end.

Definition onSaveResponse (lastError : option jsstring)
           (sheetsResponse : option SaveResponse) : SaveStep :=
  match lastError with
  | Some m =>
      SaveStatus (lit "Error saving to Google Sheets: " ++ m) (lit "error")
  | None =>
      match sheetsResponse with
      | Some r =>
          if saved r then
            SuccessfulSave (spreadsheetId r) (spreadsheetUrl r) (truthy (spreadsheetUrl r))
          else if needsAuth r then SignInPrompt
          else
            SaveStatus
              (lit "Failed to export data to Google Sheets: "
               ++ optOr (saveError r) (lit "Unknown error"))
              (lit "error")
      | None =>
          SaveStatus
            (lit "Failed to export data to Google Sheets: " ++ lit "Unknown error")
            (lit "error")
      end
  end.

(** ** The calls and their answers *)

(** Whether the API resolved the call [r]. *)
Definition resolved (api : SheetsApi) (r : Request) : bool :=
  match r with
  | CreateSpreadsheet _ _ _ =>
      match bind (fetchCreate api r) (@handleApiResponse _) with
      | Ok _ => true | Throw _ => false end
  | GetSpreadsheet _ _ =>
      match bind (fetchGet api r) (@handleApiResponse _) with
      | Ok _ => true | Throw _ => false end
  | ClearValues _ _ _ =>
      match bind (fetchClear api r) (@handleApiResponse _) with
      | Ok _ => true | Throw _ => false end
  | UpdateValues _ _ _ _ _ =>
      match bind (fetchUpdate api r) (@handleApiResponse _) with
      | Ok _ => true | Throw _ => false end
  end.

(** The error that the call [r] is rejected with, if it is. *)
Definition rejectionOf (api : SheetsApi) (r : Request) : option JsError :=
  match r with
  | CreateSpreadsheet _ _ _ =>
      match bind (fetchCreate api r) (@handleApiResponse _) with
      | Ok _ => None | Throw e => Some e end
  | GetSpreadsheet _ _ =>
      match bind (fetchGet api r) (@handleApiResponse _) with
      | Ok _ => None | Throw e => Some e end
  | ClearValues _ _ _ =>
      match bind (fetchClear api r) (@handleApiResponse _) with
      | Ok _ => None | Throw e => Some e end
  | UpdateValues _ _ _ _ _ =>
      match bind (fetchUpdate api r) (@handleApiResponse _) with
      | Ok _ => None | Throw e => Some e end
  end.

(** A response with status 401 whose body is not JSON. *)
Definition isUnauthorized (P : Type) (answer : Res (HttpResponse P)) : Prop :=
  exists text syntaxError,
    answer = Ok {| ok := false; status := 401; statusText := text;
                   json := NotJson syntaxError |}.

(** The API answers the call [r] with such a response. *)
Definition answeredUnauthorized (api : SheetsApi) (r : Request) : Prop :=
  match r with
  | CreateSpreadsheet _ _ _ => isUnauthorized (fetchCreate api r)
  | GetSpreadsheet _ _ => isUnauthorized (fetchGet api r)
  | ClearValues _ _ _ => isUnauthorized (fetchClear api r)
  | UpdateValues _ _ _ _ _ => isUnauthorized (fetchUpdate api r)
  end.

(** The step of the save that a call belongs to. *)
Definition stepOf (r : Request) : nat :=
  match r with
  | CreateSpreadsheet _ _ _ => 0
  | GetSpreadsheet _ _ => 1
  | ClearValues _ _ _ => 2
  | UpdateValues _ _ _ _ _ => 3
  end.

(** The bearer token of a call. *)
Definition tokenOf (r : Request) : jsstring :=
  match r with
  | CreateSpreadsheet t _ _ | GetSpreadsheet t _ | ClearValues t _ _
  | UpdateValues t _ _ _ _ => t
  end.

(** ** Example answers of the Sheets API *)

Module Apis.

Definition okResponse (P : Type) (payload : P) : HttpResponse P :=
  {| ok := true; status := 200; statusText := lit "OK";
     json := JsonData None payload |}.

(** Every call succeeds; the spreadsheet "abc" has one sheet, "Summer". *)
Definition healthy : SheetsApi :=
  {| fetchCreate := fun _ => Ok (okResponse (Some (lit "abc")));
     fetchGet := fun _ =>
       Ok (okResponse (Some [ {| title := lit "Summer"; index := Some 0 |} ]));
     fetchClear := fun _ => Ok (okResponse tt);
     fetchUpdate := fun _ => Ok (okResponse tt) |}.

(** Every call succeeds, but the created spreadsheet comes without a
    [spreadsheetId]. *)
Definition withoutId : SheetsApi :=
  {| fetchCreate := fun _ => Ok (okResponse None);
     fetchGet := fun _ =>
       Ok (okResponse (Some [ {| title := lit "Summer"; index := Some 0 |} ]));
     fetchClear := fun _ => Ok (okResponse tt);
     fetchUpdate := fun _ => Ok (okResponse tt) |}.

(** Every call is answered 401 with a body that is not JSON. *)
Definition unauthorized : SheetsApi :=
  {| fetchCreate := fun _ =>
       Ok {| ok := false; status := 401; statusText := lit "Unauthorized";
             json := NotJson Pages.boom |};
     fetchGet := fun _ =>
       Ok {| ok := false; status := 401; statusText := lit "Unauthorized";
             json := NotJson Pages.boom |};
     fetchClear := fun _ =>
       Ok {| ok := false; status := 401; statusText := lit "Unauthorized";
             json := NotJson Pages.boom |};
     fetchUpdate := fun _ =>
       Ok {| ok := false; status := 401; statusText := lit "Unauthorized";
             json := NotJson Pages.boom |} |}.

(** One record, as a run sends it. *)
Definition oneRecord : list ListingRecord := [ listingOf Pages.wishlist 1 ].

End Apis.

(** ** Notions for the properties of the rest *)

Section SaveCourse.

Variable api : SheetsApi.
Variable token : jsstring.
Variable wishlistData : list ListingRecord.
Variable name : option jsstring.
Variable today : jsstring.

(** The course of [saveToGoogleSheets], step by step. *)
Inductive SaveCourse : list Request -> Res SaveResult -> Prop :=
| StoppedAtCreate (create : Request) (e : JsError) :
    create = CreateSpreadsheet token (documentTitleOf name today) (createdSheetTitle name) ->
    resolved api create = false \/ bind (fetchCreate api create) (@handleApiResponse _) = Ok None ->
    SaveCourse [create] (Throw e)
| StoppedAtGet (create get : Request) (id : jsstring) (e : JsError) :
    create = CreateSpreadsheet token (documentTitleOf name today) (createdSheetTitle name) ->
    get = GetSpreadsheet token id ->
    resolved api create = true ->
    SaveCourse [create; get] (Throw e)
| StoppedAtClear (create get clear : Request) (id : jsstring)
                 (sheets : list SheetProperties) (sheet : SheetProperties)
                 (e : JsError) :
    create = CreateSpreadsheet token (documentTitleOf name today) (createdSheetTitle name) ->
    get = GetSpreadsheet token id ->
    clear = ClearValues token id (title sheet) ->
    resolved api create = true -> resolved api get = true ->
    resolved api clear = false ->
    findSheet sheets name = Some sheet ->
    SaveCourse [create; get; clear] (Throw e)
| ReachedUpdate (create get clear update : Request) (created : option jsstring)
                (sheets : list SheetProperties) (sheet : SheetProperties)
                (outcome : Res SaveResult) :
    create = CreateSpreadsheet token (documentTitleOf name today) (createdSheetTitle name) ->
    get = GetSpreadsheet token (textOf created) ->
    clear = ClearValues token (textOf created) (title sheet) ->
    update = UpdateValues token (textOf created) (title sheet)
                          (S (List.length wishlistData)) (sheetValues wishlistData) ->
    resolved api create = true -> resolved api get = true ->
    resolved api clear = true ->
    findSheet sheets name = Some sheet ->
    (resolved api update = true
     /\ outcome = Ok {| resultId := created;
                        resultUrl := spreadsheetUrlOf (textOf created) |}
     \/ resolved api update = false /\ exists e, outcome = Throw e) ->
    SaveCourse [create; get; clear; update] outcome.

End SaveCourse.


(** No white space at either end. *)
Definition trimmed (s : jsstring) : Prop := trim s = s.

(** The shape [\d+[.,]\d+]. *)
Definition isDecimalNumber (s : jsstring) : Prop :=
  exists int sep frac,
    s = int ++ sep :: frac
    /\ int <> [] /\ forallb isDigit int = true
    /\ isDecimalSep sep = true
    /\ frac <> [] /\ forallb isDigit frac = true.

(** A response as the popup expects it: a success with items and a name,
    or a failure with a message. *)
Definition wellFormed (r : ExtractionResult) : Prop :=
  (success r = true
   /\ (exists item items, data r = Some (item :: items))
   /\ (exists n, wishlistName r = Some n)
   /\ error r = None)
  \/ (success r = false
      /\ data r = None
      /\ wishlistName r = None
      /\ exists c m, error r = Some (c :: m)).

(** * Proofs *)

(** ** Binary64 division against the literal [0.8] *)

Module Binary64Facts.

Local Open Scope Z_scope.

Lemma digits2_pos_size (p : positive) : digits2_pos p = Pos.size p.
Proof. induction p; simpl; congruence. Qed.

Lemma pow2_pred (n : Z) : 1 <= n -> 2 ^ n = 2 * 2 ^ (n - 1).
Proof.
  intros Hn. rewrite <- Z.pow_succ_r by lia. f_equal. lia.
Qed.

Lemma Zdigits2_bounds (p : positive) :
  2 ^ (Z.pos (digits2_pos p) - 1) <= Z.pos p < 2 ^ Z.pos (digits2_pos p).
Proof.
  rewrite digits2_pos_size.
  assert (Hs : forall q, 2 ^ Z.pos (Pos.succ (Pos.size q)) = 2 * 2 ^ Z.pos (Pos.size q)).
  { intros q. rewrite Pos2Z.inj_succ, Z.pow_succ_r; lia. }
  assert (Hp : forall q, Z.pos (Pos.succ (Pos.size q)) - 1 = Z.pos (Pos.size q)) by (intros; lia).
  induction p as [p IH | p IH | ]; simpl Pos.size.
  - rewrite Hs, Hp. rewrite (@pow2_pred (Z.pos (Pos.size p))) in IH |- * by lia. lia.
  - rewrite Hs, Hp. rewrite (@pow2_pred (Z.pos (Pos.size p))) in IH |- * by lia. lia.
  - simpl. lia.
Qed.

Lemma Zdigits2_unique (p : positive) (k : Z) :
  2 ^ (k - 1) <= Z.pos p < 2 ^ k -> Z.pos (digits2_pos p) = k.
Proof.
  intros [Hlo Hhi].
  pose proof (Zdigits2_bounds p) as [Blo Bhi].
  assert (0 < k).
  { destruct (Z_lt_le_dec 0 k) as [|Hk]; [assumption|].
    destruct (Z.eq_dec k 0) as [->|]; [simpl in Hhi; lia|].
    rewrite Z.pow_neg_r in Hhi by lia. lia. }
  destruct (Z_lt_le_dec (Z.pos (digits2_pos p)) k) as [Hlt|Hge].
  - assert (2 ^ Z.pos (digits2_pos p) <= 2 ^ (k - 1)) by (apply Z.pow_le_mono_r; lia). lia.
  - destruct (Z.eq_dec (Z.pos (digits2_pos p)) k) as [|Hne]; [assumption|].
    assert (2 ^ k <= 2 ^ (Z.pos (digits2_pos p) - 1)) by (apply Z.pow_le_mono_r; lia). lia.
Qed.

Lemma shr_fexp_keep (m : positive) (e : Z) (l : location) :
  Z.pos (digits2_pos m) = 53 -> -1074 <= e ->
  shr_fexp 53 1024 (Z.pos m) e l = (shr_record_of_loc (Z.pos m) l, e).
Proof.
  intros Hd He. unfold shr_fexp. simpl Zdigits2. rewrite Hd.
  assert (E : fexp 53 1024 (53 + e) - e = 0) by (unfold fexp, emin; lia).
  rewrite E. reflexivity.
Qed.

Lemma shr_fexp_shift (m : positive) (e : Z) (l : location) :
  Z.pos (digits2_pos m) = 54 -> -1075 <= e ->
  shr_fexp 53 1024 (Z.pos m) e l = (shr_1 (shr_record_of_loc (Z.pos m) l), e + 1).
Proof.
  intros Hd He. unfold shr_fexp. simpl Zdigits2. rewrite Hd.
  assert (E : fexp 53 1024 (54 + e) - e = 1) by (unfold fexp, emin; lia).
  rewrite E. reflexivity.
Qed.

Lemma shr_m_of_loc (m : Z) (l : location) : shr_m (shr_record_of_loc m l) = m.
Proof. destruct l as [|[]]; reflexivity. Qed.

Lemma loc_of_shr_of_loc (m : Z) (l : location) :
  loc_of_shr_record (shr_record_of_loc m l) = l.
Proof. destruct l as [|[]]; reflexivity. Qed.

Lemma finish_spec (m e : Z) :
  2 ^ 52 <= m <= 2 ^ 53 -> -1074 <= e <= 970 ->
  (let '(mrs, e') := shr_fexp 53 1024 m e loc_Exact in
   match shr_m mrs with
   | Z0 => S754_zero false
   | Zpos p => if e' <=? 1024 - 53 then S754_finite false p e' else S754_infinity false
   | Zneg _ => S754_nan
   end) = finish m e.
Proof.
  intros Hm He. unfold finish.
  destruct m as [|p|p]; try (exfalso; lia).
  destruct (Z.ltb_spec (Z.pos p) (2 ^ 53)) as [Hlt|Hge].
  - rewrite shr_fexp_keep by (try apply Zdigits2_unique; lia).
    simpl shr_m. destruct (Z.leb_spec e (1024 - 53)); [reflexivity | lia].
  - assert (Hp : Z.pos p = 2 ^ 53) by lia.
    rewrite shr_fexp_shift by (try apply Zdigits2_unique; lia).
    assert (p = Z.to_pos (2 ^ 53)) as -> by lia.
    cbn [shr_record_of_loc shr_1 shr_m]. simpl Z.to_pos. cbn [shr_1 shr_m].
    destruct (Z.leb_spec (e + 1) (1024 - 53)); [reflexivity | lia].
Qed.

Lemma round_nearest_even_bounds (m : Z) (l : location) :
  m <= round_nearest_even m l <= m + 1.
Proof.
  destruct l as [|[]]; simpl; try lia. destruct (Z.even m); lia.
Qed.

(** A quotient of 53 bits is rounded in place. *)
Lemma binary_round_aux_53 (q e : Z) (l : location) :
  2 ^ 52 <= q < 2 ^ 53 -> -1074 <= e <= 970 ->
  binary_round_aux 53 1024 false q e l = finish (round_nearest_even q l) e.
Proof.
  intros Hq He. unfold binary_round_aux.
  destruct q as [|p|p]; try (exfalso; lia).
  rewrite shr_fexp_keep by (try apply Zdigits2_unique; lia).
  rewrite shr_m_of_loc, loc_of_shr_of_loc.
  apply finish_spec; [|lia].
  pose proof (round_nearest_even_bounds (Z.pos p) l). lia.
Qed.

Lemma shr_1_of_loc (p : positive) (l : location) :
  shr_m (shr_1 (shr_record_of_loc (Z.pos p) l)) = Z.pos p / 2 /\
  loc_of_shr_record (shr_1 (shr_record_of_loc (Z.pos p) l)) = shifted_loc (Z.pos p) l.
Proof.
  destruct p as [p|p|].
  - replace (Z.pos p~1 / 2) with (Z.pos p)
      by (apply Z.div_unique with (r := 1); lia).
    destruct l as [|[]]; split; reflexivity.
  - replace (Z.pos p~0 / 2) with (Z.pos p)
      by (apply Z.div_unique with (r := 0); lia).
    destruct l as [|[]]; split; reflexivity.
  - destruct l as [|[]]; split; reflexivity.
Qed.

(** A quotient of 54 bits loses its last bit before it is rounded. *)
Lemma binary_round_aux_54 (q e : Z) (l : location) :
  2 ^ 53 <= q < 2 ^ 54 -> -1075 <= e <= 969 ->
  binary_round_aux 53 1024 false q e l =
  finish (round_nearest_even (q / 2) (shifted_loc q l)) (e + 1).
Proof.
  intros Hq He. unfold binary_round_aux.
  destruct q as [|p|p]; try (exfalso; lia).
  rewrite shr_fexp_shift by (try apply Zdigits2_unique; lia).
  destruct (@shr_1_of_loc p l) as [-> ->].
  apply finish_spec; [|lia].
  pose proof (round_nearest_even_bounds (Z.pos p / 2) (shifted_loc (Z.pos p) l)).
  assert (2 ^ 52 <= Z.pos p / 2 < 2 ^ 53).
  { split; [apply Z.div_le_lower_bound | apply Z.div_lt_upper_bound]; lia. }
  lia.
Qed.

Lemma geb_finish (m e : Z) :
  2 ^ 52 <= m <= 2 ^ 53 ->
  JsNumber.geb (finish m e) JsNumber.lit_0_8 = geC m e.
Proof.
  intros Hm. unfold JsNumber.geb, JsNumber.lit_0_8, SFleb, finish, geC, C08.
  destruct (Z.ltb_spec m (2 ^ 53)) as [Hlt|Hge]; cbn [SFcompare].
  - destruct (Z.compare_spec (-53) e) as [<-|Hc|Hc].
    + simpl Z.ltb. simpl Z.eqb. cbn [orb andb].
      rewrite Pos.compare_cont_spec. cbn [Pos.switch_Eq].
      destruct m as [|p|p]; try (exfalso; lia). simpl Z.to_pos.
      change (7205759403792794 <=? Z.pos p) with (7205759403792794 <=? p)%positive.
      unfold Pos.leb. destruct (7205759403792794 ?= p)%positive; reflexivity.
    + destruct (Z.ltb_spec (-53) e); [reflexivity | lia].
    + destruct (Z.ltb_spec (-53) e); [lia|].
      destruct (Z.eqb_spec e (-53)); [lia | reflexivity].
  - destruct (Z.compare_spec (-53) (e + 1)) as [He|Hc|Hc].
    + destruct (Z.ltb_spec (-53) e); [lia|].
      destruct (Z.eqb_spec e (-53)); [lia | reflexivity].
    + destruct (Z.ltb_spec (-53) e); [reflexivity|].
      destruct (Z.eqb_spec e (-53)); [|lia].
      destruct (Z.leb_spec 7205759403792794 m); [reflexivity | lia].
    + destruct (Z.ltb_spec (-53) e); [lia|].
      destruct (Z.eqb_spec e (-53)); [lia | reflexivity].
Qed.

Lemma new_location_above (B r : Z) :
  0 < B -> B < 2 * r -> new_location B r = loc_Inexact Gt.
Proof.
  intros HB Hr. unfold new_location.
  destruct (Z.even B); unfold new_location_even, new_location_odd;
    (destruct (Z.eqb_spec r 0); [lia|]).
  - destruct (Z.compare_spec (2 * r) B); [lia | lia | reflexivity].
  - destruct (Z.compare_spec (2 * r + 1) B); [lia | lia | reflexivity].
Qed.

Lemma new_location_below (B r : Z) :
  0 <= r -> 2 * r < B ->
  new_location B r = loc_Exact \/ new_location B r = loc_Inexact Lt.
Proof.
  intros H0 Hr. unfold new_location.
  destruct (Z.even B); unfold new_location_even, new_location_odd;
    (destruct (Z.eqb_spec r 0); [auto|]).
  - destruct (Z.compare_spec (2 * r) B); [lia | auto | lia].
  - destruct (Z.compare_spec (2 * r + 1) B); [auto | auto | lia].
Qed.

Section Threshold.

Variables A B q r : Z.
Hypothesis HA : 2 ^ 52 <= A < 2 ^ 53.
Hypothesis HB : 2 ^ 52 <= B < 2 ^ 53.
Hypothesis Hdiv : A * 2 ^ 53 = B * q + r.
Hypothesis Hr : 0 <= r < B.

Lemma quotient_range : 2 ^ 52 <= q < 2 ^ 54.
Proof.
  split.
  - destruct (Z_lt_le_dec q (2 ^ 52)) as [Hq|]; [|assumption].
    assert (B * q <= B * (2 ^ 52 - 1)) by (apply Z.mul_le_mono_nonneg_l; lia).
    assert (2 ^ 52 * 2 ^ 53 <= A * 2 ^ 53) by (apply Z.mul_le_mono_nonneg_r; lia).
    lia.
  - destruct (Z_lt_le_dec q (2 ^ 54)) as [|Hq]; [assumption|].
    assert (B * 2 ^ 54 <= B * q) by (apply Z.mul_le_mono_nonneg_l; lia).
    assert (A * 2 ^ 53 <= 2 ^ 53 * 2 ^ 53) by (apply Z.mul_le_mono_nonneg_r; lia).
    lia.
Qed.

(** Equal exponents, quotient below one. *)
Lemma threshold_same_exponent :
  q < 2 ^ 53 ->
  (C08 <=? round_nearest_even q (new_location B r)) = (4 * B <=? 5 * A).
Proof.
  intros Hq. unfold C08.
  pose proof (round_nearest_even_bounds q (new_location B r)) as Hrnd.
  destruct (Z.leb_spec (4 * B) (5 * A)) as [Hge|Hlt].
  - assert (7205759403792793 <= q).
    { destruct (Z_lt_le_dec q 7205759403792793) as [Hc|]; [|assumption].
      assert (B * q <= B * 7205759403792792) by (apply Z.mul_le_mono_nonneg_l; lia).
      lia. }
    apply Z.leb_le.
    destruct (Z.eq_dec q 7205759403792793) as [Eq|]; [|lia].
    rewrite new_location_above in * by lia.
    subst q. simpl. lia.
  - assert (q <= 7205759403792793).
    { destruct (Z_lt_le_dec 7205759403792793 q) as [Hc|]; [|assumption].
      assert (B * 7205759403792794 <= B * q) by (apply Z.mul_le_mono_nonneg_l; lia).
      lia. }
    apply Z.leb_gt.
    destruct (Z.eq_dec q 7205759403792793) as [Eq|]; [|lia].
    destruct (@new_location_below B r) as [E|E]; try lia; rewrite E; subst q; simpl; lia.
Qed.

(** Divisor exponent one above, quotient at least one. *)
Lemma threshold_next_exponent :
  2 ^ 53 <= q ->
  (C08 <=? round_nearest_even (q / 2) (shifted_loc q (new_location B r)))
  = (8 * B <=? 5 * A).
Proof.
  intros Hq. unfold C08.
  pose proof (round_nearest_even_bounds (q / 2) (shifted_loc q (new_location B r))) as Hrnd.
  pose proof (Z.div_mod q 2 ltac:(lia)) as Hq2.
  pose proof (Z.mod_pos_bound q 2 ltac:(lia)) as Hm2.
  destruct (Z.leb_spec (8 * B) (5 * A)) as [Hge|Hlt].
  - assert (14411518807585587 <= q).
    { destruct (Z_lt_le_dec q 14411518807585587) as [Hc|]; [|assumption].
      assert (B * q <= B * 14411518807585586) by (apply Z.mul_le_mono_nonneg_l; lia).
      lia. }
    apply Z.leb_le.
    destruct (Z.eq_dec q 14411518807585587) as [Eq|]; [|lia].
    subst q. destruct (new_location B r) as [|[]]; vm_compute; discriminate.
  - assert (q <= 14411518807585586).
    { destruct (Z_lt_le_dec 14411518807585586 q) as [Hc|]; [|assumption].
      assert (B * 14411518807585587 <= B * q) by (apply Z.mul_le_mono_nonneg_l; lia).
      lia. }
    apply Z.leb_gt.
    destruct (Z.eq_dec q 14411518807585586) as [Eq|]; [|lia].
    subst q. destruct (new_location B r) as [|[]]; vm_compute; reflexivity.
Qed.

End Threshold.

Lemma SFdiv_canonical (a b : positive) (ea eb : Z) :
  Z.pos (digits2_pos a) = 53 -> Z.pos (digits2_pos b) = 53 ->
  -900 <= ea - eb <= 900 ->
  SFdiv 53 1024 (S754_finite false a ea) (S754_finite false b eb) =
  binary_round_aux 53 1024 false (Z.pos a * 2 ^ 53 / Z.pos b) (ea - eb - 53)
    (new_location (Z.pos b) ((Z.pos a * 2 ^ 53) mod Z.pos b)).
Proof.
  intros Ha Hb He. unfold SFdiv, SFdiv_core_binary. simpl Zdigits2.
  rewrite Ha, Hb.
  assert (E : Z.min (fexp 53 1024 (53 + ea - (53 + eb))) (ea - eb) = ea - eb - 53)
    by (unfold fexp, emin; lia).
  rewrite E.
  replace (ea - eb - (ea - eb - 53)) with 53 by lia.
  rewrite Z.shiftl_mul_pow2 by lia.
  unfold Z.div, Z.modulo.
  destruct (Z.div_eucl (Z.pos a * 2 ^ 53) (Z.pos b)) as [q r].
  reflexivity.
Qed.

(** Division of two binary64 values with 53-bit mantissas, the divisor's
    exponent [k] above the dividend's, against [0.8]. *)
Lemma div_canonical_ge_0_8 (a b : positive) (ea eb : Z) :
  2 ^ 52 <= Z.pos a < 2 ^ 53 -> 2 ^ 52 <= Z.pos b < 2 ^ 53 ->
  0 <= eb - ea <= 60 ->
  JsNumber.geb
    (JsNumber.div (S754_finite false a ea) (S754_finite false b eb))
    JsNumber.lit_0_8
  = (4 * Z.pos b * 2 ^ (eb - ea) <=? 5 * Z.pos a).
Proof.
  intros Ha Hb Hk. unfold JsNumber.div, JsNumber.prec, JsNumber.emax.
  rewrite SFdiv_canonical by (try apply Zdigits2_unique; lia).
  pose proof (Z.div_mod (Z.pos a * 2 ^ 53) (Z.pos b) ltac:(lia)) as Hdiv.
  pose proof (Z.mod_pos_bound (Z.pos a * 2 ^ 53) (Z.pos b) ltac:(lia)) as Hr.
  set (q := Z.pos a * 2 ^ 53 / Z.pos b) in *.
  set (r := (Z.pos a * 2 ^ 53) mod Z.pos b) in *.
  assert (Hq : 2 ^ 52 <= q < 2 ^ 54) by (apply quotient_range with (A := Z.pos a) (B := Z.pos b) (r := r); assumption).
  pose proof (round_nearest_even_bounds q (new_location (Z.pos b) r)) as R1.
  pose proof (round_nearest_even_bounds (q / 2)
                (shifted_loc q (new_location (Z.pos b) r))) as R2.
  assert (Hpow : 2 ^ (eb - ea) = 1 /\ eb - ea = 0 \/ 2 ^ (eb - ea) = 2 /\ eb - ea = 1
                 \/ 4 <= 2 ^ (eb - ea) /\ 2 <= eb - ea).
  { destruct (Z.eq_dec (eb - ea) 0) as [->|]; [left; split; reflexivity|].
    destruct (Z.eq_dec (eb - ea) 1) as [->|]; [right; left; split; reflexivity|].
    right; right. split; [|lia].
    change 4 with (2 ^ 2). apply Z.pow_le_mono_r; lia. }
  destruct (Z_lt_le_dec q (2 ^ 53)) as [Hlt|Hge].
  - rewrite binary_round_aux_53 by lia.
    rewrite geb_finish by lia.
    assert (HAB : Z.pos a < Z.pos b).
    { destruct (Z_lt_le_dec (Z.pos a) (Z.pos b)) as [|Hc]; [assumption|].
      assert (Z.pos b * 2 ^ 53 <= Z.pos a * 2 ^ 53) by (apply Z.mul_le_mono_nonneg_r; lia).
      assert (Z.pos b * q <= Z.pos b * (2 ^ 53 - 1)) by (apply Z.mul_le_mono_nonneg_l; lia).
      lia. }
    unfold geC.
    destruct Hpow as [[Ep Ek] | [[Ep Ek] | [Ep Ek]]].
    + replace (ea - eb - 53) with (-53) by lia. cbn [Z.ltb Z.eqb Z.compare Pos.compare Pos.compare_cont orb andb].
      rewrite Ep, Z.mul_1_r.
      apply threshold_same_exponent; assumption.
    + destruct (Z.ltb_spec (-53) (ea - eb - 53)); [lia|].
      destruct (Z.eqb_spec (ea - eb - 53) (-53)); [lia|].
      symmetry. apply Z.leb_gt. rewrite Ep. lia.
    + destruct (Z.ltb_spec (-53) (ea - eb - 53)); [lia|].
      destruct (Z.eqb_spec (ea - eb - 53) (-53)); [lia|].
      symmetry. apply Z.leb_gt.
      assert (4 * Z.pos b * 4 <= 4 * Z.pos b * 2 ^ (eb - ea))
        by (apply Z.mul_le_mono_nonneg_l; lia).
      lia.
  - rewrite binary_round_aux_54 by lia.
    assert (2 ^ 52 <= q / 2 < 2 ^ 53).
    { split; [apply Z.div_le_lower_bound | apply Z.div_lt_upper_bound]; lia. }
    rewrite geb_finish by lia.
    assert (HAB : Z.pos b <= Z.pos a).
    { destruct (Z_lt_le_dec (Z.pos a) (Z.pos b)) as [Hc|]; [|assumption].
      assert (Z.pos a * 2 ^ 53 <= (Z.pos b - 1) * 2 ^ 53) by (apply Z.mul_le_mono_nonneg_r; lia).
      assert (Z.pos b * 2 ^ 53 <= Z.pos b * q) by (apply Z.mul_le_mono_nonneg_l; lia).
      lia. }
    unfold geC.
    destruct Hpow as [[Ep Ek] | [[Ep Ek] | [Ep Ek]]].
    + destruct (Z.ltb_spec (-53) (ea - eb - 53 + 1)); [|lia].
      symmetry. apply Z.leb_le. rewrite Ep. lia.
    + replace (ea - eb - 53 + 1) with (-53) by lia. cbn [Z.ltb Z.eqb Z.compare Pos.compare Pos.compare_cont orb andb].
      rewrite Ep. replace (4 * Z.pos b * 2) with (8 * Z.pos b) by lia.
      apply threshold_next_exponent; assumption.
    + destruct (Z.ltb_spec (-53) (ea - eb - 53 + 1)); [lia|].
      destruct (Z.eqb_spec (ea - eb - 53 + 1) (-53)).
      * cbn [orb andb]. assert (eb - ea = 1) by lia. lia.
      * symmetry. apply Z.leb_gt.
        assert (4 * Z.pos b * 4 <= 4 * Z.pos b * 2 ^ (eb - ea))
          by (apply Z.mul_le_mono_nonneg_l; lia).
        lia.
Qed.

Lemma Pos_iter_xO (p k : positive) :
  Z.pos (Pos.iter xO p k) = Z.pos p * 2 ^ Z.pos k.
Proof.
  induction k as [|k IH] using Pos.peano_ind.
  - simpl. lia.
  - rewrite Pos.iter_succ, Pos2Z.inj_xO, IH, Pos2Z.inj_succ, Z.pow_succ_r; lia.
Qed.

Lemma shl_align_canonical (p : positive) :
  Z.pos p < 2 ^ 53 ->
  exists mz : positive,
    shl_align p 0 (Z.pos (digits2_pos p) - 53) = (mz, Z.pos (digits2_pos p) - 53)
    /\ Z.pos mz = Z.pos p * 2 ^ (53 - Z.pos (digits2_pos p))
    /\ 2 ^ 52 <= Z.pos mz < 2 ^ 53.
Proof.
  intros Hp. pose proof (Zdigits2_bounds p) as [Hlo Hhi].
  set (d := Z.pos (digits2_pos p)) in *.
  assert (Hd : d <= 53).
  { destruct (Z_lt_le_dec 53 d) as [Hc|]; [|lia].
    assert (2 ^ 53 <= 2 ^ (d - 1)) by (apply Z.pow_le_mono_r; lia). lia. }
  assert (Hscale : 2 ^ 52 <= Z.pos p * 2 ^ (53 - d) < 2 ^ 53).
  { assert (E52 : 2 ^ 52 = 2 ^ (d - 1) * 2 ^ (53 - d))
      by (rewrite <- Z.pow_add_r by lia; f_equal; lia).
    assert (E53 : 2 ^ 53 = 2 ^ d * 2 ^ (53 - d))
      by (rewrite <- Z.pow_add_r by lia; f_equal; lia).
    assert (0 < 2 ^ (53 - d)) by (apply Z.pow_pos_nonneg; lia).
    rewrite E52, E53. split.
    - apply Z.mul_le_mono_nonneg_r; lia.
    - apply Z.mul_lt_mono_pos_r; lia. }
  unfold shl_align. rewrite Z.sub_0_r.
  destruct (d - 53) as [|k|k] eqn:Ek.
  - exists p. replace (53 - d) with 0 in * by lia. simpl in *. repeat split; lia.
  - lia.
  - exists (Pos.iter xO p k).
    assert (E : 53 - d = Z.pos k) by lia.
    rewrite Pos_iter_xO, <- E. repeat split; lia.
Qed.

Lemma ofNat_canonical (n : nat) :
  (0 < n)%nat -> Z.of_nat n < 2 ^ 53 ->
  exists (a : positive) (t : Z),
    JsNumber.ofNat n = S754_finite false a (- t)
    /\ 0 <= t <= 52
    /\ Z.pos a = Z.of_nat n * 2 ^ t
    /\ 2 ^ 52 <= Z.pos a < 2 ^ 53.
Proof.
  intros Hn Hlt. unfold JsNumber.ofNat, JsNumber.prec, JsNumber.emax.
  destruct (Z.of_nat n) as [|p|p] eqn:En; try lia.
  unfold binary_normalize, binary_round.
  assert (Ef : fexp 53 1024 (Z.pos (digits2_pos p) + 0) = Z.pos (digits2_pos p) - 53)
    by (unfold fexp, emin; lia).
  rewrite Ef.
  destruct (@shl_align_canonical p Hlt) as (mz & -> & Hmz & Hrange).
  pose proof (Zdigits2_bounds p) as [Hlo Hhi].
  assert (Hd : Z.pos (digits2_pos p) <= 53).
  { destruct (Z_lt_le_dec 53 (Z.pos (digits2_pos p))) as [Hc|]; [|lia].
    assert (2 ^ 53 <= 2 ^ (Z.pos (digits2_pos p) - 1)) by (apply Z.pow_le_mono_r; lia).
    lia. }
  exists mz, (53 - Z.pos (digits2_pos p)).
  rewrite binary_round_aux_53 by lia.
  unfold finish. cbn [round_nearest_even].
  destruct (Z.ltb_spec (Z.pos mz) (2 ^ 53)); [|lia].
  simpl Z.to_pos.
  replace (- (53 - Z.pos (digits2_pos p))) with (Z.pos (digits2_pos p) - 53) by lia.
  repeat split; lia.
Qed.

(** The comparison [matches / longer >= 0.8] of the script, carried out in
    binary64, decides [4 * longer <= 5 * matches] exactly, for all counts
    that a Number holds exactly. *)
Lemma ratio_ge_0_8 (m M : nat) :
  (m <= M)%nat -> (0 < M)%nat -> Z.of_nat M < 2 ^ 53 ->
  JsNumber.geb (JsNumber.div (JsNumber.ofNat m) (JsNumber.ofNat M)) JsNumber.lit_0_8
  = (4 * Z.of_nat M <=? 5 * Z.of_nat m).
Proof.
  intros Hle HM Hlt.
  destruct (@ofNat_canonical M HM Hlt) as (b & tb & -> & Htb & Eb & Hb).
  destruct m as [|m'].
  - change (JsNumber.geb _ _) with false. symmetry. apply Z.leb_gt. lia.
  - set (m := S m') in *.
    destruct (@ofNat_canonical m) as (a & ta & -> & Hta & Ea & Ha); [lia | lia |].
    assert (Hord : tb <= ta).
    { destruct (Z_lt_le_dec ta tb) as [Hc|]; [|assumption].
      assert (2 ^ tb = 2 ^ (tb - ta) * 2 ^ ta)
        by (rewrite <- Z.pow_add_r by lia; f_equal; lia).
      assert (2 <= 2 ^ (tb - ta))
        by (change 2 with (2 ^ 1) at 1; apply Z.pow_le_mono_r; lia).
      assert (0 < 2 ^ ta) by (apply Z.pow_pos_nonneg; lia).
      assert (Z.of_nat m * 2 ^ ta <= Z.of_nat M * 2 ^ ta)
        by (apply Z.mul_le_mono_nonneg_r; lia).
      assert (2 * (Z.of_nat M * 2 ^ ta) <= 2 ^ (tb - ta) * (Z.of_nat M * 2 ^ ta))
        by (apply Z.mul_le_mono_nonneg_r; lia).
      nia. }
    rewrite div_canonical_ge_0_8 by lia.
    replace (- tb - - ta) with (ta - tb) by lia.
    assert (E : Z.pos b * 2 ^ (ta - tb) = Z.of_nat M * 2 ^ ta).
    { rewrite Eb, <- Z.mul_assoc, <- Z.pow_add_r by lia. do 2 f_equal. lia. }
    rewrite <- Z.mul_assoc, E, Ea.
    assert (0 < 2 ^ ta) by (apply Z.pow_pos_nonneg; lia).
    destruct (Z.leb_spec (4 * Z.of_nat M) (5 * Z.of_nat m)) as [H1|H1].
    + apply Z.leb_le. nia.
    + apply Z.leb_gt. nia.
Qed.

End Binary64Facts.

(** ** Strings *)

Lemma startsWith_iff (p s : jsstring) :
  startsWith p s = true <-> exists post, s = p ++ post.
Proof.
  revert s. induction p as [|a p IH]; intros s; simpl.
  - split; [intros _; exists s; reflexivity | reflexivity].
  - destruct s as [|b s].
    + split; [discriminate | intros [post H]; discriminate].
    + rewrite andb_true_iff, N.eqb_eq, IH. split.
      * intros [-> [post ->]]. exists post. reflexivity.
      * intros [post H]. injection H as -> ->. split; [reflexivity | exists post; reflexivity].
Qed.

(** [includes] is the substring relation. *)
Lemma includes_iff (s sub : jsstring) :
  includes s sub = true <-> exists pre post, s = pre ++ sub ++ post.
Proof.
  induction s as [|c s IH].
  - simpl. rewrite orb_false_r, startsWith_iff. split.
    + intros [post H]. exists [], post. exact H.
    + intros (pre & post & H). destruct pre; [|discriminate]. exists post. exact H.
  - cbn [includes]. rewrite orb_true_iff, startsWith_iff, IH. split.
    + intros [[post H] | (pre & post & H)].
      * exists [], post. exact H.
      * exists (c :: pre), post. rewrite H. reflexivity.
    + intros (pre & post & H). destruct pre as [|c' pre].
      * left. exists post. exact H.
      * right. injection H as _ H. exists pre, post. exact H.
Qed.

Lemma includes_empty (s : jsstring) : includes s [] = true.
Proof. destruct s; reflexivity. Qed.

Lemma eqb_true_iff (s t : jsstring) : JsString.eqb s t = true <-> s = t.
Proof.
  unfold JsString.eqb. destruct (list_eq_dec N.eq_dec s t); split; congruence.
Qed.

Lemma eqb_false_iff (s t : jsstring) : JsString.eqb s t = false <-> s <> t.
Proof.
  unfold JsString.eqb. destruct (list_eq_dec N.eq_dec s t); split; congruence.
Qed.

(** ** The counting loop *)

Lemma countMatches_filter (a b : jsstring) (n i matches : nat) :
  countMatches a b n i matches =
  (matches
   + List.length (filter (fun j => strictEq (charAt a j) (charAt b j)) (seq i n)))%nat.
Proof.
  revert i matches. induction n as [|n IH]; intros i matches; simpl.
  - lia.
  - rewrite IH. destruct (strictEq (charAt a i) (charAt b i)); simpl; lia.
Qed.

Lemma countMatches_aligned (a b : jsstring) :
  countMatches a b (Nat.min (List.length a) (List.length b)) 0 0 = alignedMatches a b.
Proof. rewrite countMatches_filter. reflexivity. Qed.

Lemma alignedMatches_le_min (a b : jsstring) :
  (alignedMatches a b <= Nat.min (List.length a) (List.length b))%nat.
Proof.
  unfold alignedMatches.
  etransitivity; [apply filter_length_le|]. rewrite length_seq. lia.
Qed.

(** [c / M >= 8/10] over the rationals is [4 * M <= 5 * c]. *)
Lemma ratio_Q (c M : nat) :
  (0 < M)%nat ->
  ((8 # 10 <= inject_Z (Z.of_nat c) / inject_Z (Z.of_nat M))%Q
   <-> (4 * Z.of_nat M <= 5 * Z.of_nat c)%Z).
Proof.
  intros HM. unfold Qle, Qdiv, Qmult, Qinv, inject_Z. cbn [Qnum Qden].
  destruct (Z.of_nat M) as [|p|p] eqn:E; try lia.
  cbn [Qnum Qden]. rewrite Z.mul_1_r, Pos.mul_1_l. lia.
Qed.

(** * The claims *)

(** ** Similarity matcher *)

(** C3.  For all strings [a] and [b] (a JavaScript string has fewer than
    [2^53] code units): [areStringSimilar] is true when either contains
    the other; otherwise it is false when the lengths differ by more than
    3; otherwise it is true exactly when the number of position-aligned
    equal code units over the shorter length, divided by the longer
    length, is at least 8/10. *)
Theorem areStringSimilar_spec (a b : jsstring) :
  (Z.of_nat (List.length a) < 2 ^ 53)%Z ->
  (Z.of_nat (List.length b) < 2 ^ 53)%Z ->
  (includes a b = true \/ includes b a = true -> areStringSimilar a b = true)
  /\ (includes a b = false -> includes b a = false ->
      (3 < Z.abs (Z.of_nat (List.length a) - Z.of_nat (List.length b)))%Z ->
      areStringSimilar a b = false)
  /\ (includes a b = false -> includes b a = false ->
      (Z.abs (Z.of_nat (List.length a) - Z.of_nat (List.length b)) <= 3)%Z ->
      (areStringSimilar a b = true <->
       (8 # 10 <= inject_Z (Z.of_nat (alignedMatches a b))
                  / inject_Z (Z.of_nat (Nat.max (List.length a) (List.length b))))%Q)).
Proof.
  intros Ha Hb. unfold areStringSimilar. split; [|split].
  - intros [H | H]; rewrite H; [reflexivity | rewrite orb_true_r; reflexivity].
  - intros H1 H2 Hd. rewrite H1, H2. cbn [orb].
    destruct (Z.ltb_spec 3 (Z.abs (Z.of_nat (List.length a) - Z.of_nat (List.length b))));
      [reflexivity | lia].
  - intros H1 H2 Hd. rewrite H1, H2. cbn [orb].
    destruct (Z.ltb_spec 3 (Z.abs (Z.of_nat (List.length a) - Z.of_nat (List.length b))));
      [lia|].
    assert (Hne : b <> []) by (intros ->; rewrite includes_empty in H1; discriminate).
    assert (HM : (0 < Nat.max (List.length a) (List.length b))%nat)
      by (destruct b; [congruence | simpl; lia]).
    rewrite countMatches_aligned.
    rewrite Binary64Facts.ratio_ge_0_8;
      [| pose proof (alignedMatches_le_min a b); lia | exact HM | lia].
    rewrite Z.leb_le. symmetry. apply ratio_Q. exact HM.
Qed.

Lemma areStringSimilar_spec_witness :
  (Z.of_nat (List.length (lit "2 beds")) < 2 ^ 53)%Z
  /\ (Z.of_nat (List.length (lit "2 bedz")) < 2 ^ 53)%Z
  /\ areStringSimilar (lit "2 beds") (lit "2 bedz") = true.
Proof.
  assert (Ha : (Z.of_nat (List.length (lit "2 beds")) < 2 ^ 53)%Z) by reflexivity.
  assert (Hb : (Z.of_nat (List.length (lit "2 bedz")) < 2 ^ 53)%Z) by reflexivity.
  split; [exact Ha | split; [exact Hb|]].
  destruct (areStringSimilar_spec (lit "2 beds") (lit "2 bedz") Ha Hb) as (_ & _ & H).
  apply H.
  - reflexivity.
  - reflexivity.
  - vm_compute. discriminate.
  - vm_compute. discriminate.
Defined.

(** C4, as the script has it.  [areStringSimilar "ab" "abcdefg"] is
    true: ["abcdefg"] contains ["ab"], and containment is tested before the
    difference of the lengths (which is 5).  With no containment, as for
    ["xb"] and ["abcdefg"], the same lengths give false. *)
Theorem areStringSimilar_ab_abcdefg :
  includes (lit "abcdefg") (lit "ab") = true
  /\ areStringSimilar (lit "ab") (lit "abcdefg") = true
  /\ areStringSimilar (lit "xb") (lit "abcdefg") = false.
Proof. repeat split; vm_compute; reflexivity. Qed.

(** The result for ["ab"] and ["abcdefg"] is not false. *)
Lemma areStringSimilar_ab_abcdefg_not_false :
  areStringSimilar (lit "ab") (lit "abcdefg") <> false.
Proof. vm_compute. discriminate. Qed.

Example areStringSimilar_identical :
  areStringSimilar (lit "12 beds") (lit "12 beds") = true
  /\ areStringSimilar (lit "King bed, 1 bath") (lit "King bed, 1 bath") = true.
Proof. split; vm_compute; reflexivity. Qed.

Example areStringSimilar_abc_xyz : areStringSimilar (lit "abc") (lit "xyz") = false.
Proof. vm_compute. reflexivity. Qed.

(** Four of five aligned units are enough, three of five are not. *)
Example areStringSimilar_threshold :
  areStringSimilar (lit "abcde") (lit "abcdx") = true
  /\ areStringSimilar (lit "abcde") (lit "abcxx") = false.
Proof. split; vm_compute; reflexivity. Qed.

(** ** Bed information *)

Lemma extractBedInfo_dedup (Element : Type) (dom : Dom Element)
      (card container c1 c2 third : Element) (rest : list Element) (t : jsstring) :
  querySelector dom card Selectors.details = Ok (Some container) ->
  querySelectorAll dom container Selectors.visibleDivChildren
    = Ok (c1 :: c2 :: third :: rest) ->
  textContent dom third = Ok t ->
  extractBedInfo dom card = dedupBedText (trim t).
Proof.
  intros H1 H2 H3. unfold extractBedInfo, extractBedInfo_try.
  rewrite H1. cbn [bind]. rewrite H2. cbn [bind]. rewrite H3. reflexivity.
Qed.

Lemma halves_split (s : jsstring) :
  Nat.even (List.length s) = true ->
  let h := Nat.div (List.length s) 2 in
  substring 0 h s ++ substringFrom h s = s
  /\ List.length (substring 0 h s) = h
  /\ List.length (substringFrom h s) = h.
Proof.
  intros Hev h. unfold substring, substringFrom. rewrite Nat.sub_0_r. cbn [skipn].
  apply Nat.even_spec in Hev. destruct Hev as [k Hk].
  assert (Hh : h = k) by (subst h; rewrite Hk, Nat.mul_comm, Nat.div_mul; lia).
  split; [apply firstn_skipn|].
  rewrite length_firstn, length_skipn. lia.
Qed.

(** C5, as the script has it.  The text of the third child, trimmed, goes
    through the heuristic.  A text of odd length is kept.  A text of even
    length is cut into two halves of equal length and each half is
    trimmed; the trimmed first half is the result exactly when the trimmed
    halves are identical or [areStringSimilar] holds of them, and the full
    text is the result otherwise.  ["2 beds2 beds"] gives ["2 beds"];
    ["3 bedrooms"] and ["1 bed2 baths"] are unchanged. *)
Theorem dedupBedText_spec :
  (forall fullText : jsstring,
      let half := Nat.div (List.length fullText) 2 in
      let firstHalf := trim (substring 0 half fullText) in
      let secondHalf := trim (substringFrom half fullText) in
      (Nat.even (List.length fullText) = false -> dedupBedText fullText = fullText)
      /\ (Nat.even (List.length fullText) = true ->
          substring 0 half fullText ++ substringFrom half fullText = fullText
          /\ List.length (substring 0 half fullText)
             = List.length (substringFrom half fullText)
          /\ (firstHalf = secondHalf \/ areStringSimilar firstHalf secondHalf = true ->
              dedupBedText fullText = firstHalf)
          /\ (firstHalf <> secondHalf ->
              areStringSimilar firstHalf secondHalf = false ->
              dedupBedText fullText = fullText)))
  /\ dedupBedText (lit "2 beds2 beds") = lit "2 beds"
  /\ dedupBedText (lit "3 bedrooms") = lit "3 bedrooms"
  /\ dedupBedText (lit "1 bed2 baths") = lit "1 bed2 baths".
Proof.
  split; [|repeat split; vm_compute; reflexivity].
  intros fullText half firstHalf secondHalf. unfold dedupBedText.
  fold half. fold firstHalf. fold secondHalf. split.
  - intros ->. reflexivity.
  - intros Hev. rewrite Hev.
    destruct (halves_split fullText Hev) as (Happ & Hl1 & Hl2).
    fold half in Happ, Hl1, Hl2.
    split; [exact Happ|]. split; [congruence|]. split.
    + intros [Heq | Hsim].
      * apply eqb_true_iff in Heq. rewrite Heq. reflexivity.
      * rewrite Hsim, orb_true_r. reflexivity.
    + intros Hne Hsim. apply eqb_false_iff in Hne. rewrite Hne, Hsim. reflexivity.
Qed.

Lemma dedupBedText_spec_witness :
  Nat.even (List.length (lit "2 beds2 beds")) = true
  /\ dedupBedText (lit "2 beds2 beds") = trim (substring 0 6 (lit "2 beds2 beds")).
Proof.
  assert (Hev : Nat.even (List.length (lit "2 beds2 beds")) = true) by reflexivity.
  split; [exact Hev|].
  destruct dedupBedText_spec as [H _].
  destruct (H (lit "2 beds2 beds")) as [_ H2].
  destruct (H2 Hev) as (_ & _ & H3 & _).
  apply H3. left. reflexivity.
Defined.

(** With white space at the cut, the halves differ and are not similar,
    and still the text is not kept: the halves are compared after
    trimming. *)
Lemma dedupBedText_untrimmed_halves :
  let fullText := lit "2 beds  2 beds" in
  let firstHalf := substring 0 7 fullText in
  let secondHalf := substringFrom 7 fullText in
  Nat.div (List.length fullText) 2 = 7
  /\ firstHalf <> secondHalf
  /\ areStringSimilar firstHalf secondHalf = false
  /\ dedupBedText fullText <> fullText
  /\ dedupBedText fullText <> firstHalf.
Proof.
  cbv zeta. repeat split; vm_compute; discriminate || reflexivity.
Qed.

(** ** Card locator *)

Section Locator.

Variable Element : Type.
Variable dom : Dom Element.

Lemma trySelectors_first (before after : list string) (sel : string)
      (elems : list Element) :
  (forall s, In s before -> doc_querySelectorAll dom s = Ok []) ->
  doc_querySelectorAll dom sel = Ok elems ->
  elems <> [] ->
  trySelectors dom (before ++ sel :: after) = Ok elems.
Proof.
  intros Hbefore Hsel Hne. induction before as [|s before IH]; simpl.
  - rewrite Hsel. cbn [bind]. destruct elems; [congruence | reflexivity].
  - rewrite (Hbefore s) by (left; reflexivity). cbn [bind List.length Nat.ltb Nat.leb].
    apply IH. intros s' Hs'. apply Hbefore. right. exact Hs'.
Qed.

Lemma trySelectors_none (selectors : list string) :
  (forall s, In s selectors -> doc_querySelectorAll dom s = Ok []) ->
  trySelectors dom selectors = Ok [].
Proof.
  intros Hall. induction selectors as [|s selectors IH]; simpl.
  - reflexivity.
  - rewrite (Hall s) by (left; reflexivity). cbn [bind List.length Nat.ltb Nat.leb].
    apply IH. intros s' Hs'. apply Hall. right. exact Hs'.
Qed.

End Locator.

(** C2.  [findListingCards] goes through its five selectors in order.  If
    every selector before [sel] matches nothing and [sel] matches the
    non-empty [elems], the result is [elems]; if every selector matches
    nothing, the result is the empty sequence, returned and not thrown. *)
Theorem findListingCards_first_match (Element : Type) (dom : Dom Element) :
  cardSelectors
  = [ Selectors.cardContainer; Selectors.cyGroup; Selectors.wishlistDashCard;
      Selectors.wishlistCard; Selectors.divGroup ]
  /\ (forall (before after : list string) (sel : string) (elems : list Element),
         cardSelectors = before ++ sel :: after ->
         (forall s, In s before -> doc_querySelectorAll dom s = Ok []) ->
         doc_querySelectorAll dom sel = Ok elems ->
         elems <> [] ->
         findListingCards dom = Ok elems)
  /\ ((forall s, In s cardSelectors -> doc_querySelectorAll dom s = Ok []) ->
      findListingCards dom = Ok []).
Proof.
  split; [reflexivity|]. split.
  - intros before after sel elems Hsplit Hbefore Hsel Hne.
    unfold findListingCards. rewrite Hsplit.
    apply trySelectors_first; assumption.
  - intros Hall. apply trySelectors_none. exact Hall.
Qed.

Lemma findListingCards_first_match_witness :
  findListingCards Pages.wishlist = Ok [1; 2]
  /\ findListingCards Pages.blank = Ok [].
Proof.
  split.
  - destruct (findListingCards_first_match Pages.wishlist) as (_ & H & _).
    apply (H [ Selectors.cardContainer; Selectors.cyGroup;
               Selectors.wishlistDashCard; Selectors.wishlistCard ]
             [] Selectors.divGroup).
    + reflexivity.
    + intros s Hs. simpl in Hs.
      destruct Hs as [<- | [<- | [<- | [<- | []]]]]; reflexivity.
    + reflexivity.
    + discriminate.
  - destruct (findListingCards_first_match Pages.blank) as (_ & _ & H).
    apply H. intros s _. reflexivity.
Defined.

(** ** Listing assembler *)

Section Assembler.

Variable Element : Type.
Variable dom : Dom Element.

Lemma extractListingData_later (card : Element) (index : nat) :
  extractListingData dom card (S index) = Ok (listingOf dom card).
Proof. reflexivity. Qed.

Lemma extractListingData_first (card : Element) (h : jsstring) :
  outerHTML dom card = Ok h ->
  extractListingData dom card 0 = Ok (listingOf dom card).
Proof. intros H. unfold extractListingData. cbn [Nat.eqb]. rewrite H. reflexivity. Qed.

Lemma mapWithIndex_later (cards : list Element) (i : nat) :
  mapWithIndex (extractListingData dom) cards (S i) = Ok (map (listingOf dom) cards).
Proof.
  revert i. induction cards as [|c cards IH]; intros i; cbn [mapWithIndex map].
  - reflexivity.
  - rewrite extractListingData_later. cbn [bind]. rewrite IH. reflexivity.
Qed.

Lemma mapWithIndex_all (cards : list Element) :
  firstCardReadable dom cards ->
  mapWithIndex (extractListingData dom) cards 0 = Ok (map (listingOf dom) cards).
Proof.
  intros Hread. destruct cards as [|c cards]; [reflexivity|].
  destruct (Hread c cards eq_refl) as [h Hh].
  cbn [mapWithIndex map]. rewrite (extractListingData_first c Hh). cbn [bind].
  rewrite mapWithIndex_later. reflexivity.
Qed.

(** Whatever the index, a record that is produced is the record of its
    card. *)
Lemma mapWithIndex_records (cards : list Element) (i : nat)
      (records : list ListingRecord) :
  mapWithIndex (extractListingData dom) cards i = Ok records ->
  records = map (listingOf dom) cards.
Proof.
  revert i records. induction cards as [|c cards IH]; intros i records; cbn [mapWithIndex map].
  - intros H. injection H as <-. reflexivity.
  - unfold extractListingData at 1.
    destruct (i =? 0); [destruct (outerHTML dom c) as [h|e]|]; cbn [bind];
      try discriminate;
      (destruct (mapWithIndex (extractListingData dom) cards (S i)) as [ys|e'] eqn:E;
       cbn [bind]; [|discriminate]);
      intros H; injection H as <-; rewrite (IH _ _ E); reflexivity.
Qed.

Lemma caught_tryCatch (body : Res jsstring) :
  caught body (tryCatch body (fun _ => [])).
Proof. destruct body; reflexivity. Qed.

End Assembler.

(** C1.  On a page where [findListingCards] returns a non-empty sequence
    of cards (and the debug read of the first card, which is outside the
    extractors, does not throw), [extractAndSendListingData] sends a
    success result with exactly one record per card, in the order of the
    cards.  Field by field, the record of a card holds the value of that
    field's [try] block, or the empty string when that block threw:
    a throw in one extractor changes neither the other fields of the record
    nor the records of the other cards. *)
Theorem one_record_per_card (Element : Type) (dom : Dom Element)
        (name : jsstring) (cards : list Element) :
  findListingCards dom = Ok cards ->
  cards <> [] ->
  firstCardReadable dom cards ->
  exists records : list ListingRecord,
    extractAndSendListingData dom name
    = {| success := true; data := Some records;
         wishlistName := Some name; error := None |}
    /\ List.length records = List.length cards
    /\ forall (i : nat) (card : Element),
        nth_error cards i = Some card ->
        exists r : ListingRecord,
          nth_error records i = Some r
          /\ caught (extractPropertyName_try dom card) (propertyName r)
          /\ caught (extractRating_try dom card) (rating r)
          /\ caught (extractDate_try dom card) (date r)
          /\ caught (extractBedInfo_try dom card) (beds r)
          /\ caught (extractPrice_try dom card) (totalPrice r)
          /\ caught (extractLink_try dom card) (link r)
          /\ caught (extractComment_try dom card) (comment r).
Proof.
  intros Hfind Hne Hread. exists (map (listingOf dom) cards). split; [|split].
  - unfold extractAndSendListingData. rewrite Hfind. cbn [bind].
    destruct cards as [|c cards]; [congruence|]. cbn [List.length Nat.eqb].
    rewrite (mapWithIndex_all Hread). reflexivity.
  - apply length_map.
  - intros i card Hi. exists (listingOf dom card). split.
    + rewrite nth_error_map, Hi. reflexivity.
    + repeat split; apply caught_tryCatch.
Qed.

Lemma one_record_per_card_witness :
  findListingCards Pages.wishlist = Ok [1; 2]
  /\ extractRating_try Pages.wishlist 2 = Throw Pages.boom
  /\ exists records : list ListingRecord,
      data (extractAndSendListingData Pages.wishlist (lit "Summer")) = Some records
      /\ List.length records = 2.
Proof.
  assert (Hfind : findListingCards Pages.wishlist = Ok [1; 2]) by reflexivity.
  assert (Hne : [1; 2] <> @nil nat) by discriminate.
  assert (Hread : firstCardReadable Pages.wishlist [1; 2]).
  { intros c rest _. exists (lit "<div>"). reflexivity. }
  split; [exact Hfind|]. split; [reflexivity|].
  destruct (@one_record_per_card nat Pages.wishlist (lit "Summer") [1; 2] Hfind Hne Hread)
    as (records & Hres & Hlen & _).
  exists records. split; [rewrite Hres; reflexivity | exact Hlen].
Defined.

(** The debug read of the first card is not inside an extractor: when it
    throws, the run ends with the failure result of the outer [catch]. *)
Remark unreadable_first_card_fails :
  findListingCards Pages.unreadableCard = Ok [1; 2]
  /\ extractAndSendListingData Pages.unreadableCard (lit "Summer")
     = {| success := false; data := None; wishlistName := None;
          error := Some (lit "boom") |}.
Proof. split; reflexivity. Qed.

(** ** No cards *)

(** C6.  When [findListingCards] returns no card, the run sends a failure
    result: [success] is false and there is no [data] property; nothing is
    thrown.  Its [error] is the text "No listing cards found. Please
    refresh the page and try again." (the debug reads of the [main]
    element are assumed not to throw). *)
Theorem no_cards_failure (Element : Type) (dom : Dom Element) (name : jsstring) :
  findListingCards dom = Ok [] ->
  (success (extractAndSendListingData dom name) = false
   /\ data (extractAndSendListingData dom name) = None)
  /\ (mainAreaReadable dom ->
      extractAndSendListingData dom name
      = {| success := false; data := None; wishlistName := None;
           error := Some noCardsMessage |})
  /\ startsWith (lit "No listing cards found") noCardsMessage = true.
Proof.
  intros Hfind. unfold extractAndSendListingData. rewrite Hfind.
  cbn [bind List.length Nat.eqb]. unfold handleNoListingsFound.
  split; [|split].
  - destruct (doc_querySelector dom "main") as [[w|]|e]; cbn [bind tryCatch];
      [destruct (innerHTML dom w) as [h|e]; cbn [bind tryCatch]| |];
      split; reflexivity.
  - intros [Hmain | (w & h & Hmain & Hinner)]; rewrite Hmain; cbn [bind].
    + reflexivity.
    + rewrite Hinner. reflexivity.
  - reflexivity.
Qed.

Lemma no_cards_failure_witness :
  findListingCards Pages.blank = Ok []
  /\ mainAreaReadable Pages.blank
  /\ error (extractAndSendListingData Pages.blank (lit "Summer")) = Some noCardsMessage.
Proof.
  assert (Hfind : findListingCards Pages.blank = Ok []) by reflexivity.
  assert (Hmain : mainAreaReadable Pages.blank) by (left; reflexivity).
  split; [exact Hfind | split; [exact Hmain|]].
  destruct (@no_cards_failure nat Pages.blank (lit "Summer") Hfind) as (_ & H & _).
  rewrite (H Hmain). reflexivity.
Defined.

(** When the debug lookup of [main] throws, the failure result carries the
    message of the thrown error. *)
Remark unreadable_main_message :
  findListingCards Pages.unreadableMain = Ok []
  /\ extractAndSendListingData Pages.unreadableMain (lit "Summer")
     = {| success := false; data := None; wishlistName := None;
          error := Some (lit "boom") |}.
Proof. split; reflexivity. Qed.

(** ** Date *)

(** C9.  [extractDate] does not depend on its card: for all cards [c1]
    and [c2] of a page, it returns the same string; and all records of one
    run carry the same date. *)
Theorem extractDate_ignores_card (Element : Type) (dom : Dom Element) :
  (forall c1 c2 : Element, extractDate dom c1 = extractDate dom c2)
  /\ (forall (name : jsstring) (records : list ListingRecord) (r1 r2 : ListingRecord),
         data (extractAndSendListingData dom name) = Some records ->
         In r1 records -> In r2 records ->
         date r1 = date r2).
Proof.
  split; [reflexivity|].
  intros name records r1 r2 Hdata H1 H2.
  assert (Hrec : exists cards, records = map (listingOf dom) cards).
  { unfold extractAndSendListingData in Hdata.
    destruct (findListingCards dom) as [cards|e]; cbn [bind tryCatch] in Hdata;
      [|discriminate].
    destruct (List.length cards =? 0).
    - unfold handleNoListingsFound in Hdata.
      destruct (doc_querySelector dom "main") as [[w|]|e]; cbn [bind tryCatch] in Hdata;
        [destruct (innerHTML dom w) as [h|e]; cbn [bind tryCatch] in Hdata| |];
        discriminate.
    - destruct (mapWithIndex (extractListingData dom) cards 0) as [rs|e] eqn:E;
        cbn [bind tryCatch data] in Hdata; [|discriminate].
      injection Hdata as <-. exists cards. apply (mapWithIndex_records _ _ _ E). }
  destruct Hrec as [cards ->].
  apply in_map_iff in H1. destruct H1 as (c1 & <- & _).
  apply in_map_iff in H2. destruct H2 as (c2 & <- & _).
  reflexivity.
Qed.

Lemma extractDate_ignores_card_witness :
  extractDate Pages.wishlist 1 = extractDate Pages.wishlist 2
  /\ exists r1 r2 : ListingRecord,
      data (extractAndSendListingData Pages.wishlist (lit "Summer")) = Some [r1; r2]
      /\ date r1 = date r2
      /\ date r1 = lit "Jun 1 - 5".
Proof.
  destruct (extractDate_ignores_card Pages.wishlist) as [Hcards Hrun].
  split; [apply Hcards|].
  exists (listingOf Pages.wishlist 1), (listingOf Pages.wishlist 2).
  assert (Hdata : data (extractAndSendListingData Pages.wishlist (lit "Summer"))
                  = Some [listingOf Pages.wishlist 1; listingOf Pages.wishlist 2])
    by reflexivity.
  split; [exact Hdata|]. split.
  - apply (Hrun (lit "Summer") _ _ _ Hdata); simpl; auto.
  - reflexivity.
Defined.

(** ** Price *)

Lemma stripPrefix_Some (p s rest : jsstring) :
  stripPrefix p s = Some rest -> s = p ++ rest.
Proof.
  revert s. induction p as [|a p IH]; intros s; simpl.
  - intros H. injection H as ->. reflexivity.
  - destruct s as [|b s]; [discriminate|].
    destruct (N.eqb_spec a b) as [->|]; [|discriminate].
    intros H. rewrite (IH _ H). reflexivity.
Qed.

Lemma stripPrefix_app (p rest : jsstring) : stripPrefix p (p ++ rest) = Some rest.
Proof.
  induction p as [|a p IH]; simpl; [reflexivity|].
  rewrite N.eqb_refl. exact IH.
Qed.

Lemma stripPrefix_None (p s : jsstring) :
  stripPrefix p s = None -> startsWith p s = false.
Proof.
  revert s. induction p as [|a p IH]; intros s; simpl.
  - discriminate.
  - destruct s as [|b s]; [reflexivity|].
    destruct (N.eqb_spec a b); [apply IH | reflexivity].
Qed.

Lemma trimStart_split (s : jsstring) :
  exists ws, s = ws ++ trimStart s /\ forallb isWhiteSpace ws = true.
Proof.
  induction s as [|c s (ws & Hs & Hws)]; simpl.
  - exists []. split; reflexivity.
  - destruct (isWhiteSpace c) eqn:Hc.
    + exists (c :: ws). simpl. rewrite Hc, Hws. split; [congruence | reflexivity].
    + exists []. split; reflexivity.
Qed.

Lemma trimStart_idempotent (s : jsstring) : trimStart (trimStart s) = trimStart s.
Proof.
  induction s as [|c s IH]; simpl; [reflexivity|].
  destruct (isWhiteSpace c) eqn:Hc; [exact IH|]. simpl. rewrite Hc. reflexivity.
Qed.

(** [replace(/^label\s*/, "")] strips the label and the white space after
    it when the text starts with the label, and only then. *)
Lemma replaceLeadingLabel_strips (label s : jsstring) :
  strips label s (replaceLeadingLabel label s).
Proof.
  unfold replaceLeadingLabel. destruct (stripPrefix label s) as [rest|] eqn:E.
  - destruct (trimStart_split rest) as (ws & Hrest & Hws).
    apply strips_present with (ws := ws).
    + rewrite <- Hrest. apply stripPrefix_Some. exact E.
    + exact Hws.
    + apply trimStart_idempotent.
  - apply strips_absent. apply stripPrefix_None. exact E.
Qed.

Lemma trimStart_app_ws (ws r : jsstring) :
  forallb isWhiteSpace ws = true -> trimStart (ws ++ r) = trimStart r.
Proof.
  induction ws as [|c ws IH]; simpl; [reflexivity|].
  intros H. apply andb_true_iff in H. destruct H as [Hc Hws].
  rewrite Hc. apply IH. exact Hws.
Qed.

(** [strips] determines its result. *)
Lemma strips_functional (label s x y : jsstring) :
  strips label s x -> strips label s y -> x = y.
Proof.
  intros Hx Hy.
  destruct Hx as [ws rest Hs Hws Hrest | Habs];
    destruct Hy as [ws' rest' Hs' Hws' Hrest' | Habs'].
  - rewrite Hs in Hs'. apply app_inv_head in Hs'.
    rewrite <- Hrest, <- Hrest'.
    rewrite <- (trimStart_app_ws ws rest Hws), <- (trimStart_app_ws ws' rest' Hws').
    rewrite Hs'. reflexivity.
  - exfalso. assert (startsWith label s = true)
      by (apply startsWith_iff; exists (ws ++ rest); exact Hs).
    congruence.
  - exfalso. assert (startsWith label s = true)
      by (apply startsWith_iff; exists (ws' ++ rest'); exact Hs').
    congruence.
  - reflexivity.
Qed.

Section Price.

Variable Element : Type.
Variable dom : Dom Element.

Lemma firstCurrencyText_found (before after : list Element) (el : Element)
      (t : jsstring) :
  (forall x, In x before -> noCurrency dom x) ->
  textContent dom el = Ok t ->
  includes t [euro] = true \/ includes t (lit "$") = true ->
  firstCurrencyText dom (before ++ el :: after) = Ok (Some (trim t)).
Proof.
  intros Hbefore Ht Hcur. induction before as [|x before IH]; simpl.
  - rewrite Ht. cbn [bind].
    assert (Hne : JsString.eqb t [] = false).
    { apply eqb_false_iff. intros ->. destruct Hcur as [H|H]; discriminate. }
    rewrite Hne. cbn [negb andb].
    destruct Hcur as [H|H]; rewrite H; [reflexivity | rewrite orb_true_r; reflexivity].
  - destruct (Hbefore x (or_introl eq_refl)) as (tx & Hx & He & Hd).
    rewrite Hx. cbn [bind]. rewrite He, Hd. cbn [orb]. rewrite andb_false_r.
    apply IH. intros y Hy. apply Hbefore. right. exact Hy.
Qed.

Lemma firstCurrencyText_none (els : list Element) :
  (forall x, In x els -> noCurrency dom x) ->
  firstCurrencyText dom els = Ok None.
Proof.
  intros Hall. induction els as [|x els IH]; simpl; [reflexivity|].
  destruct (Hall x (or_introl eq_refl)) as (tx & Hx & He & Hd).
  rewrite Hx. cbn [bind]. rewrite He, Hd. cbn [orb]. rewrite andb_false_r.
  apply IH. intros y Hy. apply Hall. right. exact Hy.
Qed.

End Price.

(** C7, as the script has it.  When the price element of the card is
    found, the result is its trimmed text with a leading "Gesamtpreis:"
    and then a leading "Insgesamt" stripped, each with the white space
    after it, when present; the text "Gesamtpreis: €540" gives "€540".
    No other label is stripped.  When there is no price element, the
    result is the trimmed text of the first [div] or [span] descendant
    whose text contains "€" or "$", and the empty string when there is
    none. *)
Theorem extractPrice_spec (Element : Type) (dom : Dom Element) (card : Element) :
  (forall (e : Element) (t : jsstring),
      querySelector dom card Selectors.price = Ok (Some e) ->
      textContent dom e = Ok t ->
      exists t1,
        strips (lit "Gesamtpreis:") (trim t) t1
        /\ strips (lit "Insgesamt") t1 (extractPrice dom card))
  /\ (forall e : Element,
         querySelector dom card Selectors.price = Ok (Some e) ->
         textContent dom e = Ok (lit "Gesamtpreis: " ++ euro :: lit "540") ->
         extractPrice dom card = euro :: lit "540")
  /\ (forall els : list Element,
         querySelector dom card Selectors.price = Ok None ->
         querySelectorAll dom card Selectors.divOrSpan = Ok els ->
         (forall (before after : list Element) (el : Element) (t : jsstring),
             els = before ++ el :: after ->
             (forall x, In x before -> noCurrency dom x) ->
             textContent dom el = Ok t ->
             includes t [euro] = true \/ includes t (lit "$") = true ->
             extractPrice dom card = trim t)
         /\ ((forall x, In x els -> noCurrency dom x) ->
             extractPrice dom card = [])).
Proof.
  unfold extractPrice, extractPrice_try. split; [|split].
  - intros e t He Ht. rewrite He. cbn [bind]. rewrite Ht. cbn [bind tryCatch].
    exists (replaceLeadingLabel (lit "Gesamtpreis:") (trim t)).
    split; apply replaceLeadingLabel_strips.
  - intros e He Ht. rewrite He. cbn [bind]. rewrite Ht. reflexivity.
  - intros els Hnone Hels. rewrite Hnone. cbn [bind]. rewrite Hels. cbn [bind]. split.
    + intros before after el t -> Hbefore Ht Hcur.
      rewrite (@firstCurrencyText_found _ dom before after el t Hbefore Ht Hcur).
      reflexivity.
    + intros Hall. rewrite (@firstCurrencyText_none _ dom els Hall). reflexivity.
Qed.

Lemma extractPrice_spec_witness :
  extractPrice Pages.wishlist 1 = euro :: lit "540"
  /\ extractPrice Pages.currencyScan 1 = lit "$120 night".
Proof.
  split.
  - destruct (extractPrice_spec Pages.wishlist 1) as (_ & H & _).
    apply (H 14); reflexivity.
  - destruct (extractPrice_spec Pages.currencyScan 1) as (_ & _ & H).
    destruct (H [21; 22; 23] eq_refl eq_refl) as [Hfound _].
    apply (Hfound [21] [23] 22 (lit " $120 night ")).
    + reflexivity.
    + intros x [<- | []]. exists (lit "Loft in Berlin"). repeat split.
    + reflexivity.
    + right. reflexivity.
Defined.

(** The price element is found, its text is "Total: €540", and the result
    still carries the label: it is not "€540". *)
Lemma extractPrice_keeps_Total :
  querySelector Pages.totalLabel 1 Selectors.price = Ok (Some 14)
  /\ textContent Pages.totalLabel 14 = Ok (lit "Total: " ++ euro :: lit "540")
  /\ extractPrice Pages.totalLabel 1 = lit "Total: " ++ euro :: lit "540"
  /\ extractPrice Pages.totalLabel 1 <> euro :: lit "540".
Proof. repeat split. vm_compute. discriminate. Qed.

(** ** Link *)

Lemma span_spec (p : N -> bool) (s a b : jsstring) :
  span p s = (a, b) -> s = a ++ b /\ forallb p a = true.
Proof.
  revert a b. induction s as [|c s IH]; intros a b; simpl.
  - intros H. injection H as <- <-. split; reflexivity.
  - destruct (p c) eqn:Hc.
    + destruct (span p s) as [a' b'] eqn:E. intros H. injection H as <- <-.
      destruct (IH a' b' eq_refl) as [-> Hall]. simpl. rewrite Hc, Hall.
      split; reflexivity.
    + intros H. injection H as <- <-. split; reflexivity.
Qed.

Lemma roomIdAt_sound (s id : jsstring) :
  roomIdAt s = Some id ->
  exists post, s = lit "/rooms/" ++ id ++ post
               /\ id <> [] /\ forallb isDigit id = true.
Proof.
  unfold roomIdAt. destruct (stripPrefix (lit "/rooms/") s) as [rest|] eqn:E;
    [|discriminate].
  destruct (span isDigit rest) as [ds post] eqn:Es. cbn [fst].
  destruct (span_spec _ _ Es) as [Hrest Hds].
  destruct ds as [|d ds]; [discriminate|]. intros H. injection H as <-.
  exists post. split; [|split].
  - rewrite <- Hrest. apply stripPrefix_Some. exact E.
  - discriminate.
  - exact Hds.
Qed.

(** A match of [/\/rooms\/(\d+)/] captures a non-empty run of digits that
    follows "/rooms/" in the text. *)
Lemma matchRoomId_sound (s id : jsstring) :
  matchRoomId s = Some id ->
  exists pre post, s = pre ++ lit "/rooms/" ++ id ++ post
                   /\ id <> [] /\ forallb isDigit id = true.
Proof.
  induction s as [|c s IH].
  - cbn [matchRoomId]. destruct (roomIdAt []) eqn:E; [|discriminate].
    intros H. injection H as ->.
    destruct (roomIdAt_sound _ E) as (post & Hs & Hid). exists [], post. auto.
  - cbn [matchRoomId]. destruct (roomIdAt (c :: s)) eqn:E.
    + intros H. injection H as ->.
      destruct (roomIdAt_sound _ E) as (post & Hs & Hid). exists [], post. auto.
    + intros H. destruct (IH H) as (pre & post & -> & Hid).
      exists (c :: pre), post. auto.
Qed.

(** Without a match, no "/rooms/" of the text is followed by a digit. *)
Lemma matchRoomId_none (s : jsstring) :
  matchRoomId s = None ->
  forall pre d post, s = pre ++ lit "/rooms/" ++ d :: post -> isDigit d = false.
Proof.
  induction s as [|c s IH]; intros Hm pre d post Hs.
  - destruct pre; discriminate.
  - cbn [matchRoomId] in Hm. destruct (roomIdAt (c :: s)) eqn:E; [discriminate|].
    destruct pre as [|c' pre].
    + cbn [app] in Hs. unfold roomIdAt in E. rewrite Hs, stripPrefix_app in E.
      cbn [span] in E. destruct (isDigit d); [|reflexivity].
      destruct (span isDigit post); discriminate.
    + injection Hs as _ Hs. exact (IH Hm pre d post Hs).
Qed.

(** [split("?")[0]] is the text up to the first question mark. *)
Lemma beforeFirst_spec (sep : N) (s : jsstring) :
  ~ In sep (beforeFirst sep s)
  /\ (s = beforeFirst sep s
      \/ exists rest, s = beforeFirst sep s ++ sep :: rest).
Proof.
  induction s as [|c s [Hnot Hsplit]]; simpl.
  - split; [tauto | left; reflexivity].
  - destruct (N.eqb_spec c sep) as [->|Hne].
    + split; [simpl; tauto | right; exists s; reflexivity].
    + split.
      * simpl. intros [H | H]; [congruence | tauto].
      * destruct Hsplit as [H | [rest H]].
        -- left. congruence.
        -- right. exists rest. simpl. congruence.
Qed.

Lemma isDigit_iff (c : N) : isDigit c = true <-> asciiDigit c.
Proof.
  unfold isDigit, asciiDigit. rewrite andb_true_iff, !N.leb_le. reflexivity.
Qed.

Lemma isDigit_false_iff (c : N) : isDigit c = false <-> ~ asciiDigit c.
Proof.
  rewrite <- isDigit_iff. destruct (isDigit c); split; intros H.
  - discriminate H.
  - exfalso. apply H. reflexivity.
  - discriminate.
  - reflexivity.
Qed.

Lemma forallb_isDigit_iff (s : jsstring) :
  forallb isDigit s = true <-> Forall asciiDigit s.
Proof.
  rewrite forallb_forall, Forall_forall.
  split; intros H c Hc; apply isDigit_iff; apply H; exact Hc.
Qed.

(** What a greedy run leaves does not start with a character of the run. *)
Lemma span_rest (p : N -> bool) (s a b : jsstring) :
  span p s = (a, b) -> forall d rest, b = d :: rest -> p d = false.
Proof.
  revert a b. induction s as [|c s IH]; intros a b; simpl.
  - intros H. injection H as <- <-. intros d rest Hd. discriminate Hd.
  - destruct (p c) eqn:Hc.
    + destruct (span p s) as [a' b'] eqn:E. intros H. injection H as <- <-.
      exact (IH a' b' eq_refl).
    + intros H. injection H as <- <-. intros d rest Hd. injection Hd as <- <-.
      exact Hc.
Qed.

(** A run that its rest does not continue is the greedy one. *)
Lemma span_maximal (p : N -> bool) (a b : jsstring) :
  forallb p a = true ->
  (forall d rest, b = d :: rest -> p d = false) ->
  span p (a ++ b) = (a, b).
Proof.
  intros Ha Hb. induction a as [|c a IH]; cbn [app].
  - destruct b as [|d rest]; [reflexivity|]. cbn [span].
    rewrite (Hb d rest eq_refl). reflexivity.
  - cbn [forallb] in Ha. apply andb_true_iff in Ha. destruct Ha as [Hc Ha].
    cbn [span]. rewrite Hc, (IH Ha). reflexivity.
Qed.

Lemma matchRoomId_step (s : jsstring) :
  matchRoomId s
  = match roomIdAt s with
    | Some id => Some id
    | None => match s with
              | _ :: r => matchRoomId r
              | [] => None
              end
    end.
Proof. destruct s; reflexivity. Qed.

Lemma roomIdAt_greedy (s id : jsstring) :
  roomIdAt s = Some id ->
  exists post, s = lit "/rooms/" ++ id ++ post
               /\ id <> [] /\ forallb isDigit id = true
               /\ forall d rest, post = d :: rest -> isDigit d = false.
Proof.
  unfold roomIdAt. destruct (stripPrefix (lit "/rooms/") s) as [rest|] eqn:E;
    [|discriminate].
  destruct (span isDigit rest) as [ds post] eqn:Es. cbn [fst].
  destruct (span_spec _ _ Es) as [Hrest Hds].
  pose proof (span_rest _ _ Es) as Hpost.
  destruct ds as [|d ds]; [discriminate|]. intros H. injection H as <-.
  exists post. split; [|split; [|split]].
  - rewrite <- Hrest. apply stripPrefix_Some. exact E.
  - discriminate.
  - exact Hds.
  - exact Hpost.
Qed.

Lemma roomIdAt_at_digit (d : N) (rest : jsstring) :
  isDigit d = true -> roomIdAt (lit "/rooms/" ++ d :: rest) <> None.
Proof.
  intros Hd. unfold roomIdAt. rewrite stripPrefix_app. cbn [span]. rewrite Hd.
  destruct (span isDigit rest). cbn [fst]. discriminate.
Qed.

(** The capture of [matchRoomId] is the one of the leftmost match of the
    expression, with its greedy run of digits. *)
Lemma matchRoomId_leftmost (s id : jsstring) :
  matchRoomId s = Some id -> exists pre post, roomIdMatch s pre id post.
Proof.
  induction s as [|c s IH]; rewrite matchRoomId_step.
  - destruct (roomIdAt []) eqn:E; [|discriminate].
    destruct (@roomIdAt_greedy _ _ E) as (post & Hs & _). discriminate Hs.
  - destruct (roomIdAt (c :: s)) as [id'|] eqn:E.
    + intros H. injection H as ->.
      destruct (@roomIdAt_greedy _ _ E) as (post & Hs & Hne & Hdigits & Hpost).
      exists [], post. split; [exact Hs|]. split; [exact Hne|].
      split; [apply forallb_isDigit_iff; exact Hdigits|].
      split.
      * intros d rest Hd. apply isDigit_false_iff. exact (Hpost d rest Hd).
      * intros pre' d rest _ _. apply Nat.le_0_l.
    + intros H. destruct (IH H) as (pre & post & Hs & Hne & Hdigits & Hpost & Hleft).
      exists (c :: pre), post. split; [rewrite Hs; reflexivity|].
      split; [exact Hne|]. split; [exact Hdigits|]. split; [exact Hpost|].
      intros pre' d rest Hs' Hd. destruct pre' as [|c' pre'].
      * exfalso. cbn [app] in Hs'. apply isDigit_iff in Hd.
        apply (@roomIdAt_at_digit d rest Hd). rewrite <- Hs'. exact E.
      * injection Hs' as _ Hs'. cbn [List.length]. apply le_n_S.
        exact (Hleft pre' d rest Hs' Hd).
Qed.

(** Conversely, the leftmost match with its greedy run is what
    [matchRoomId] captures. *)
Lemma matchRoomId_complete (s pre id post : jsstring) :
  roomIdMatch s pre id post -> matchRoomId s = Some id.
Proof.
  intros (Hs & Hne & Hdigits & Hpost & Hleft). subst s.
  induction pre as [|c pre IH]; rewrite matchRoomId_step.
  - cbn [app]. unfold roomIdAt. rewrite stripPrefix_app.
    rewrite span_maximal.
    + cbn [fst]. destruct id; [contradiction Hne; reflexivity | reflexivity].
    + apply forallb_isDigit_iff. exact Hdigits.
    + intros d rest Hd. apply isDigit_false_iff. exact (Hpost d rest Hd).
  - destruct (roomIdAt ((c :: pre) ++ lit "/rooms/" ++ id ++ post)) as [id'|] eqn:E.
    + exfalso. destruct (@roomIdAt_greedy _ _ E) as (post' & Hs & Hne' & Hdigits' & _).
      destruct id' as [|d ds]; [apply Hne'; reflexivity|].
      cbn [forallb] in Hdigits'. apply andb_true_iff in Hdigits'.
      destruct Hdigits' as [Hd _]. apply isDigit_iff in Hd.
      assert (Hle : (List.length (c :: pre) <= List.length (@nil N))%nat).
      { apply (Hleft [] d (ds ++ post')); [exact Hs | exact Hd]. }
      cbn [List.length] in Hle. lia.
    + cbn [app]. apply IH. intros pre' d rest Hs Hd.
      apply le_S_n. apply (Hleft (c :: pre') d rest); [|exact Hd].
      cbn [app]. rewrite Hs. reflexivity.
Qed.

Lemma matchRoomId_none_iff (s : jsstring) : matchRoomId s = None <-> noRoomId s.
Proof.
  split.
  - intros H pre d rest Hs. apply isDigit_false_iff.
    exact (@matchRoomId_none s H pre d rest Hs).
  - intros H. destruct (matchRoomId s) as [id|] eqn:E; [exfalso | reflexivity].
    destruct (@matchRoomId_leftmost _ _ E) as (pre & post & Hs & Hne & Hdigits & _).
    destruct id as [|d ds]; [apply Hne; reflexivity|].
    apply (H pre d (ds ++ post)); [exact Hs|].
    apply (Forall_inv Hdigits).
Qed.

(** C8.  For a card with an anchor whose [href] contains "/rooms/": when
    the expression [/\/rooms\/(\d+)/] matches the [href], that is, when a
    "/rooms/" of the [href] is followed by a digit, the result is
    "https://www.airbnb.com/rooms/" followed by the id, which is the whole
    run of digits after the leftmost such "/rooms/", and by nothing of what
    follows the id, the query included.  Otherwise the result is
    "https://www.airbnb.com" followed by the [href] up to its first "?"
    (code unit 63), the whole [href] when it has none.  One of the two
    cases always applies.  The [href] "/rooms/12345678?source=wishlist"
    gives "https://www.airbnb.com/rooms/12345678".  Without such an anchor
    the result is the empty string. *)
Theorem extractLink_spec (Element : Type) (dom : Dom Element) (card : Element) :
  (forall (a : Element) (href before after : jsstring),
      querySelector dom card Selectors.roomLink = Ok (Some a) ->
      getAttribute dom a "href" = Ok (Some href) ->
      href = before ++ lit "/rooms/" ++ after ->
      (forall pre id post,
          roomIdMatch href pre id post ->
          extractLink dom card = lit "https://www.airbnb.com/rooms/" ++ id)
      /\ (noRoomId href ->
          exists path,
            extractLink dom card = lit "https://www.airbnb.com" ++ path
            /\ ~ In 63%N path
            /\ (href = path \/ exists query, href = path ++ lit "?" ++ query))
      /\ ((exists pre id post, roomIdMatch href pre id post) \/ noRoomId href))
  /\ (forall a : Element,
         querySelector dom card Selectors.roomLink = Ok (Some a) ->
         getAttribute dom a "href"
         = Ok (Some (lit "/rooms/12345678?source=wishlist")) ->
         extractLink dom card = lit "https://www.airbnb.com/rooms/12345678")
  /\ (querySelector dom card Selectors.roomLink = Ok None ->
      extractLink dom card = []).
Proof.
  unfold extractLink, extractLink_try. split; [|split].
  - intros a href before after Ha Hhref Hrooms. rewrite Ha. cbn [bind].
    rewrite Hhref. cbn [bind].
    destruct href as [|c h]; [destruct before; discriminate Hrooms|].
    split; [|split].
    + intros pre id post Hmatch. rewrite (@matchRoomId_complete _ _ _ _ Hmatch).
      reflexivity.
    + intros Hnone. apply matchRoomId_none_iff in Hnone. rewrite Hnone.
      cbn [tryCatch].
      destruct (beforeFirst_spec questionMark (c :: h)) as [Hnot Hsplit].
      exists (beforeFirst questionMark (c :: h)).
      split; [reflexivity|]. split; [exact Hnot | exact Hsplit].
    + destruct (matchRoomId (c :: h)) as [id|] eqn:E.
      * left. destruct (@matchRoomId_leftmost _ _ E) as (pre & post & Hmatch).
        exists pre, id, post. exact Hmatch.
      * right. apply matchRoomId_none_iff. exact E.
  - intros a Ha Hhref. rewrite Ha. cbn [bind]. rewrite Hhref. reflexivity.
  - intros Hnone. rewrite Hnone. reflexivity.
Qed.

Lemma extractLink_spec_witness :
  extractLink Pages.wishlist 1 = lit "https://www.airbnb.com/rooms/12345678"
  /\ extractLink Pages.blank 1 = [].
Proof.
  split.
  - destruct (extractLink_spec Pages.wishlist 1) as (H & _ & _).
    destruct (H 15 (lit "/rooms/12345678?source=wishlist") []
                (lit "12345678?source=wishlist") eq_refl eq_refl eq_refl)
      as [Hid _].
    apply (Hid [] (lit "12345678") (lit "?source=wishlist")).
    split; [reflexivity|]. split; [discriminate|].
    split; [apply forallb_isDigit_iff; reflexivity|].
    split.
    + intros d rest Hd. injection Hd as <- _. unfold asciiDigit. lia.
    + intros pre' d rest _ _. apply Nat.le_0_l.
  - destruct (extractLink_spec Pages.blank 1) as (_ & _ & H).
    apply H. reflexivity.
Defined.

(** ** Comment *)

Section Comment.

Variable Element : Type.

Lemma commentRoomId_returns (dom : Dom Element) (card : Element) :
  roomLinkConforms dom card -> exists id, commentRoomId dom card = Ok id.
Proof.
  unfold commentRoomId. intros [Hnone | (a & h & Ha & Hh)].
  - rewrite Hnone. exists []. reflexivity.
  - rewrite Ha. cbn [bind]. rewrite Hh. cbn [bind].
    destruct (matchRoomId h) as [id|]; eexists; reflexivity.
Qed.

Lemma commentAfter_view (dom : Dom Element) (card : Element) :
  tryCatch (commentAfter dom card) (fun _ => []) = commentOfView (siblingView dom card).
Proof.
  unfold commentAfter, siblingView.
  destruct (nextElementSibling dom card) as [[next|]|e]; cbn [bind]; try reflexivity.
  destruct (classList_contains dom next Selectors.commentWrapperClass) as [[|]|e];
    cbn [bind]; try reflexivity.
  destruct (querySelector dom next Selectors.commentText) as [[d|]|e]; cbn [bind];
    try reflexivity.
  destruct (textContent dom d) as [t|e]; reflexivity.
Qed.

(** With a conforming anchor lookup the first block returns, and the
    comment is that of the view. *)
Lemma extractComment_view (dom : Dom Element) (card : Element) :
  roomLinkConforms dom card ->
  extractComment dom card = commentOfView (siblingView dom card).
Proof.
  intros H. unfold extractComment, extractComment_try.
  destruct (commentRoomId_returns H) as [id ->]. cbn [bind].
  apply commentAfter_view.
Qed.

Lemma commentText_is_not_roomLink : Selectors.commentText <> Selectors.roomLink.
Proof. intros H. vm_compute in H. discriminate H. Qed.

Lemma siblingView_same (dom1 dom2 : Dom Element) (card : Element) :
  sameExceptLinks dom1 dom2 -> siblingView dom1 card = siblingView dom2 card.
Proof.
  intros (Hnext & Hclass & Htext & Hquery). unfold siblingView.
  rewrite Hnext. destruct (nextElementSibling dom2 card) as [[next|]|e];
    try reflexivity.
  rewrite Hclass.
  destruct (classList_contains dom2 next Selectors.commentWrapperClass) as [[|]|e];
    try reflexivity.
  rewrite (Hquery next _ commentText_is_not_roomLink).
  destruct (querySelector dom2 next Selectors.commentText) as [[d|]|e];
    try reflexivity.
  rewrite Htext. reflexivity.
Qed.

(** Two pages that differ in nothing but the link anchors give the same
    comment for a card. *)
Lemma extractComment_same_except_links (dom1 dom2 : Dom Element) (card : Element) :
  sameExceptLinks dom1 dom2 ->
  roomLinkConforms dom1 card -> roomLinkConforms dom2 card ->
  extractComment dom1 card = extractComment dom2 card.
Proof.
  intros Hsame H1 H2.
  rewrite (extractComment_view H1), (extractComment_view H2).
  rewrite (siblingView_same card Hsame). reflexivity.
Qed.

End Comment.

(** C10.  The room id that [extractComment] reads from the link of the
    card is not used.  On every card whose anchor lookup answers as a DOM
    does, the comment is a function of the view of the element after the
    card alone: whether that element has the wrapper class, and the text
    of its comment element, from which the first "Bearbeiten" is removed.
    Two cards, on one page or on two, with the same view of the element
    after them have the same comment, whatever their link anchors are. *)
Theorem extractComment_ignores_link (Element : Type) (dom1 dom2 : Dom Element)
        (card1 card2 : Element) :
  roomLinkConforms dom1 card1 ->
  roomLinkConforms dom2 card2 ->
  extractComment dom1 card1 = commentOfView (siblingView dom1 card1)
  /\ (siblingView dom1 card1 = siblingView dom2 card2 ->
      extractComment dom1 card1 = extractComment dom2 card2).
Proof.
  intros H1 H2. split.
  - apply extractComment_view. exact H1.
  - intros Hview.
    rewrite (extractComment_view H1), (extractComment_view H2), Hview.
    reflexivity.
Qed.

Lemma extractComment_ignores_link_witness :
  roomLinkConforms Pages.wishlist 1
  /\ roomLinkConforms Pages.wishlistWithoutLinks 1
  /\ extractLink Pages.wishlist 1 <> extractLink Pages.wishlistWithoutLinks 1
  /\ extractComment Pages.wishlist 1 = extractComment Pages.wishlistWithoutLinks 1
  /\ extractComment Pages.wishlist 1 = lit "Great view".
Proof.
  assert (H1 : roomLinkConforms Pages.wishlist 1).
  { right. exists 15, (lit "/rooms/12345678?source=wishlist"). split; reflexivity. }
  assert (H2 : roomLinkConforms Pages.wishlistWithoutLinks 1) by (left; reflexivity).
  destruct (@extractComment_ignores_link nat Pages.wishlist Pages.wishlistWithoutLinks
              1 1 H1 H2) as [Hview Hsame].
  split; [exact H1|]. split; [exact H2|]. split; [|split].
  - intros E. vm_compute in E. discriminate E.
  - apply Hsame. reflexivity.
  - rewrite Hview. reflexivity.
Defined.

Example wishlist_pages_same_except_links :
  sameExceptLinks Pages.wishlist Pages.wishlistWithoutLinks.
Proof.
  repeat split; try reflexivity.
  intros x sel Hsel. cbn [querySelector Pages.wishlistWithoutLinks].
  destruct (String.eqb_spec sel Selectors.roomLink); [contradiction | reflexivity].
Qed.

(** An anchor without [href] would make [href.match] throw, and the
    [catch] of [extractComment] would give the empty string although the
    element after the card holds a comment. *)
Remark null_href_blanks_comment :
  ~ roomLinkConforms Pages.anchorWithoutHref 1
  /\ commentOfView (siblingView Pages.anchorWithoutHref 1) = lit "Great view"
  /\ extractComment Pages.anchorWithoutHref 1 = [].
Proof.
  split; [|split; reflexivity].
  intros [H | (a & h & _ & H)]; discriminate H.
Qed.

(** * Properties of the rest of the code *)

Unset Implicit Arguments.

(** ** White space at the ends *)

Lemma isDigit_not_space (c : N) : isDigit c = true -> isWhiteSpace c = false.
Proof.
  unfold isDigit, isWhiteSpace. intros H.
  apply andb_true_iff in H. destruct H as [H1 H2].
  apply N.leb_le in H1. apply N.leb_le in H2.
  repeat match goal with
         | |- context [(?a =? ?b)%N] =>
             destruct (N.eqb_spec a b); [exfalso; lia|]
         | |- context [(?a <=? ?b)%N] =>
             destruct (N.leb_spec a b)
         end; try reflexivity; exfalso; lia.
Qed.

Lemma trimStart_length (s : jsstring) :
  (List.length (trimStart s) <= List.length s)%nat.
Proof.
  induction s as [|c s IH]; simpl; [lia|].
  destruct (isWhiteSpace c); simpl; lia.
Qed.

Lemma trimStart_fixed_cons (c : N) (r : jsstring) :
  trimStart (c :: r) = c :: r <-> isWhiteSpace c = false.
Proof.
  simpl. destruct (isWhiteSpace c) eqn:Hc; split; try reflexivity; try discriminate.
  intros H. pose proof (trimStart_length r) as Hl. rewrite H in Hl. simpl in Hl. lia.
Qed.

Lemma trimStart_app_last (l : jsstring) (c : N) :
  isWhiteSpace c = false -> exists x, trimStart (l ++ [c]) = x ++ [c].
Proof.
  intros Hc. induction l as [|a l [x IH]]; simpl.
  - rewrite Hc. exists []. reflexivity.
  - destruct (isWhiteSpace a).
    + exists x. exact IH.
    + exists (a :: l). reflexivity.
Qed.

Lemma trimEnd_cons_clean (c : N) (r : jsstring) :
  isWhiteSpace c = false -> exists r', trimEnd (c :: r) = c :: r'.
Proof.
  intros Hc. unfold trimEnd. simpl rev.
  destruct (@trimStart_app_last (rev r) c Hc) as [x ->].
  exists (rev x). rewrite rev_app_distr. reflexivity.
Qed.

Lemma trimEnd_idempotent (s : jsstring) : trimEnd (trimEnd s) = trimEnd s.
Proof.
  unfold trimEnd. rewrite rev_involutive, trimStart_idempotent. reflexivity.
Qed.

(** [trimEnd] removes a run of white space at the end. *)
Lemma trimEnd_split (s : jsstring) :
  exists ws, s = trimEnd s ++ ws /\ forallb isWhiteSpace ws = true.
Proof.
  destruct (trimStart_split (rev s)) as (ws & Hs & Hws).
  exists (rev ws). split.
  - unfold trimEnd. rewrite <- rev_app_distr, <- Hs, rev_involutive. reflexivity.
  - rewrite forallb_forall in *. intros x Hx. apply Hws. apply in_rev. exact Hx.
Qed.

Lemma trimEnd_keeps_start (s : jsstring) :
  trimStart s = s -> trimStart (trimEnd s) = trimEnd s.
Proof.
  destruct s as [|c r]; [reflexivity|].
  intros H. apply trimStart_fixed_cons in H.
  destruct (@trimEnd_cons_clean c r H) as [r' ->].
  apply trimStart_fixed_cons. exact H.
Qed.

Lemma trimmed_iff (s : jsstring) :
  trimmed s <-> trimStart s = s /\ trimEnd s = s.
Proof.
  unfold trimmed, trim. split.
  - intros H. split.
    + rewrite <- H. apply trimEnd_keeps_start. apply trimStart_idempotent.
    + rewrite <- H. apply trimEnd_idempotent.
  - intros [H1 H2]. rewrite H1. exact H2.
Qed.

Lemma trim_trimmed (s : jsstring) : trimmed (trim s).
Proof.
  apply trimmed_iff. unfold trim. split.
  - apply trimEnd_keeps_start. apply trimStart_idempotent.
  - apply trimEnd_idempotent.
Qed.

Lemma nil_trimmed : trimmed [].
Proof. reflexivity. Qed.

(** A non-empty part at the end of a text without white space at its end
    has none at its end either. *)
Lemma trimEnd_suffix (a b : jsstring) :
  trimEnd (a ++ b) = a ++ b -> b <> [] -> trimEnd b = b.
Proof.
  unfold trimEnd. intros H Hb.
  assert (Hrev : trimStart (rev b ++ rev a) = rev b ++ rev a).
  { rewrite <- rev_app_distr. apply (f_equal (@rev N)) in H.
    rewrite rev_involutive in H. exact H. }
  destruct (rev b) as [|c rb] eqn:E.
  - exfalso. apply Hb. apply (f_equal (@rev N)) in E.
    rewrite rev_involutive in E. exact E.
  - cbn [app] in Hrev. apply trimStart_fixed_cons in Hrev.
    assert (Hfix : trimStart (c :: rb) = c :: rb) by (apply trimStart_fixed_cons; exact Hrev).
    rewrite Hfix, <- E. apply rev_involutive.
Qed.

Lemma trimStart_suffix (s : jsstring) : exists ws, s = ws ++ trimStart s.
Proof. destruct (trimStart_split s) as (ws & H & _). exists ws. exact H. Qed.

Lemma replaceLeadingLabel_trimmed (label s : jsstring) :
  trimmed s -> trimmed (replaceLeadingLabel label s).
Proof.
  intros Hs. unfold replaceLeadingLabel.
  destruct (stripPrefix label s) as [rest|] eqn:E; [|exact Hs].
  apply trimmed_iff. split; [apply trimStart_idempotent|].
  destruct (trimStart rest) as [|c r] eqn:Et; [reflexivity|].
  apply trimmed_iff in Hs. destruct Hs as [_ Hend].
  apply stripPrefix_Some in E. destruct (trimStart_suffix rest) as [ws Hws].
  rewrite Et in Hws.
  apply trimEnd_suffix with (a := label ++ ws); [|discriminate].
  rewrite <- app_assoc, <- Hws, <- E. exact Hend.
Qed.

(** ** Rating *)

Lemma isDecimalSep_not_digit (c : N) : isDecimalSep c = true -> isDigit c = false.
Proof.
  unfold isDecimalSep, isDigit. intros H. apply orb_true_iff in H.
  destruct H as [H | H]; apply N.eqb_eq in H; subst c; reflexivity.
Qed.

Lemma decimalAt_sound (s m : jsstring) :
  decimalAt s = Some m -> isDecimalNumber m /\ exists post, s = m ++ post.
Proof.
  unfold decimalAt. destruct (span isDigit s) as [int rest] eqn:Es.
  destruct (span_spec _ _ Es) as [Hs Hint].
  destruct int as [|d int]; [discriminate|].
  destruct rest as [|sep rest]; [discriminate|].
  destruct (isDecimalSep sep) eqn:Hsep; [|discriminate].
  destruct (span isDigit rest) as [frac post] eqn:Er. cbn [fst].
  destruct (span_spec _ _ Er) as [Hr Hfrac].
  destruct frac as [|f frac]; [discriminate|].
  intros H. injection H as <-. split.
  - exists (d :: int), sep, (f :: frac). repeat split; try assumption; discriminate.
  - exists post. rewrite Hs, Hr. cbn [app]. f_equal.
    rewrite <- app_assoc. reflexivity.
Qed.

Lemma matchDecimal_sound (s m : jsstring) :
  matchDecimal s = Some m ->
  isDecimalNumber m /\ exists pre post, s = pre ++ m ++ post.
Proof.
  induction s as [|c s IH]; cbn [matchDecimal].
  - destruct (decimalAt []) eqn:E; [|discriminate].
    intros H. injection H as ->.
    destruct (decimalAt_sound _ _ E) as [Hm [post Hs]]. split; [exact Hm|].
    exists [], post. exact Hs.
  - destruct (decimalAt (c :: s)) eqn:E.
    + intros H. injection H as ->.
      destruct (decimalAt_sound _ _ E) as [Hm [post Hs]]. split; [exact Hm|].
      exists [], post. exact Hs.
    + intros H. destruct (IH H) as [Hm (pre & post & ->)]. split; [exact Hm|].
      exists (c :: pre), post. reflexivity.
Qed.

Lemma decimalAt_hit (post : jsstring) (d1 sep d2 : N) :
  isDigit d1 = true -> isDecimalSep sep = true -> isDigit d2 = true ->
  decimalAt (d1 :: sep :: d2 :: post) <> None.
Proof.
  intros H1 Hsep H2. unfold decimalAt. cbn [span].
  rewrite H1, (isDecimalSep_not_digit _ Hsep). cbn [span]. rewrite Hsep.
  cbn [span]. rewrite H2.
  destruct (span isDigit post) as [a b]. cbn [fst]. discriminate.
Qed.

Lemma matchDecimal_complete (pre post : jsstring) (d1 sep d2 : N) :
  isDigit d1 = true -> isDecimalSep sep = true -> isDigit d2 = true ->
  matchDecimal (pre ++ d1 :: sep :: d2 :: post) <> None.
Proof.
  intros H1 Hsep H2. induction pre as [|c pre IH]; cbn [app matchDecimal].
  - destruct (decimalAt (d1 :: sep :: d2 :: post)) eqn:E; [discriminate|].
    exfalso. exact (decimalAt_hit post d1 sep d2 H1 Hsep H2 E).
  - destruct (decimalAt (c :: pre ++ d1 :: sep :: d2 :: post));
      [discriminate | exact IH].
Qed.

Lemma trimEnd_last (x : jsstring) (c : N) :
  isWhiteSpace c = false -> trimEnd (x ++ [c]) = x ++ [c].
Proof.
  intros Hc. unfold trimEnd. rewrite rev_app_distr. cbn [rev app].
  assert (Hfix : trimStart (c :: rev x) = c :: rev x)
    by (apply trimStart_fixed_cons; exact Hc).
  rewrite Hfix. cbn [rev]. rewrite rev_involutive. reflexivity.
Qed.

Lemma isDecimalNumber_trimmed (s : jsstring) : isDecimalNumber s -> trimmed s.
Proof.
  intros (int & sep & frac & -> & Hint & Dint & _ & Hfrac & Dfrac).
  apply trimmed_iff. split.
  - destruct int as [|d int]; [congruence|]. cbn [app].
    apply trimStart_fixed_cons. apply isDigit_not_space.
    cbn [forallb] in Dint. apply andb_true_iff in Dint. tauto.
  - destruct (exists_last Hfrac) as (frac' & d & ->).
    rewrite forallb_app in Dfrac. apply andb_true_iff in Dfrac.
    destruct Dfrac as [_ Dd]. cbn [forallb] in Dd. apply andb_true_iff in Dd.
    destruct Dd as [Dd _].
    replace (int ++ sep :: frac' ++ [d]) with ((int ++ sep :: frac') ++ [d])
      by (rewrite <- app_assoc; reflexivity).
    apply trimEnd_last. apply isDigit_not_space. exact Dd.
Qed.

Lemma extractRating_shape_aux (Element : Type) (dom : Dom Element) (card : Element) :
  extractRating dom card = [] \/ isDecimalNumber (extractRating dom card).
Proof.
  unfold extractRating, extractRating_try.
  destruct (querySelector dom card Selectors.rating) as [[e|]|err]; cbn [bind tryCatch];
    try (left; reflexivity).
  destruct (textContent dom e) as [t|err]; cbn [bind tryCatch]; try (left; reflexivity).
  destruct (matchDecimal (trim t)) as [m|] eqn:E; cbn [tryCatch];
    [right; apply (matchDecimal_sound _ _ E) | left; reflexivity].
Qed.

(** X1.  For every page and card, faults included, the rating is the
    empty string or has the shape digits, "." or ",", digits.  When the
    rating element is found and its text is read, the rating is a part of
    that text, and it is empty exactly when the trimmed text has no digit
    followed by "." or "," and a digit. *)
Theorem extractRating_shape (Element : Type) (dom : Dom Element) (card : Element) :
  (extractRating dom card = [] \/ isDecimalNumber (extractRating dom card))
  /\ forall (e : Element) (t : jsstring),
      querySelector dom card Selectors.rating = Ok (Some e) ->
      textContent dom e = Ok t ->
      (exists pre post, trim t = pre ++ extractRating dom card ++ post)
      /\ (extractRating dom card = [] <->
          ~ exists pre d1 sep d2 post,
              trim t = pre ++ d1 :: sep :: d2 :: post
              /\ isDigit d1 = true /\ isDecimalSep sep = true /\ isDigit d2 = true).
Proof.
  split; [apply extractRating_shape_aux|].
  unfold extractRating, extractRating_try.
  - intros e t He Ht. rewrite He. cbn [bind]. rewrite Ht. cbn [bind].
    destruct (matchDecimal (trim t)) as [m|] eqn:E; cbn [tryCatch].
    + destruct (matchDecimal_sound _ _ E) as [Hm Hsub]. split; [exact Hsub|].
      split.
      * intros ->. destruct Hm as (int & sep & frac & H & _). destruct int; discriminate.
      * intros Hno. exfalso. apply Hno.
        destruct Hsub as (pre & post & Hs).
        destruct Hm as (int & sep & frac & -> & Hint & Dint & Hsep & Hfrac & Dfrac).
        destruct (exists_last Hint) as (int' & d1 & ->).
        destruct frac as [|d2 frac']; [congruence|].
        exists (pre ++ int'), d1, sep, d2, (frac' ++ post). split.
        -- rewrite Hs. repeat (rewrite <- app_assoc; cbn [app]). reflexivity.
        -- rewrite forallb_app in Dint. apply andb_true_iff in Dint.
           destruct Dint as [_ D1]. cbn [forallb] in D1, Dfrac.
           apply andb_true_iff in D1. apply andb_true_iff in Dfrac. tauto.
    + split; [exists [], (trim t); reflexivity|]. split; [|reflexivity].
      intros _ (pre & d1 & sep & d2 & post & Hs & H1 & Hsep & H2).
      rewrite Hs in E. exact (matchDecimal_complete pre post d1 sep d2 H1 Hsep H2 E).
Qed.

Lemma extractRating_shape_witness :
  querySelector Pages.wishlist 1 Selectors.rating = Ok (Some 12)
  /\ textContent Pages.wishlist 12 = Ok (lit "4,92 (12)")
  /\ extractRating Pages.wishlist 1 = lit "4,92"
  /\ exists pre post, trim (lit "4,92 (12)") = pre ++ extractRating Pages.wishlist 1 ++ post.
Proof.
  assert (He : querySelector Pages.wishlist 1 Selectors.rating = Ok (Some 12)) by reflexivity.
  assert (Ht : textContent Pages.wishlist 12 = Ok (lit "4,92 (12)")) by reflexivity.
  split; [exact He|]. split; [exact Ht|]. split; [reflexivity|].
  destruct (extractRating_shape nat Pages.wishlist 1) as [_ H].
  destruct (H 12 (lit "4,92 (12)") He Ht) as [Hsub _].
  exact Hsub.
Defined.

(** ** Property name *)

Lemma trimStart_all_space (t : jsstring) :
  forallb isWhiteSpace t = true -> trimStart t = [].
Proof.
  induction t as [|c t IH]; simpl; [reflexivity|].
  intros H. apply andb_true_iff in H. destruct H as [Hc Ht].
  rewrite Hc. apply IH. exact Ht.
Qed.

Lemma trim_all_space (t : jsstring) :
  forallb isWhiteSpace t = true -> trim t = [].
Proof. intros H. unfold trim. rewrite (trimStart_all_space t H). reflexivity. Qed.

(** X2.  A subtitle element that is found decides the name: the name is
    its trimmed text whatever the lookup of title elements would give, so
    a subtitle of white space only gives the empty name.  Title elements
    count only without a subtitle element: then the name is the trimmed
    text of the first of them, or empty when there is none. *)
Theorem extractPropertyName_precedence (Element : Type) (dom : Dom Element)
        (card : Element) :
  (forall (e : Element) (t : jsstring),
      querySelector dom card Selectors.subtitle = Ok (Some e) ->
      textContent dom e = Ok t ->
      extractPropertyName dom card = trim t
      /\ (forallb isWhiteSpace t = true -> extractPropertyName dom card = []))
  /\ (forall (titles : list Element),
         querySelector dom card Selectors.subtitle = Ok None ->
         querySelectorAll dom card Selectors.title = Ok titles ->
         match titles with
         | [] => extractPropertyName dom card = []
         | e0 :: _ =>
             forall t, textContent dom e0 = Ok t ->
                       extractPropertyName dom card = trim t
         end).
Proof.
  unfold extractPropertyName, extractPropertyName_try. split.
  - intros e t He Ht. rewrite He. cbn [bind]. rewrite Ht. cbn [bind tryCatch].
    split; [reflexivity | apply trim_all_space].
  - intros titles Hnone Htitles. rewrite Hnone. cbn [bind]. rewrite Htitles. cbn [bind].
    destruct titles as [|e0 rest]; [reflexivity|].
    intros t Ht. rewrite Ht. reflexivity.
Qed.

Lemma extractPropertyName_precedence_witness :
  querySelector Pages.wishlist 1 Selectors.subtitle = Ok (Some 11)
  /\ textContent Pages.wishlist 11 = Ok (lit "  Cozy loft ")
  /\ extractPropertyName Pages.wishlist 1 = trim (lit "  Cozy loft ").
Proof.
  assert (He : querySelector Pages.wishlist 1 Selectors.subtitle = Ok (Some 11))
    by reflexivity.
  assert (Ht : textContent Pages.wishlist 11 = Ok (lit "  Cozy loft ")) by reflexivity.
  split; [exact He|]. split; [exact Ht|].
  destruct (extractPropertyName_precedence nat Pages.wishlist 1) as [H _].
  destruct (H 11 (lit "  Cozy loft ") He Ht) as [Hname _].
  exact Hname.
Defined.

(** ** Fields without white space at the ends *)

Lemma dedupBedText_trimmed (fullText : jsstring) :
  trimmed fullText -> trimmed (dedupBedText fullText).
Proof.
  intros H. unfold dedupBedText.
  destruct (Nat.even (List.length fullText)); [|exact H].
  match goal with
  | |- context [if ?b then _ else _] => destruct b
  end; [apply trim_trimmed | exact H].
Qed.

Lemma firstCurrencyText_outcome (Element : Type) (dom : Dom Element)
      (els : list Element) (found : option jsstring) :
  firstCurrencyText dom els = Ok found ->
  match found with
  | None => True
  | Some p =>
      exists t, p = trim t
                /\ (includes t [euro] = true \/ includes t (lit "$") = true)
  end.
Proof.
  induction els as [|el els IH]; cbn [firstCurrencyText].
  - intros H. injection H as <-. exact I.
  - destruct (textContent dom el) as [t|e]; cbn [bind]; [|discriminate].
    destruct (negb (JsString.eqb t []) && (includes t [euro] || includes t (lit "$")))
      eqn:E; [|exact IH].
    intros H. injection H as <-. exists t. split; [reflexivity|].
    apply andb_true_iff in E. destruct E as [_ E].
    apply orb_true_iff in E. exact E.
Qed.

(** X3.  For every page and card, faults included, the name, the rating,
    the date, the bed information, the price and the comment of the record
    have no white space at either end. *)
Theorem record_fields_trimmed (Element : Type) (dom : Dom Element) (card : Element) :
  trimmed (propertyName (listingOf dom card))
  /\ trimmed (rating (listingOf dom card))
  /\ trimmed (date (listingOf dom card))
  /\ trimmed (beds (listingOf dom card))
  /\ trimmed (totalPrice (listingOf dom card))
  /\ trimmed (comment (listingOf dom card)).
Proof.
  cbn [listingOf propertyName rating date beds totalPrice comment].
  split; [|split; [|split; [|split; [|split]]]].
  - unfold extractPropertyName, extractPropertyName_try.
    destruct (querySelector dom card Selectors.subtitle) as [[e|]|err]; cbn [bind tryCatch];
      try apply nil_trimmed.
    + destruct (textContent dom e) as [t|err]; cbn [bind tryCatch];
        [apply trim_trimmed | apply nil_trimmed].
    + destruct (querySelectorAll dom card Selectors.title) as [[|e0 rest]|err];
        cbn [bind tryCatch]; try apply nil_trimmed.
      destruct (textContent dom e0) as [t|err]; cbn [bind tryCatch];
        [apply trim_trimmed | apply nil_trimmed].
  - destruct (extractRating_shape_aux Element dom card) as [-> | H];
      [apply nil_trimmed | apply isDecimalNumber_trimmed; exact H].
  - unfold extractDate, extractDate_try.
    destruct (doc_querySelector dom Selectors.dateButton) as [[b|]|err];
      cbn [bind tryCatch]; try apply nil_trimmed.
    destruct (textContent dom b) as [t|err]; cbn [bind tryCatch];
      [apply trim_trimmed | apply nil_trimmed].
  - unfold extractBedInfo, extractBedInfo_try.
    destruct (querySelector dom card Selectors.details) as [[container|]|err];
      cbn [bind tryCatch]; try apply nil_trimmed.
    destruct (querySelectorAll dom container Selectors.visibleDivChildren)
      as [[|c1 [|c2 [|third rest]]]|err]; cbn [bind tryCatch]; try apply nil_trimmed.
    destruct (textContent dom third) as [t|err]; cbn [bind tryCatch];
      [apply dedupBedText_trimmed; apply trim_trimmed | apply nil_trimmed].
  - unfold extractPrice, extractPrice_try.
    destruct (querySelector dom card Selectors.price) as [[e|]|err]; cbn [bind tryCatch];
      try apply nil_trimmed.
    + destruct (textContent dom e) as [t|err]; cbn [bind tryCatch];
        [| apply nil_trimmed].
      apply replaceLeadingLabel_trimmed, replaceLeadingLabel_trimmed, trim_trimmed.
    + destruct (querySelectorAll dom card Selectors.divOrSpan) as [els|err];
        cbn [bind tryCatch]; try apply nil_trimmed.
      destruct (firstCurrencyText dom els) as [[p|]|err] eqn:E; cbn [bind tryCatch];
        try apply nil_trimmed.
      destruct (firstCurrencyText_outcome Element dom els (Some p) E) as (t & -> & _).
      apply trim_trimmed.
  - unfold extractComment, extractComment_try.
    destruct (commentRoomId dom card) as [id|err]; cbn [bind tryCatch];
      try apply nil_trimmed.
    rewrite commentAfter_view. unfold commentOfView.
    destruct (siblingView dom card); try apply nil_trimmed. apply trim_trimmed.
Qed.

(** ** The similarity matcher as a relation *)

Lemma startsWith_refl (s : jsstring) : startsWith s s = true.
Proof. induction s as [|c s IH]; simpl; [reflexivity|]. rewrite N.eqb_refl. exact IH. Qed.

Lemma includes_refl (s : jsstring) : includes s s = true.
Proof. destruct s; cbn [includes]; rewrite startsWith_refl; reflexivity. Qed.

Lemma strictEq_sym (a b : option N) : strictEq a b = strictEq b a.
Proof. destruct a, b; simpl; try reflexivity. apply N.eqb_sym. Qed.

Lemma alignedMatches_sym (a b : jsstring) : alignedMatches a b = alignedMatches b a.
Proof.
  unfold alignedMatches. rewrite (Nat.min_comm (List.length b)).
  f_equal. apply filter_ext. intros i. apply strictEq_sym.
Qed.

(** X4.  [areStringSimilar] is reflexive and symmetric: a string is
    similar to itself, and the order of the two arguments does not
    matter. *)
Theorem areStringSimilar_reflexive_symmetric :
  (forall a : jsstring, areStringSimilar a a = true)
  /\ (forall a b : jsstring, areStringSimilar a b = areStringSimilar b a).
Proof.
  split.
  - intros a. unfold areStringSimilar. rewrite includes_refl. reflexivity.
  - intros a b. unfold areStringSimilar.
    rewrite (orb_comm (includes b a)).
    replace (Z.abs (Z.of_nat (List.length b) - Z.of_nat (List.length a)))
      with (Z.abs (Z.of_nat (List.length a) - Z.of_nat (List.length b))) by lia.
    rewrite !countMatches_aligned, (alignedMatches_sym b a).
    rewrite (Nat.max_comm (List.length b)). reflexivity.
Qed.

(** ** The bed text that is kept *)

Lemma trimEnd_cons_nonempty (c : N) (r : jsstring) :
  isWhiteSpace c = false -> trimEnd (c :: r) <> [].
Proof.
  intros Hc. destruct (trimEnd_cons_clean c r Hc) as [r' ->]. discriminate.
Qed.

(** X5.  On a text without white space at its start (every text that
    [extractBedInfo] passes is trimmed), the heuristic returns a prefix of
    the text, and it returns the empty string only for the empty text: it
    never invents or reorders text, and never turns bed information into
    nothing. *)
Theorem dedupBedText_prefix (fullText : jsstring) :
  trimStart fullText = fullText ->
  (exists rest, fullText = dedupBedText fullText ++ rest)
  /\ (dedupBedText fullText = [] -> fullText = []).
Proof.
  intros Hstart. unfold dedupBedText.
  destruct (Nat.even (List.length fullText)) eqn:Hev;
    [| split; [exists []; rewrite app_nil_r; reflexivity | tauto]].
  match goal with
  | |- context [if ?b then _ else _] => destruct b
  end; [| split; [exists []; rewrite app_nil_r; reflexivity | tauto]].
  destruct fullText as [|c r]; [split; [exists []; reflexivity | reflexivity]|].
  apply trimStart_fixed_cons in Hstart.
  assert (Hhalf : exists h, Nat.div (List.length (c :: r)) 2 = S h).
  { destruct (Nat.div (List.length (c :: r)) 2) as [|h] eqn:E; [|exists h; reflexivity].
    exfalso. apply Nat.even_spec in Hev. destruct Hev as [k Hk].
    rewrite Hk, Nat.mul_comm, Nat.div_mul in E by lia. simpl in Hk. lia. }
  destruct Hhalf as [h ->].
  unfold trim, substring. rewrite Nat.sub_0_r. cbn [skipn firstn].
  assert (Hfix : trimStart (c :: firstn h r) = c :: firstn h r)
    by (apply trimStart_fixed_cons; exact Hstart).
  rewrite Hfix. split.
  - destruct (trimEnd_split (c :: firstn h r)) as (ws & Hsplit & _).
    exists (ws ++ skipn h r).
    rewrite app_assoc, <- Hsplit. cbn [app]. rewrite firstn_skipn. reflexivity.
  - intros H. exfalso. exact (trimEnd_cons_nonempty c (firstn h r) Hstart H).
Qed.

Lemma dedupBedText_prefix_witness :
  trimStart (lit "2 beds2 beds") = lit "2 beds2 beds"
  /\ exists rest, lit "2 beds2 beds" = dedupBedText (lit "2 beds2 beds") ++ rest.
Proof.
  assert (H : trimStart (lit "2 beds2 beds") = lit "2 beds2 beds") by reflexivity.
  split; [exact H|].
  destruct (dedupBedText_prefix (lit "2 beds2 beds") H) as [Hprefix _].
  exact Hprefix.
Defined.

(** ** The form of a link *)

Lemma digits_have_no_question_mark (id : jsstring) :
  forallb isDigit id = true -> ~ In questionMark id.
Proof.
  intros H Hin. rewrite forallb_forall in H. specialize (H _ Hin). discriminate H.
Qed.

Lemma base_has_no_question_mark :
  ~ In questionMark (lit "https://www.airbnb.com/rooms/")
  /\ ~ In questionMark (lit "https://www.airbnb.com").
Proof.
  split; intros H;
    (assert (E : existsb (N.eqb questionMark) (lit "https://www.airbnb.com/rooms/") = true
                 \/ existsb (N.eqb questionMark) (lit "https://www.airbnb.com") = true)
      by (first [left; apply existsb_exists; exists questionMark; split;
                 [exact H | apply N.eqb_refl]
                | right; apply existsb_exists; exists questionMark; split;
                  [exact H | apply N.eqb_refl]]));
    destruct E as [E | E]; vm_compute in E; discriminate E.
Qed.

(** X6.  For every page and card, faults included, the link is the empty
    string or starts with "https://www.airbnb.com", and it never contains
    a question mark: no query string reaches the sheet. *)
Theorem extractLink_form (Element : Type) (dom : Dom Element) (card : Element) :
  (extractLink dom card = []
   \/ exists rest, extractLink dom card = lit "https://www.airbnb.com" ++ rest)
  /\ ~ In questionMark (extractLink dom card).
Proof.
  destruct base_has_no_question_mark as [Hrooms Hbase].
  unfold extractLink, extractLink_try.
  destruct (querySelector dom card Selectors.roomLink) as [[a|]|err]; cbn [bind tryCatch];
    try (split; [left; reflexivity | intros []]).
  destruct (getAttribute dom a "href") as [[[|c h]|]|err]; cbn [bind tryCatch];
    try (split; [left; reflexivity | intros []]).
  destruct (matchRoomId (c :: h)) as [id|] eqn:E; cbn [tryCatch].
  - destruct (matchRoomId_sound _ E) as (pre & post & _ & _ & Hdigits). split.
    + right. exists (lit "/rooms/" ++ id). reflexivity.
    + intros Hin. apply in_app_or in Hin. destruct Hin as [Hin | Hin].
      * exact (Hrooms Hin).
      * exact (digits_have_no_question_mark id Hdigits Hin).
  - destruct (beforeFirst_spec questionMark (c :: h)) as [Hnot _]. split.
    + right. exists (beforeFirst questionMark (c :: h)). reflexivity.
    + intros Hin. apply in_app_or in Hin. destruct Hin as [Hin | Hin].
      * exact (Hbase Hin).
      * exact (Hnot Hin).
Qed.

(** ** The price of the fallback *)

Lemma includes_unit (t : jsstring) (c : N) : includes t [c] = true <-> In c t.
Proof.
  induction t as [|x t IH]; cbn [includes startsWith].
  - split; [discriminate | intros []].
  - rewrite orb_true_iff, IH, andb_true_r, N.eqb_eq. cbn [In]. split.
    + intros [-> | H]; auto.
    + intros [-> | H]; auto.
Qed.

Lemma trimStart_keeps (t : jsstring) (c : N) :
  isWhiteSpace c = false -> In c t -> In c (trimStart t).
Proof.
  intros Hc. induction t as [|x t IH]; cbn [trimStart In]; [tauto|].
  destruct (isWhiteSpace x) eqn:Hx.
  - intros [-> | H]; [congruence | apply IH; exact H].
  - intros H. exact H.
Qed.

Lemma trim_keeps (t : jsstring) (c : N) :
  isWhiteSpace c = false -> In c t -> In c (trim t).
Proof.
  intros Hc H. unfold trim, trimEnd. apply in_rev. rewrite rev_involutive.
  apply trimStart_keeps; [exact Hc|]. apply in_rev. rewrite rev_involutive.
  apply trimStart_keeps; assumption.
Qed.

(** X7.  When a card has no price element, a price that is not empty
    contains "€" or "$", for every page: the fallback never returns a text
    without a currency sign. *)
Theorem extractPrice_fallback_has_currency (Element : Type) (dom : Dom Element)
        (card : Element) :
  querySelector dom card Selectors.price = Ok None ->
  extractPrice dom card = []
  \/ includes (extractPrice dom card) [euro] = true
  \/ includes (extractPrice dom card) (lit "$") = true.
Proof.
  intros Hnone. unfold extractPrice, extractPrice_try. rewrite Hnone. cbn [bind].
  destruct (querySelectorAll dom card Selectors.divOrSpan) as [els|err];
    cbn [bind tryCatch]; try (left; reflexivity).
  destruct (firstCurrencyText dom els) as [[p|]|err] eqn:E; cbn [bind tryCatch];
    try (left; reflexivity).
  destruct (firstCurrencyText_outcome Element dom els (Some p) E) as (t & -> & Hcur).
  right. destruct Hcur as [H | H]; [left | right];
    apply includes_unit; apply trim_keeps; try reflexivity;
    apply includes_unit; exact H.
Qed.

Lemma extractPrice_fallback_has_currency_witness :
  querySelector Pages.currencyScan 1 Selectors.price = Ok None
  /\ includes (extractPrice Pages.currencyScan 1) (lit "$") = true.
Proof.
  assert (Hnone : querySelector Pages.currencyScan 1 Selectors.price = Ok None)
    by reflexivity.
  split; [exact Hnone|].
  destruct (extractPrice_fallback_has_currency nat Pages.currencyScan 1 Hnone)
    as [H | [H | H]].
  - discriminate H.
  - discriminate H.
  - exact H.
Defined.

(** ** What the card locator returned *)

Lemma trySelectors_inversion (Element : Type) (dom : Dom Element)
      (selectors : list string) :
  match trySelectors dom selectors with
  | Ok [] => forall s, In s selectors -> doc_querySelectorAll dom s = Ok []
  | Ok (c :: cards) =>
      exists before sel after,
        selectors = before ++ sel :: after
        /\ (forall s, In s before -> doc_querySelectorAll dom s = Ok [])
        /\ doc_querySelectorAll dom sel = Ok (c :: cards)
  | Throw e =>
      exists before sel after,
        selectors = before ++ sel :: after
        /\ (forall s, In s before -> doc_querySelectorAll dom s = Ok [])
        /\ doc_querySelectorAll dom sel = Throw e
  end.
Proof.
  induction selectors as [|sel selectors IH]; cbn [trySelectors].
  - intros s [].
  - destruct (doc_querySelectorAll dom sel) as [[|c cards]|e] eqn:E;
      cbn [bind List.length Nat.ltb Nat.leb].
    + destruct (trySelectors dom selectors) as [[|c cards]|e].
      * intros s [<- | Hs]; [exact E | apply IH; exact Hs].
      * destruct IH as (before & sel' & after & -> & Hbefore & Hsel).
        exists (sel :: before), sel', after. split; [reflexivity|]. split; [|exact Hsel].
        intros s [<- | Hs]; [exact E | apply Hbefore; exact Hs].
      * destruct IH as (before & sel' & after & -> & Hbefore & Hsel).
        exists (sel :: before), sel', after. split; [reflexivity|]. split; [|exact Hsel].
        intros s [<- | Hs]; [exact E | apply Hbefore; exact Hs].
    + exists [], sel, selectors. split; [reflexivity|]. split; [intros s [] | exact E].
    + exists [], sel, selectors. split; [reflexivity|]. split; [intros s [] | exact E].
Qed.

(** X8.  What [findListingCards] returns comes from the page: cards that
    are returned are the answer of one of the five selectors, and every
    selector before it matched nothing; an empty result means that every
    selector matched nothing; a thrown error is the error of a selector
    query that was reached. *)
Theorem findListingCards_inversion (Element : Type) (dom : Dom Element) :
  (forall cards : list Element,
      findListingCards dom = Ok cards ->
      cards <> [] ->
      exists before sel after,
        cardSelectors = before ++ sel :: after
        /\ (forall s, In s before -> doc_querySelectorAll dom s = Ok [])
        /\ doc_querySelectorAll dom sel = Ok cards)
  /\ (findListingCards dom = Ok [] ->
      forall s, In s cardSelectors -> doc_querySelectorAll dom s = Ok [])
  /\ (forall e : JsError,
         findListingCards dom = Throw e ->
         exists before sel after,
           cardSelectors = before ++ sel :: after
           /\ (forall s, In s before -> doc_querySelectorAll dom s = Ok [])
           /\ doc_querySelectorAll dom sel = Throw e).
Proof.
  pose proof (trySelectors_inversion Element dom cardSelectors) as H.
  unfold findListingCards. split; [|split].
  - intros cards Hfind Hne. rewrite Hfind in H.
    destruct cards as [|c cards]; [congruence | exact H].
  - intros Hfind. rewrite Hfind in H. exact H.
  - intros e Hfind. rewrite Hfind in H. exact H.
Qed.

Lemma findListingCards_inversion_witness :
  findListingCards Pages.wishlist = Ok [1; 2]
  /\ exists before sel after,
      cardSelectors = before ++ sel :: after
      /\ doc_querySelectorAll Pages.wishlist sel = Ok [1; 2].
Proof.
  assert (Hfind : findListingCards Pages.wishlist = Ok [1; 2]) by reflexivity.
  split; [exact Hfind|].
  destruct (findListingCards_inversion nat Pages.wishlist) as [H _].
  destruct (H [1; 2] Hfind ltac:(discriminate)) as (before & sel & after & Hs & _ & Hsel).
  exists before, sel, after. split; assumption.
Defined.

(** ** The name of the wishlist *)

(** X9.  For every page, faults included, the wishlist name is not empty
    and has no white space at its ends.  It is the trimmed text of the
    first [h1] when that text has more than white space, and "Airbnb
    Wishlist" when the heading is blank, when there is no heading, and
    when a DOM call throws. *)
Theorem extractWishlistName_never_empty (Element : Type) (dom : Dom Element) :
  extractWishlistName dom <> []
  /\ trimmed (extractWishlistName dom)
  /\ (forall (e : Element) (t : jsstring),
         doc_querySelector dom "h1" = Ok (Some e) ->
         textContent dom e = Ok t ->
         (trim t <> [] -> extractWishlistName dom = trim t)
         /\ (forallb isWhiteSpace t = true ->
             extractWishlistName dom = lit "Airbnb Wishlist"))
  /\ (doc_querySelector dom "h1" = Ok None ->
      extractWishlistName dom = lit "Airbnb Wishlist")
  /\ (forall (e : Element) (err : JsError),
         doc_querySelector dom "h1" = Throw err
         \/ (doc_querySelector dom "h1" = Ok (Some e) /\ textContent dom e = Throw err) ->
         extractWishlistName dom = lit "Airbnb Wishlist").
Proof.
  unfold extractWishlistName, extractWishlistName_try.
  split; [|split; [|split; [|split]]].
  - destruct (doc_querySelector dom "h1") as [[e|]|err]; cbn [bind tryCatch];
      try discriminate.
    destruct (textContent dom e) as [t|err]; cbn [bind tryCatch]; try discriminate.
    destruct (trim t); cbn [orElse]; discriminate.
  - destruct (doc_querySelector dom "h1") as [[e|]|err]; cbn [bind tryCatch];
      try reflexivity.
    destruct (textContent dom e) as [t|err]; cbn [bind tryCatch]; try reflexivity.
    destruct (trim t) as [|c r] eqn:E; cbn [orElse]; [reflexivity|].
    rewrite <- E. apply trim_trimmed.
  - intros e t He Ht. rewrite He. cbn [bind]. rewrite Ht. cbn [bind tryCatch]. split.
    + intros Hne. destruct (trim t); [congruence | reflexivity].
    + intros Hws. rewrite (trim_all_space t Hws). reflexivity.
  - intros Hnone. rewrite Hnone. reflexivity.
  - intros e err [Hthrow | [He Hthrow]].
    + rewrite Hthrow. reflexivity.
    + rewrite He. cbn [bind]. rewrite Hthrow. reflexivity.
Qed.

Lemma extractWishlistName_never_empty_witness :
  doc_querySelector Pages.wishlist "h1" = Ok (Some 9)
  /\ textContent Pages.wishlist 9 = Ok (lit "Summer")
  /\ extractWishlistName Pages.wishlist = lit "Summer"
  /\ extractWishlistName Pages.blank = lit "Airbnb Wishlist".
Proof.
  assert (He : doc_querySelector Pages.wishlist "h1" = Ok (Some 9)) by reflexivity.
  assert (Ht : textContent Pages.wishlist 9 = Ok (lit "Summer")) by reflexivity.
  split; [exact He|]. split; [exact Ht|]. split.
  - destruct (extractWishlistName_never_empty nat Pages.wishlist) as (_ & _ & H & _).
    destruct (H 9 (lit "Summer") He Ht) as [Hname _].
    apply Hname. discriminate.
  - destruct (extractWishlistName_never_empty nat Pages.blank) as (_ & _ & _ & H & _).
    apply H. reflexivity.
Defined.

(** ** The response of a run *)

Lemma messageOr_nonempty (e : JsError) :
  exists c m, messageOr e unknownErrorMessage = c :: m.
Proof.
  unfold messageOr. destruct (message e) as [[|c m]|].
  - eexists _, _. reflexivity.
  - exists c, m. reflexivity.
  - eexists _, _. reflexivity.
Qed.

(** A run either found cards and sends their records, or sends a failure
    with a message. *)
Lemma run_outcome (Element : Type) (dom : Dom Element) (name : jsstring) :
  (exists c cards,
      findListingCards dom = Ok (c :: cards)
      /\ extractAndSendListingData dom name
         = {| success := true; data := Some (map (listingOf dom) (c :: cards));
              wishlistName := Some name; error := None |})
  \/ (exists ch m,
         extractAndSendListingData dom name
         = {| success := false; data := None; wishlistName := None;
              error := Some (ch :: m) |}).
Proof.
  unfold extractAndSendListingData.
  destruct (findListingCards dom) as [[|c cards]|e]; cbn [bind tryCatch List.length Nat.eqb].
  - right. unfold handleNoListingsFound.
    destruct (doc_querySelector dom "main") as [[w|]|e]; cbn [bind tryCatch].
    + destruct (innerHTML dom w) as [h|e]; cbn [bind tryCatch].
      * eexists _, _. reflexivity.
      * destruct (messageOr_nonempty e) as (ch & m & ->). exists ch, m. reflexivity.
    + eexists _, _. reflexivity.
    + destruct (messageOr_nonempty e) as (ch & m & ->). exists ch, m. reflexivity.
  - destruct (mapWithIndex (extractListingData dom) (c :: cards) 0) as [rs|e] eqn:E;
      cbn [bind tryCatch].
    + left. exists c, cards. split; [reflexivity|].
      rewrite (@mapWithIndex_records Element dom (c :: cards) 0 rs E). reflexivity.
    + right. destruct (messageOr_nonempty e) as (ch & m & ->). exists ch, m. reflexivity.
  - right. destruct (messageOr_nonempty e) as (ch & m & ->). exists ch, m. reflexivity.
Qed.

Lemma run_response_well_formed_aux (Element : Type) (dom : Dom Element)
      (name : jsstring) :
  wellFormed (extractAndSendListingData dom name).
Proof.
  destruct (run_outcome Element dom name) as [(c & cards & _ & ->) | (ch & m & ->)].
  - left. cbn [success data wishlistName error map]. split; [reflexivity|].
    split; [eexists _, _; reflexivity|]. split; [exists name; reflexivity | reflexivity].
  - right. cbn [success data wishlistName error]. repeat split.
    exists ch, m. reflexivity.
Qed.

(** X10.  For every page, faults included, the response of a run is well
    formed: it is a success that carries at least one record and the name,
    and no error, or a failure that carries a non-empty message, and
    neither data nor name; a success with an empty list of records is
    never sent.  The run succeeds exactly when cards are located and the
    debug read of the first card does not throw. *)
Theorem run_response_well_formed (Element : Type) (dom : Dom Element)
        (name : jsstring) :
  wellFormed (extractAndSendListingData dom name)
  /\ (success (extractAndSendListingData dom name) = true <->
      exists c cards h,
        findListingCards dom = Ok (c :: cards) /\ outerHTML dom c = Ok h).
Proof.
  split; [apply run_response_well_formed_aux|]. split.
  - intros Hs. unfold extractAndSendListingData in *.
    destruct (findListingCards dom) as [[|c cards]|e];
      cbn [bind tryCatch List.length Nat.eqb] in Hs.
    + exfalso. unfold handleNoListingsFound in Hs.
      destruct (doc_querySelector dom "main") as [[w|]|e]; cbn [bind tryCatch] in Hs;
        [destruct (innerHTML dom w) as [h|e]; cbn [bind tryCatch] in Hs| |];
        discriminate Hs.
    + cbn [mapWithIndex] in Hs. unfold extractListingData at 1 in Hs.
      cbn [Nat.eqb] in Hs.
      destruct (outerHTML dom c) as [h|e] eqn:Eh; cbn [bind tryCatch] in Hs;
        [|discriminate Hs].
      exists c, cards, h. split; [reflexivity | exact Eh].
    + discriminate Hs.
  - intros (c & cards & h & Hfind & Hread).
    unfold extractAndSendListingData. rewrite Hfind.
    cbn [bind List.length Nat.eqb].
    rewrite (@mapWithIndex_all Element dom (c :: cards)); [reflexivity|].
    intros c' rest E. injection E as <- <-. exists h. exact Hread.
Qed.

Lemma run_response_well_formed_witness :
  (exists c cards h,
      findListingCards Pages.wishlist = Ok (c :: cards)
      /\ outerHTML Pages.wishlist c = Ok h)
  /\ success (extractAndSendListingData Pages.wishlist (lit "Summer")) = true.
Proof.
  assert (H : exists c cards h,
             findListingCards Pages.wishlist = Ok (c :: cards)
             /\ outerHTML Pages.wishlist c = Ok h).
  { exists 1, [2], (lit "<div>"). split; reflexivity. }
  split; [exact H|].
  destruct (run_response_well_formed nat Pages.wishlist (lit "Summer")) as [_ Hiff].
  apply Hiff. exact H.
Defined.

(** ** The message listener *)

Lemma actionIs_iff (action : option jsstring) (literal : string) :
  actionIs action literal = true <-> action = Some (lit literal).
Proof.
  unfold actionIs. destruct action as [a|].
  - rewrite eqb_true_iff. split; [intros ->; reflexivity | intros H; injection H; auto].
  - split; discriminate.
Qed.

Lemma run_name (Element : Type) (dom : Dom Element) (name : jsstring) :
  success (extractAndSendListingData dom name) = true ->
  wishlistName (extractAndSendListingData dom name) = Some name
  /\ exists cards,
      findListingCards dom = Ok cards
      /\ data (extractAndSendListingData dom name) = Some (map (listingOf dom) cards).
Proof.
  destruct (run_outcome Element dom name) as [(c & cards & Hfind & ->) | (ch & m & ->)];
    cbn [success wishlistName data]; [|discriminate].
  intros _. split; [reflexivity|]. exists (c :: cards). split; [exact Hfind | reflexivity].
Qed.

(** X11.  The listener answers "ping" with a bare success and keeps
    silent on any action it does not know.  On "extractWishlistData" it
    keeps the channel open and every response it sends is well formed,
    whether it is sent at once or when the document has loaded; the name in
    a successful response is the one read from the page when the message
    arrived, while the records of a deferred run are read from the page as
    it is at load time. *)
Theorem onMessage_replies (Element : Type) (dom : Dom Element)
        (readyState : Res jsstring) (action : option jsstring) :
  (action = Some (lit "ping") ->
   onMessage dom readyState action
   = {| reply := Sent pingResponse; keepsChannelOpen := true |})
  /\ (action <> Some (lit "ping") ->
      action <> Some (lit "extractWishlistData") ->
      onMessage dom readyState action
      = {| reply := NoReply; keepsChannelOpen := false |})
  /\ (action = Some (lit "extractWishlistData") ->
      keepsChannelOpen (onMessage dom readyState action) = true
      /\ match reply (onMessage dom readyState action) with
         | Sent r =>
             readyState <> Ok (lit "loading")
             /\ wellFormed r
             /\ (success r = true ->
                 wishlistName r = Some (extractWishlistName dom))
         | AtLoad run =>
             readyState = Ok (lit "loading")
             /\ forall loaded : Dom Element,
                 wellFormed (run loaded)
                 /\ (success (run loaded) = true ->
                     wishlistName (run loaded) = Some (extractWishlistName dom)
                     /\ exists cards,
                         findListingCards loaded = Ok cards
                         /\ data (run loaded) = Some (map (listingOf loaded) cards))
         | NoReply => False
         end).
Proof.
  unfold onMessage. split; [|split].
  - intros ->. reflexivity.
  - intros Hping Hextract.
    destruct (actionIs action "ping") eqn:E1;
      [apply actionIs_iff in E1; contradiction|].
    destruct (actionIs action "extractWishlistData") eqn:E2;
      [apply actionIs_iff in E2; contradiction|].
    reflexivity.
  - intros ->.
    change (actionIs (Some (lit "extractWishlistData")) "ping") with false.
    change (actionIs (Some (lit "extractWishlistData")) "extractWishlistData") with true.
    cbn [keepsChannelOpen reply]. split; [reflexivity|].
    destruct readyState as [state|e]; cbn [bind tryCatch].
    + destruct (JsString.eqb state (lit "loading")) eqn:E; cbn [tryCatch].
      * apply eqb_true_iff in E. subst state. split; [reflexivity|].
        intros loaded. split; [apply run_response_well_formed_aux|].
        apply run_name.
      * apply eqb_false_iff in E. split; [congruence|].
        split; [apply run_response_well_formed_aux|].
        intros H. apply (run_name Element dom _ H).
    + split; [discriminate|]. split.
      * right. cbn [success data wishlistName error]. repeat split.
        destruct (messageOr_nonempty e) as (c & m & ->). exists c, m. reflexivity.
      * discriminate.
Qed.

Lemma onMessage_replies_witness :
  reply (onMessage Pages.wishlist (Ok (lit "complete")) (Some (lit "extractWishlistData")))
  = Sent (extractAndSendListingData Pages.wishlist (lit "Summer"))
  /\ wellFormed (extractAndSendListingData Pages.wishlist (lit "Summer")).
Proof.
  split; [reflexivity|].
  destruct (onMessage_replies nat Pages.wishlist (Ok (lit "complete"))
              (Some (lit "extractWishlistData"))) as (_ & _ & H).
  destruct (H eq_refl) as [_ Hreply].
  change (reply (onMessage Pages.wishlist (Ok (lit "complete"))
                   (Some (lit "extractWishlistData"))))
    with (@Sent nat (extractAndSendListingData Pages.wishlist (lit "Summer"))) in Hreply.
  destruct Hreply as (_ & Hwf & _). exact Hwf.
Defined.

(** ** The popup after a run *)

(** X12.  Whatever the page, the popup that receives the response of a
    run either goes on with at least one record, the records of the cards
    that were located and the name of the run, which the background script
    accepts as valid data, or shows "Failed to extract data: " followed by
    the non-empty message of the response.  Its two other answers, "No
    wishlist items found to extract." and the "Unknown error" text, are
    never shown for a response of the content script. *)
Theorem popup_after_run (Element : Type) (dom : Dom Element) (name : jsstring) :
  match onExtractionResponse None (Some (extractAndSendListingData dom name)) with
  | ProcessExtractedData items n =>
      n = Some name
      /\ isValidWishlistData (Some items) = true
      /\ exists cards,
          findListingCards dom = Ok cards
          /\ items = map (listingOf dom) cards
  | ShowStatus m type =>
      type = lit "error"
      /\ exists c e,
          error (extractAndSendListingData dom name) = Some (c :: e)
          /\ m = lit "Failed to extract data: " ++ c :: e
  end.
Proof.
  unfold onExtractionResponse.
  destruct (run_outcome Element dom name) as [(c & cards & Hfind & ->) | (ch & m & ->)];
    cbn [success data wishlistName error negb map].
  - split; [reflexivity|]. split; [reflexivity|].
    exists (c :: cards). split; [exact Hfind | reflexivity].
  - split; [reflexivity|]. exists ch, m. split; reflexivity.
Qed.

(** ** The rows of the sheet *)

Lemma orElse_empty (s : jsstring) : orElse s [] = s.
Proof. destruct s; reflexivity. Qed.

Lemma rowOf_fields (item : ListingRecord) :
  rowOf item
  = [ propertyName item; rating item; date item; beds item;
      totalPrice item; link item; comment item ].
Proof. unfold rowOf. rewrite !orElse_empty. reflexivity. Qed.

Lemma rowOf_injective (a b : ListingRecord) : rowOf a = rowOf b -> a = b.
Proof.
  rewrite !rowOf_fields. destruct a, b. cbn. intros H.
  injection H as -> -> -> -> -> -> ->. reflexivity.
Qed.

(** X13.  The values written to the sheet form a grid of seven columns:
    the header row, then one row per record, in the order of the records;
    row [i + 1] holds the seven fields of record [i] in the order of the
    header, unchanged.  Different lists of records give different values,
    so the records can be read back from the sheet.  For a run, row
    [i + 1] holds what the seven extractors returned for card [i]. *)
Theorem sheetValues_grid :
  (forall wishlistData : list ListingRecord,
      List.length (sheetValues wishlistData) = S (List.length wishlistData)
      /\ nth_error (sheetValues wishlistData) 0 = Some headers
      /\ (forall row, In row (sheetValues wishlistData) -> List.length row = 7)
      /\ (forall i item,
             nth_error wishlistData i = Some item ->
             nth_error (sheetValues wishlistData) (S i)
             = Some [ propertyName item; rating item; date item; beds item;
                      totalPrice item; link item; comment item ]))
  /\ (forall a b : list ListingRecord, sheetValues a = sheetValues b -> a = b)
  /\ (forall (Element : Type) (dom : Dom Element) (cards : list Element)
             (i : nat) (card : Element),
         nth_error cards i = Some card ->
         nth_error (sheetValues (map (listingOf dom) cards)) (S i)
         = Some [ extractPropertyName dom card; extractRating dom card;
                  extractDate dom card; extractBedInfo dom card;
                  extractPrice dom card; extractLink dom card;
                  extractComment dom card ]).
Proof.
  split; [|split].
  - intros wishlistData. unfold sheetValues. split; [|split; [|split]].
    + cbn [List.length]. rewrite length_map. reflexivity.
    + reflexivity.
    + intros row [<- | Hrow]; [reflexivity|].
      apply in_map_iff in Hrow. destruct Hrow as (item & <- & _). reflexivity.
    + intros i item Hi. cbn [nth_error]. rewrite nth_error_map, Hi. cbn [option_map].
      rewrite rowOf_fields. reflexivity.
  - intros a b H. unfold sheetValues in H. apply (f_equal (@tl _)) in H.
    cbn [tl] in H. revert b H.
    induction a as [|x a IH]; intros [|y b] H; try reflexivity; try discriminate H.
    cbn [map] in H.
    pose proof (f_equal (hd []) H) as Hrow. pose proof (f_equal (@tl _) H) as Hrest.
    cbn [hd tl] in Hrow, Hrest.
    rewrite (rowOf_injective x y Hrow). f_equal. apply IH. exact Hrest.
  - intros Element dom cards i card Hi. unfold sheetValues. cbn [nth_error].
    rewrite !nth_error_map, Hi. cbn [option_map]. rewrite rowOf_fields. reflexivity.
Qed.

Lemma sheetValues_grid_witness :
  nth_error [1; 2] 1 = Some 2
  /\ nth_error (sheetValues (map (listingOf Pages.wishlist) [1; 2])) 2
     = Some [ []; []; lit "Jun 1 - 5"; []; []; []; [] ].
Proof.
  assert (Hi : nth_error [1; 2] 1 = Some 2) by reflexivity.
  split; [exact Hi|].
  destruct sheetValues_grid as (_ & _ & H).
  rewrite (H nat Pages.wishlist [1; 2] 1 2 Hi). reflexivity.
Defined.

(** ** The sheet that is written *)

Lemma eqb_refl (s : jsstring) : JsString.eqb s s = true.
Proof. apply eqb_true_iff. reflexivity. Qed.

(** X14.  [createSpreadsheet] titles its sheet with the wishlist name, or
    "Wishlist" when the name is falsy, while [updateSpreadsheet] looks the
    sheet up by the name itself.  So the sheet that was created is found
    for every non-empty name, and for an absent name if the sheet reports
    index 0; for the empty name it is not found.  The name that the
    content script reads from a page is never empty, so its sheet is
    found, whatever other sheets follow. *)
Theorem created_sheet_lookup :
  (forall (c : N) (n : jsstring) (idx : option nat) (others : list SheetProperties),
      findSheet ({| title := createdSheetTitle (Some (c :: n)); index := idx |} :: others)
                (Some (c :: n))
      = Some {| title := c :: n; index := idx |})
  /\ (forall idx : option nat,
         findSheet [ {| title := createdSheetTitle (Some []); index := idx |} ] (Some [])
         = None)
  /\ (forall others : list SheetProperties,
         findSheet ({| title := createdSheetTitle None; index := Some 0 |} :: others) None
         = Some {| title := lit "Wishlist"; index := Some 0 |})
  /\ (forall (Element : Type) (dom : Dom Element) (idx : option nat)
             (others : list SheetProperties),
         findSheet
           ({| title := createdSheetTitle (Some (extractWishlistName dom));
               index := idx |} :: others)
           (Some (extractWishlistName dom))
         = Some {| title := extractWishlistName dom; index := idx |}).
Proof.
  unfold findSheet. split; [|split; [|split]].
  - intros c n idx others. cbn [find sheetMatches title createdSheetTitle optOr].
    rewrite eqb_refl. reflexivity.
  - intros idx. reflexivity.
  - intros others. reflexivity.
  - intros Element dom idx others.
    destruct (extractWishlistName dom) as [|c n] eqn:E.
    + exfalso. unfold extractWishlistName, extractWishlistName_try in E.
      destruct (doc_querySelector dom "h1") as [[e|]|err]; cbn [bind tryCatch] in E;
        try discriminate E.
      destruct (textContent dom e) as [t|err]; cbn [bind tryCatch] in E;
        try discriminate E.
      destruct (trim t); cbn [orElse] in E; discriminate E.
    + cbn [find sheetMatches title createdSheetTitle optOr]. rewrite eqb_refl.
      reflexivity.
Qed.

(** ** Failed requests to the Sheets API *)

Lemma decimal_401 : decimal 401 = lit "401".
Proof. reflexivity. Qed.

(** X15.  A response that is not [ok] never resolves: the promise is
    rejected with an error whose message is not empty.  The message is
    the [error.message] of a JSON body when that is a non-empty string,
    whatever the status; else the status text when that is not empty; else
    "HTTP Error " and the status.  A body that is not JSON gives "HTTP
    Error ", the status, ": " and the status text. *)
Theorem handleApiResponse_failure (P : Type) (response : HttpResponse P) :
  ok response = false ->
  (exists e c m, handleApiResponse response = Throw e /\ message e = Some (c :: m))
  /\ (forall c m payload,
         json response = JsonData (Some (c :: m)) payload ->
         handleApiResponse response = Throw {| message := Some (c :: m) |})
  /\ (forall errorMessage payload,
         json response = JsonData errorMessage payload ->
         errorMessage = None \/ errorMessage = Some [] ->
         handleApiResponse response
         = Throw {| message :=
                      Some (orElse (statusText response)
                              (lit "HTTP Error " ++ decimal (status response))) |})
  /\ (forall syntaxError,
         json response = NotJson syntaxError ->
         handleApiResponse response
         = Throw {| message :=
                      Some (lit "HTTP Error " ++ decimal (status response)
                            ++ lit ": " ++ statusText response) |}).
Proof.
  intros Hok. unfold handleApiResponse. rewrite Hok. cbn [negb].
  split; [|split; [|split]].
  - destruct (json response) as [se| |[[|c m]|] payload].
    + eexists _, _, _. split; reflexivity.
    + eexists _, _, _. split; reflexivity.
    + destruct (statusText response) as [|c m]; eexists _, _, _; split; reflexivity.
    + exists {| message := Some (c :: m) |}, c, m. split; reflexivity.
    + destruct (statusText response) as [|c m]; eexists _, _, _; split; reflexivity.
  - intros c m payload ->. reflexivity.
  - intros errorMessage payload -> [-> | ->]; reflexivity.
  - intros syntaxError ->. reflexivity.
Qed.

Lemma handleApiResponse_failure_witness :
  ok {| ok := false; status := 403; statusText := lit "Forbidden";
        json := JsonData (Some (lit "The caller does not have permission")) tt |}
  = false
  /\ handleApiResponse
       {| ok := false; status := 403; statusText := lit "Forbidden";
          json := JsonData (Some (lit "The caller does not have permission")) tt |}
     = Throw {| message := Some (lit "The caller does not have permission") |}.
Proof.
  split; [reflexivity|].
  destruct (handleApiResponse_failure unit
              {| ok := false; status := 403; statusText := lit "Forbidden";
                 json := JsonData (Some (lit "The caller does not have permission")) tt |}
              eq_refl) as (_ & H & _).
  exact (H _ _ tt eq_refl).
Defined.

(** X16.  Whether a failed request makes the extension ask for a new
    sign-in is decided by the text of the error alone.  A 401 whose body
    is not JSON is an authentication error, whatever its status text.
    With a JSON error message the status plays no part: the error is an
    authentication error exactly when the message contains "401", "auth"
    or "permission". *)
Theorem auth_error_classification (P : Type) (response : HttpResponse P) :
  ok response = false ->
  (forall syntaxError,
      status response = 401 ->
      json response = NotJson syntaxError ->
      exists e, handleApiResponse response = Throw e /\ isAuthError e = true)
  /\ (forall c m payload,
         json response = JsonData (Some (c :: m)) payload ->
         exists e,
           handleApiResponse response = Throw e
           /\ isAuthError e
              = (includes (c :: m) (lit "401")
                 || includes (c :: m) (lit "auth")
                 || includes (c :: m) (lit "permission"))).
Proof.
  intros Hok. unfold handleApiResponse. rewrite Hok. cbn [negb]. split.
  - intros syntaxError Hstatus ->. rewrite Hstatus, decimal_401.
    eexists. split; [reflexivity|].
    unfold isAuthError. cbn [message].
    assert (Hinc : includes (lit "HTTP Error " ++ lit "401" ++ lit ": " ++ statusText response)
                            (lit "401") = true).
    { apply includes_iff. exists (lit "HTTP Error "), (lit ": " ++ statusText response).
      reflexivity. }
    destruct (lit "HTTP Error " ++ lit "401" ++ lit ": " ++ statusText response)
      as [|c m] eqn:E; [discriminate E|].
    rewrite Hinc. reflexivity.
  - intros c m payload ->. eexists. split; reflexivity.
Qed.

Lemma auth_error_classification_witness :
  exists e,
    handleApiResponse
      {| ok := false; status := 401; statusText := lit "Unauthorized";
         json := @NotJson unit Pages.boom |}
    = Throw e
    /\ isAuthError e = true.
Proof.
  destruct (auth_error_classification unit
              {| ok := false; status := 401; statusText := lit "Unauthorized";
                 json := @NotJson unit Pages.boom |} eq_refl) as [H _].
  exact (H Pages.boom eq_refl eq_refl).
Defined.

(** ** The requests of a save *)

Lemma saveToGoogleSheets_course (api : SheetsApi) (token : jsstring)
      (wishlistData : list ListingRecord) (name : option jsstring) (today : jsstring) :
  SaveCourse api token wishlistData name today
    (fst (saveToGoogleSheets api token wishlistData name today))
    (snd (saveToGoogleSheets api token wishlistData name today)).
Proof.
  unfold saveToGoogleSheets.
  set (create := CreateSpreadsheet token (documentTitleOf name today)
                                   (createdSheetTitle name)).
  destruct (bind (fetchCreate api create) (@handleApiResponse _))
    as [[created|]|e1] eqn:E1; cbn [fst snd].
  2: { eapply StoppedAtCreate; [reflexivity | right; exact E1]. }
  2: { eapply StoppedAtCreate; [reflexivity | left].
       change (resolved api create) with (match bind (fetchCreate api create) (@handleApiResponse _) with Ok _ => true | Throw _ => false end). rewrite E1. reflexivity. }
  assert (R1 : resolved api create = true)
    by (change (resolved api create) with (match bind (fetchCreate api create) (@handleApiResponse _) with Ok _ => true | Throw _ => false end); rewrite E1; reflexivity).
  set (get := GetSpreadsheet token (textOf created)).
  destruct (bind (fetchGet api get) (@handleApiResponse _))
    as [[[sheets|]|]|e2] eqn:E2; cbn [fst snd];
    try (eapply StoppedAtGet; [reflexivity | reflexivity | exact R1]).
  assert (R2 : resolved api get = true)
    by (change (resolved api get) with (match bind (fetchGet api get) (@handleApiResponse _) with Ok _ => true | Throw _ => false end); rewrite E2; reflexivity).
  destruct (findSheet sheets name) as [sheet|] eqn:F; cbn [fst snd];
    [| eapply StoppedAtGet; [reflexivity | reflexivity | exact R1]].
  set (clear := ClearValues token (textOf created) (title sheet)).
  destruct (bind (fetchClear api clear) (@handleApiResponse _)) as [cleared|e3] eqn:E3;
    cbn [fst snd].
  2: { eapply StoppedAtClear; try reflexivity; try eassumption.
       change (resolved api clear) with (match bind (fetchClear api clear) (@handleApiResponse _) with Ok _ => true | Throw _ => false end). rewrite E3. reflexivity. }
  assert (R3 : resolved api clear = true)
    by (change (resolved api clear) with (match bind (fetchClear api clear) (@handleApiResponse _) with Ok _ => true | Throw _ => false end); rewrite E3; reflexivity).
  assert (Hlen : List.length (sheetValues wishlistData) = S (List.length wishlistData))
    by (unfold sheetValues; cbn [List.length]; rewrite length_map; reflexivity).
  rewrite Hlen.
  set (update := UpdateValues token (textOf created) (title sheet)
                              (S (List.length wishlistData)) (sheetValues wishlistData)).
  destruct (bind (fetchUpdate api update) (@handleApiResponse _)) as [updated|e4] eqn:E4;
    cbn [fst snd].
  - eapply ReachedUpdate; try reflexivity; try eassumption.
    left. split; [|reflexivity].
    change (resolved api update) with (match bind (fetchUpdate api update) (@handleApiResponse _) with Ok _ => true | Throw _ => false end). rewrite E4. reflexivity.
  - eapply ReachedUpdate; try reflexivity; try eassumption.
    right. split; [|exists e4; reflexivity].
    change (resolved api update) with (match bind (fetchUpdate api update) (@handleApiResponse _) with Ok _ => true | Throw _ => false end). rewrite E4. reflexivity.
Qed.

(** X17.  The calls that a save makes to the Sheets API are, in this
    order, create, get, clear, update, up to the first that fails: a call
    is made only when every call before it was resolved, every call
    carries the validated token, and the save resolves exactly when all
    four calls were made and resolved.  So rows are never written to a
    sheet that was not cleared first, and nothing is called after a
    failure. *)
Theorem save_calls_in_order (api : SheetsApi) (token : jsstring)
        (wishlistData : list ListingRecord) (name : option jsstring) (today : jsstring) :
  let log := fst (saveToGoogleSheets api token wishlistData name today) in
  let outcome := snd (saveToGoogleSheets api token wishlistData name today) in
  map stepOf log = seq 0 (List.length log)
  /\ (1 <= List.length log <= 4)%nat
  /\ (forall r, In r log -> tokenOf r = token)
  /\ (forall i r, nth_error log i = Some r -> (S i < List.length log)%nat ->
                  resolved api r = true)
  /\ ((exists result, outcome = Ok result) <->
      List.length log = 4 /\ forall r, In r log -> resolved api r = true).
Proof.
  cbv zeta. pose proof (saveToGoogleSheets_course api token wishlistData name today) as H.
  destruct (saveToGoogleSheets api token wishlistData name today) as [log outcome].
  cbn [fst snd] in *.
  inversion H as [create e Hc Hr | create get id e Hc Hg R1
                  | create get clear id sheets sheet e Hc Hg Hcl R1 R2 R3 F
                  | create get clear update id sheets sheet out Hc Hg Hcl Hu R1 R2 R3 F Hend];
    subst.
  - cbn [map stepOf List.length seq]. split; [reflexivity|].
    split; [lia|]. split; [intros r [<- | []]; reflexivity|].
    split; [intros i r _ Hi; cbn in Hi; lia|].
    split; [intros [result Hres]; discriminate Hres | intros [Hlen _]; discriminate Hlen].
  - cbn [map stepOf List.length seq]. split; [reflexivity|].
    split; [lia|]. split; [intros r [<- | [<- | []]]; reflexivity|].
    split.
    + intros [|[|i]] r Hr Hi; cbn in Hr, Hi; try lia.
      injection Hr as <-. exact R1.
    + split; [intros [result Hres]; discriminate Hres | intros [Hlen _]; discriminate Hlen].
  - cbn [map stepOf List.length seq]. split; [reflexivity|].
    split; [lia|]. split; [intros r [<- | [<- | [<- | []]]]; reflexivity|].
    split.
    + intros [|[|[|i]]] r Hr Hi; cbn in Hr, Hi; try lia; injection Hr as <-.
      * exact R1.
      * exact R2.
    + split; [intros [result Hres]; discriminate Hres | intros [Hlen _]; discriminate Hlen].
  - cbn [map stepOf List.length seq]. split; [reflexivity|]. split; [lia|].
    split; [intros r [<- | [<- | [<- | [<- | []]]]]; reflexivity|].
    split.
    + intros [|[|[|[|i]]]] r Hr Hi; cbn in Hr, Hi; try lia; injection Hr as <-;
        assumption.
    + split.
      * intros [result Hres]. split; [reflexivity|].
        destruct Hend as [[R4 _] | [_ [e He]]]; [|congruence].
        intros r [<- | [<- | [<- | [<- | []]]]]; assumption.
      * intros [_ Hall]. destruct Hend as [[_ Hout] | [R4 _]].
        -- eexists. exact Hout.
        -- rewrite Hall in R4 by (cbn; tauto). discriminate R4.
Qed.

Lemma save_calls_in_order_witness :
  nth_error
    (fst (saveToGoogleSheets
            {| fetchCreate := fun _ =>
                 Ok {| ok := true; status := 200; statusText := lit "OK";
                       json := JsonData None (Some (lit "abc")) |};
               fetchGet := fun _ => Throw Pages.boom;
               fetchClear := fun _ => Throw Pages.boom;
               fetchUpdate := fun _ => Throw Pages.boom |}
            (lit "token") [] (Some (lit "Summer")) (lit "1/1/2025"))) 0
  = Some (CreateSpreadsheet (lit "token") (documentTitleOf (Some (lit "Summer")) (lit "1/1/2025"))
                            (lit "Summer"))
  /\ resolved
       {| fetchCreate := fun _ =>
            Ok {| ok := true; status := 200; statusText := lit "OK";
                  json := JsonData None (Some (lit "abc")) |};
          fetchGet := fun _ => Throw Pages.boom;
          fetchClear := fun _ => Throw Pages.boom;
          fetchUpdate := fun _ => Throw Pages.boom |}
       (CreateSpreadsheet (lit "token") (documentTitleOf (Some (lit "Summer")) (lit "1/1/2025"))
                          (lit "Summer")) = true.
Proof.
  split; [reflexivity|].
  destruct (save_calls_in_order
              {| fetchCreate := fun _ =>
                   Ok {| ok := true; status := 200; statusText := lit "OK";
                         json := JsonData None (Some (lit "abc")) |};
                 fetchGet := fun _ => Throw Pages.boom;
                 fetchClear := fun _ => Throw Pages.boom;
                 fetchUpdate := fun _ => Throw Pages.boom |}
              (lit "token") [] (Some (lit "Summer")) (lit "1/1/2025"))
    as (_ & _ & _ & H & _).
  apply (H 0); [reflexivity | cbn; lia].
Defined.

(** X18.  When the update is called, it writes the whole grid and nothing
    else: its body is the header row and one row per record, every row has
    seven cells, matching the columns A to G of its range, and the last row
    of the range is the number of rows of the body.  It is addressed to the
    spreadsheet and sheet that the clear just before it was addressed to.
    When the save resolves, its URL is
    "https://docs.google.com/spreadsheets/d/" followed by the id of the
    spreadsheet that was written, as the URLs of the calls have it: the
    text "undefined" when the created spreadsheet came without an id. *)
Theorem update_writes_the_grid (api : SheetsApi) (token : jsstring)
        (wishlistData : list ListingRecord) (name : option jsstring) (today : jsstring) :
  let log := fst (saveToGoogleSheets api token wishlistData name today) in
  let outcome := snd (saveToGoogleSheets api token wishlistData name today) in
  (forall t id sheetTitle lastRow values,
      In (UpdateValues t id sheetTitle lastRow values) log ->
      values = sheetValues wishlistData
      /\ lastRow = List.length values
      /\ lastRow = S (List.length wishlistData)
      /\ (forall row, In row values -> List.length row = 7)
      /\ nth_error log 2 = Some (ClearValues t id sheetTitle)
      /\ nth_error log 3 = Some (UpdateValues t id sheetTitle lastRow values)
      /\ urlOf (UpdateValues t id sheetTitle lastRow values)
         = sheetsEndpoint ++ lit "/" ++ id ++ lit "/values/" ++ sheetTitle
           ++ lit "!A1:G" ++ decimal (S (List.length wishlistData))
           ++ lit "?valueInputOption=USER_ENTERED")
  /\ (forall result,
         outcome = Ok result ->
         resultUrl result
         = lit "https://docs.google.com/spreadsheets/d/" ++ textOf (resultId result)
         /\ exists sheetTitle,
             nth_error log 3
             = Some (UpdateValues token (textOf (resultId result)) sheetTitle
                                  (S (List.length wishlistData))
                                  (sheetValues wishlistData))).
Proof.
  cbv zeta. pose proof (saveToGoogleSheets_course api token wishlistData name today) as H.
  destruct (saveToGoogleSheets api token wishlistData name today) as [log outcome].
  cbn [fst snd] in *.
  assert (Hrows : forall row, In row (sheetValues wishlistData) -> List.length row = 7).
  { intros row [<- | Hrow]; [reflexivity|].
    apply in_map_iff in Hrow. destruct Hrow as (item & <- & _). reflexivity. }
  assert (Hlen : List.length (sheetValues wishlistData) = S (List.length wishlistData))
    by (unfold sheetValues; cbn [List.length]; rewrite length_map; reflexivity).
  inversion H as [create e Hc Hr | create get id e Hc Hg R1
                  | create get clear id sheets sheet e Hc Hg Hcl R1 R2 R3 F
                  | create get clear update id sheets sheet out Hc Hg Hcl Hu R1 R2 R3 F Hend];
    subst.
  - split; [|intros result Hres; discriminate Hres].
    intros t i st n v [Hin | []]. discriminate Hin.
  - split; [|intros result Hres; discriminate Hres].
    intros t i st n v [Hin | [Hin | []]]; discriminate Hin.
  - split; [|intros result Hres; discriminate Hres].
    intros t i st n v [Hin | [Hin | [Hin | []]]]; discriminate Hin.
  - split.
    + intros t i st n v [Hin | [Hin | [Hin | [Hin | []]]]]; try discriminate Hin.
      injection Hin as <- <- <- <- <-.
      repeat split; try reflexivity; try assumption. symmetry. exact Hlen.
    + intros result Hres. destruct Hend as [[_ Hout] | [_ [e He]]]; [|congruence].
      rewrite Hout in Hres. injection Hres as <-. cbn [resultUrl resultId].
      split; [reflexivity|]. exists (title sheet). reflexivity.
Qed.

Lemma update_writes_the_grid_witness :
  exists result,
    snd (saveToGoogleSheets Apis.healthy (lit "token") Apis.oneRecord
           (Some (lit "Summer")) (lit "1/1/2025")) = Ok result
    /\ resultUrl result = lit "https://docs.google.com/spreadsheets/d/abc".
Proof.
  exists {| resultId := Some (lit "abc"); resultUrl := spreadsheetUrlOf (lit "abc") |}.
  assert (Hres : snd (saveToGoogleSheets Apis.healthy (lit "token") Apis.oneRecord
                        (Some (lit "Summer")) (lit "1/1/2025"))
                 = Ok {| resultId := Some (lit "abc");
                         resultUrl := spreadsheetUrlOf (lit "abc") |})
    by reflexivity.
  split; [exact Hres|].
  destruct (update_writes_the_grid Apis.healthy (lit "token") Apis.oneRecord
              (Some (lit "Summer")) (lit "1/1/2025")) as [_ H].
  destruct (H _ Hres) as [Hurl _]. exact Hurl.
Defined.

(** ** The token *)

(** X19.  [validateToken] resolves only with a non-empty token that the
    identity API returned: with the answer to its first request, and then
    nothing is removed from the cache of the identity API or written to
    the storage; or with the answer to the refresh, and then the stored
    token was removed from the cache, and the new one was written to the
    storage unless [chrome.storage.local.set] failed.  Whether that write
    failed plays no part in the promise.  A rejection writes nothing and
    carries one of three messages.  Without a stored token the answers of
    the identity API play no part. *)
Theorem validateToken_outcomes (read : StorageRead) (first second : IdentityAnswer)
        (setError : option jsstring) :
  (forall t,
      checked (validateToken read first second setError) = Ok t ->
      t <> []
      /\ ((first = IdentityToken (Some t)
           /\ writtenToken (validateToken read first second setError) = None
           /\ removedCachedToken (validateToken read first second setError) = None)
          \/ (second = IdentityToken (Some t)
              /\ writtenToken (validateToken read first second setError)
                 = match setError with
                   | None => Some t
                   | Some _ => None
                   end
              /\ exists old,
                  read = Stored (Some old)
                  /\ removedCachedToken (validateToken read first second setError)
                     = Some old)))
  /\ (forall e,
         checked (validateToken read first second setError) = Throw e ->
         writtenToken (validateToken read first second setError) = None
         /\ ((exists m, read = StorageFailed m
                        /\ message e = Some (lit "Storage error: " ++ m))
             \/ message e = Some (lit "No authentication token found")
             \/ message e = Some (lit "Authentication token expired")))
  /\ (forall setError',
         checked (validateToken read first second setError)
         = checked (validateToken read first second setError')
         /\ removedCachedToken (validateToken read first second setError)
            = removedCachedToken (validateToken read first second setError'))
  /\ (forall first' second',
         read = Stored None \/ read = Stored (Some []) ->
         validateToken read first second setError
         = validateToken read first' second' setError).
Proof.
  split; [|split; [|split]].
  - intros t Ht. unfold validateToken in *.
    destruct read as [m|[[|c old]|]]; cbn [checked] in Ht; try discriminate Ht.
    destruct first as [m1|[[|t1 token1]|]]; cbn [checked writtenToken removedCachedToken] in *.
    + destruct second as [m2|[[|t2 token2]|]];
        cbn [checked writtenToken removedCachedToken] in *; try discriminate Ht.
      injection Ht as <-. split; [discriminate|]. right.
      split; [reflexivity|]. split; [reflexivity|]. exists (c :: old). split; reflexivity.
    + destruct second as [m2|[[|t2 token2]|]];
        cbn [checked writtenToken removedCachedToken] in *; try discriminate Ht.
      injection Ht as <-. split; [discriminate|]. right.
      split; [reflexivity|]. split; [reflexivity|]. exists (c :: old). split; reflexivity.
    + injection Ht as <-. split; [discriminate|]. left. repeat split.
    + destruct second as [m2|[[|t2 token2]|]];
        cbn [checked writtenToken removedCachedToken] in *; try discriminate Ht.
      injection Ht as <-. split; [discriminate|]. right.
      split; [reflexivity|]. split; [reflexivity|]. exists (c :: old). split; reflexivity.
  - intros e He. unfold validateToken in *.
    destruct read as [m|[[|c old]|]]; cbn [checked writtenToken] in *.
    + injection He as <-. split; [reflexivity|]. left. exists m. split; reflexivity.
    + injection He as <-. split; [reflexivity|]. right. left. reflexivity.
    + destruct first as [m1|[[|t1 token1]|]]; cbn [checked writtenToken] in *;
        try discriminate He;
        (destruct second as [m2|[[|t2 token2]|]]; cbn [checked writtenToken] in *;
         try discriminate He; injection He as <-;
         (split; [reflexivity | right; right; reflexivity])).
    + injection He as <-. split; [reflexivity|]. right. left. reflexivity.
  - intros setError'. unfold validateToken.
    destruct read as [m|[[|c old]|]]; try (split; reflexivity).
    destruct first as [m1|[[|t1 token1]|]]; try (split; reflexivity);
      destruct second as [m2|[[|t2 token2]|]]; split; reflexivity.
  - intros first' second' [-> | ->]; reflexivity.
Qed.

Lemma validateToken_outcomes_witness :
  checked (validateToken (Stored (Some (lit "old"))) (IdentityFailed (lit "expired"))
                         (IdentityToken (Some (lit "new")))
                         (Some (lit "QUOTA_BYTES quota exceeded")))
  = Ok (lit "new")
  /\ writtenToken (validateToken (Stored (Some (lit "old")))
                                 (IdentityFailed (lit "expired"))
                                 (IdentityToken (Some (lit "new")))
                                 (Some (lit "QUOTA_BYTES quota exceeded")))
     = None.
Proof.
  assert (H : checked (validateToken (Stored (Some (lit "old")))
                                     (IdentityFailed (lit "expired"))
                                     (IdentityToken (Some (lit "new")))
                                     (Some (lit "QUOTA_BYTES quota exceeded")))
              = Ok (lit "new")) by reflexivity.
  split; [exact H|].
  destruct (validateToken_outcomes (Stored (Some (lit "old")))
              (IdentityFailed (lit "expired")) (IdentityToken (Some (lit "new")))
              (Some (lit "QUOTA_BYTES quota exceeded")))
    as [Hok _].
  destruct (Hok _ H) as [_ [[Hfirst _] | [_ [Hwritten _]]]].
  - discriminate Hfirst.
  - exact Hwritten.
Defined.

(** ** The handler of the save *)

Lemma messageOr_fallback_nonempty (e : JsError) (c : N) (fallback : jsstring) :
  exists c' m, messageOr e (c :: fallback) = c' :: m.
Proof.
  unfold messageOr. destruct (message e) as [[|c' m]|].
  - exists c, fallback. reflexivity.
  - exists c', m. reflexivity.
  - exists c, fallback. reflexivity.
Qed.

(** The runs of the handler: it stops before the first call with an error
    or with the request to sign in, or it validated a token and made the
    calls of the save with it. *)
Lemma handler_runs (api : SheetsApi) (wishlistData : option (list ListingRecord))
      (name : option jsstring) (today : jsstring)
      (read : StorageRead) (first second : IdentityAnswer) (setError : option jsstring) :
  (exists c m,
      handleSaveToGoogleSheets api wishlistData name today read first second setError
      = saveFailed (c :: m) [])
  \/ handleSaveToGoogleSheets api wishlistData name today read first second setError
     = authRequired []
  \/ exists t log,
      checked (validateToken read first second setError) = Ok t
      /\ isValidWishlistData wishlistData = true
      /\ log = fst (saveToGoogleSheets api t (arrayOf wishlistData) name today)
      /\ log <> []
      /\ (forall r, In r log -> tokenOf r = t)
      /\ ((exists created,
              List.length log = 4
              /\ snd (saveToGoogleSheets api t (arrayOf wishlistData) name today)
                 = Ok {| resultId := created;
                         resultUrl := spreadsheetUrlOf (textOf created) |}
              /\ handleSaveToGoogleSheets api wishlistData name today read first second setError
                 = {| response :=
                        {| saved := true; spreadsheetId := created;
                           spreadsheetUrl := Some (spreadsheetUrlOf (textOf created));
                           saveError := None; needsAuth := false |};
                      clearedStorage := false;
                      requests := log |})
          \/ handleSaveToGoogleSheets api wishlistData name today read first second setError
             = authRequired log
          \/ exists c m,
              handleSaveToGoogleSheets api wishlistData name today read first second setError
              = saveFailed (c :: m) log).
Proof.
  unfold handleSaveToGoogleSheets.
  destruct (isValidWishlistData wishlistData) eqn:V; cbn [negb].
  2: { left. eexists _, _. reflexivity. }
  destruct read as [m | [[|c old]|]].
  - left. eexists _, _. reflexivity.
  - right. left. reflexivity.
  - match goal with
    | |- context [checked ?v] => destruct (checked v) as [t|e] eqn:C
    end.
    2: { right. left. reflexivity. }
    right. right. exists t, (fst (saveToGoogleSheets api t (arrayOf wishlistData) name today)).
    split; [reflexivity|]. split; [reflexivity|]. split; [reflexivity|].
    pose proof (saveToGoogleSheets_course api t (arrayOf wishlistData) name today) as H.
    destruct (saveToGoogleSheets api t (arrayOf wishlistData) name today) as [log outcome].
    cbn [fst snd] in *.
    assert (Hfail : forall e,
               (if isAuthError e then authRequired log
                else saveFailed (messageOr e (lit "Error saving to Google Sheets")) log)
               = authRequired log
               \/ exists c' m,
                   (if isAuthError e then authRequired log
                    else saveFailed (messageOr e (lit "Error saving to Google Sheets")) log)
                   = saveFailed (c' :: m) log).
    { intros e. destruct (isAuthError e); [left; reflexivity|]. right.
      destruct (messageOr_fallback_nonempty e 69 (lit "rror saving to Google Sheets"))
        as (c' & m & Hm).
      exists c', m. change (lit "Error saving to Google Sheets")
        with (69%N :: lit "rror saving to Google Sheets").
      rewrite Hm. reflexivity. }
    inversion H as [create e Hc Hr | create get id e Hc Hg R1
                    | create get clear id sheets sheet e Hc Hg Hcl R1 R2 R3 F
                    | create get clear update id sheets sheet out Hc Hg Hcl Hu R1 R2 R3 F Hend];
      subst.
    + split; [discriminate|]. split; [intros r [<- | []]; reflexivity|].
      right. apply Hfail.
    + split; [discriminate|]. split; [intros r [<- | [<- | []]]; reflexivity|].
      right. apply Hfail.
    + split; [discriminate|]. split; [intros r [<- | [<- | [<- | []]]]; reflexivity|].
      right. apply Hfail.
    + split; [discriminate|].
      split; [intros r [<- | [<- | [<- | [<- | []]]]]; reflexivity|].
      destruct Hend as [[_ ->] | [_ [e ->]]].
      * left. exists id. split; [reflexivity|]. split; reflexivity.
      * right. apply Hfail.
  - right. left. reflexivity.
Qed.

(** X20.  The handler of the save asks for a new sign-in exactly when it
    has called [chrome.storage.local.clear].  A response of success comes
    after exactly four calls and carries no error; its URL is
    "https://docs.google.com/spreadsheets/d/" followed by the id it
    carries, or by the text "undefined" when the created spreadsheet came
    without an id and the response carries none.  Every other response
    carries a non-empty error and neither id nor URL.  Invalid data are
    refused with "No valid wishlist data to save" whatever the storage
    holds, without any call.  No call is made without a token that
    [validateToken] resolved with, and every call carries that token. *)
Theorem save_handler_outcomes
        (api : SheetsApi) (wishlistData : option (list ListingRecord))
        (name : option jsstring) (today : jsstring)
        (read : StorageRead) (first second : IdentityAnswer) (setError : option jsstring) :
  let run := handleSaveToGoogleSheets api wishlistData name today read first second setError in
  needsAuth (response run) = clearedStorage run
  /\ (saved (response run) = true ->
      needsAuth (response run) = false
      /\ List.length (requests run) = 4
      /\ saveError (response run) = None
      /\ spreadsheetUrl (response run)
         = Some (lit "https://docs.google.com/spreadsheets/d/"
                 ++ textOf (spreadsheetId (response run))))
  /\ (saved (response run) = false ->
      spreadsheetId (response run) = None
      /\ spreadsheetUrl (response run) = None
      /\ exists c m, saveError (response run) = Some (c :: m))
  /\ (isValidWishlistData wishlistData = false ->
      run = saveFailed (lit "No valid wishlist data to save") [])
  /\ (requests run <> [] ->
      isValidWishlistData wishlistData = true
      /\ exists t,
          checked (validateToken read first second setError) = Ok t
          /\ forall r, In r (requests run) -> tokenOf r = t).
Proof.
  cbv zeta.
  assert (Hinvalid : isValidWishlistData wishlistData = false ->
                     handleSaveToGoogleSheets api wishlistData name today read first second setError
                     = saveFailed (lit "No valid wishlist data to save") []).
  { intros V. unfold handleSaveToGoogleSheets. rewrite V. reflexivity. }
  destruct (handler_runs api wishlistData name today read first second setError)
    as [(c & m & Hrun) | [Hrun | (t & log & C & V & Hlog & Hne & Htok & Hrun)]].
  - rewrite Hrun.
    cbn [saveFailed response clearedStorage requests needsAuth saved saveError
         spreadsheetId spreadsheetUrl].
    split; [reflexivity|]. split; [discriminate|].
    split; [intros _; split; [reflexivity|]; split; [reflexivity|];
            exists c, m; reflexivity|].
    split; [intros V; rewrite <- Hrun; exact (Hinvalid V)|].
    intros H. exfalso. apply H. reflexivity.
  - rewrite Hrun.
    cbn [authRequired response clearedStorage requests needsAuth saved saveError
         spreadsheetId spreadsheetUrl].
    split; [reflexivity|]. split; [discriminate|].
    split; [intros _; split; [reflexivity|]; split; [reflexivity|];
            eexists _, _; reflexivity|].
    split; [intros V; rewrite <- Hrun; exact (Hinvalid V)|].
    intros H. exfalso. apply H. reflexivity.
  - assert (Hreq : isValidWishlistData wishlistData = true
                   /\ exists t0, checked (validateToken read first second setError) = Ok t0
                                 /\ forall r, In r log -> tokenOf r = t0).
    { split; [exact V|]. exists t. split; [exact C | exact Htok]. }
    destruct Hrun as [(id & Hlen & _ & Hrun) | [Hrun | (c & m & Hrun)]];
      rewrite Hrun;
      cbn [authRequired saveFailed response clearedStorage requests needsAuth saved
           saveError spreadsheetId spreadsheetUrl].
    + split; [reflexivity|].
      split; [intros _; split; [reflexivity|]; split; [exact Hlen|];
              split; reflexivity|].
      split; [discriminate|]. split; [congruence|]. intros _. exact Hreq.
    + split; [reflexivity|]. split; [discriminate|].
      split; [intros _; split; [reflexivity|]; split; [reflexivity|];
              eexists _, _; reflexivity|].
      split; [congruence|]. intros _. exact Hreq.
    + split; [reflexivity|]. split; [discriminate|].
      split; [intros _; split; [reflexivity|]; split; [reflexivity|];
              exists c, m; reflexivity|].
      split; [congruence|]. intros _. exact Hreq.
Qed.

Lemma save_handler_outcomes_witness :
  spreadsheetId
    (response (handleSaveToGoogleSheets Apis.withoutId (Some Apis.oneRecord)
                 (Some (lit "Summer")) (lit "1/1/2025")
                 (Stored (Some (lit "old"))) (IdentityToken (Some (lit "token")))
                 (IdentityFailed (lit "unused")) None)) = None
  /\ spreadsheetUrl
       (response (handleSaveToGoogleSheets Apis.withoutId (Some Apis.oneRecord)
                    (Some (lit "Summer")) (lit "1/1/2025")
                    (Stored (Some (lit "old"))) (IdentityToken (Some (lit "token")))
                    (IdentityFailed (lit "unused")) None))
     = Some (lit "https://docs.google.com/spreadsheets/d/undefined").
Proof.
  split; [reflexivity|].
  destruct (save_handler_outcomes Apis.withoutId (Some Apis.oneRecord)
              (Some (lit "Summer")) (lit "1/1/2025")
              (Stored (Some (lit "old"))) (IdentityToken (Some (lit "token")))
              (IdentityFailed (lit "unused")) None) as [_ [H _]].
  destruct (H eq_refl) as [_ [_ [_ Hurl]]]. exact Hurl.
Defined.

(** ** A rejected call *)

(** The save is rejected with the error of the call that was rejected,
    and that call is the last one made. *)
Lemma saveToGoogleSheets_rejection (api : SheetsApi) (token : jsstring)
      (wishlistData : list ListingRecord) (name : option jsstring) (today : jsstring)
      (r : Request) (e : JsError) :
  In r (fst (saveToGoogleSheets api token wishlistData name today)) ->
  rejectionOf api r = Some e ->
  snd (saveToGoogleSheets api token wishlistData name today) = Throw e
  /\ last (fst (saveToGoogleSheets api token wishlistData name today)) r = r.
Proof.
  unfold saveToGoogleSheets. cbv zeta.
  destruct (bind (fetchCreate api _) _) as [[created|]|e1] eqn:E1; cbn [fst snd].
  2: { intros [<- | []] Hr. cbn [rejectionOf] in Hr. rewrite E1 in Hr. discriminate Hr. }
  2: { intros [<- | []] Hr. cbn [rejectionOf] in Hr. rewrite E1 in Hr.
       injection Hr as <-. split; reflexivity. }
  destruct (bind (fetchGet api _) _) as [[[sheets|]|]|e2] eqn:E2; cbn [fst snd].
  2, 3: intros [<- | [<- | []]] Hr; cbn [rejectionOf] in Hr;
        [rewrite E1 in Hr | rewrite E2 in Hr]; discriminate Hr.
  2: { intros [<- | [<- | []]] Hr; cbn [rejectionOf] in Hr.
       - rewrite E1 in Hr. discriminate Hr.
       - rewrite E2 in Hr. injection Hr as <-. split; reflexivity. }
  destruct (findSheet sheets name) as [sheet|] eqn:F; cbn [fst snd].
  2: { intros [<- | [<- | []]] Hr; cbn [rejectionOf] in Hr;
       [rewrite E1 in Hr | rewrite E2 in Hr]; discriminate Hr. }
  destruct (bind (fetchClear api _) _) as [cleared|e3] eqn:E3; cbn [fst snd].
  2: { intros [<- | [<- | [<- | []]]] Hr; cbn [rejectionOf] in Hr.
       - rewrite E1 in Hr. discriminate Hr.
       - rewrite E2 in Hr. discriminate Hr.
       - rewrite E3 in Hr. injection Hr as <-. split; reflexivity. }
  destruct (bind (fetchUpdate api _) _) as [updated|e4] eqn:E4; cbn [fst snd].
  - intros [<- | [<- | [<- | [<- | []]]]] Hr; cbn [rejectionOf] in Hr;
      [rewrite E1 in Hr | rewrite E2 in Hr | rewrite E3 in Hr | rewrite E4 in Hr];
      discriminate Hr.
  - intros [<- | [<- | [<- | [<- | []]]]] Hr; cbn [rejectionOf] in Hr.
    + rewrite E1 in Hr. discriminate Hr.
    + rewrite E2 in Hr. discriminate Hr.
    + rewrite E3 in Hr. discriminate Hr.
    + rewrite E4 in Hr. injection Hr as <-. split; reflexivity.
Qed.

Lemma includes_401 (statusText : jsstring) :
  isAuthError
    {| message := Some (lit "HTTP Error " ++ decimal 401 ++ lit ": " ++ statusText) |}
  = true.
Proof.
  rewrite decimal_401. unfold isAuthError. cbn [message].
  assert (Hinc : includes (lit "HTTP Error " ++ lit "401" ++ lit ": " ++ statusText)
                          (lit "401") = true).
  { apply includes_iff. exists (lit "HTTP Error "), (lit ": " ++ statusText).
    reflexivity. }
  destruct (lit "HTTP Error " ++ lit "401" ++ lit ": " ++ statusText)
    as [|c m] eqn:E; [discriminate E|].
  rewrite Hinc. reflexivity.
Qed.

Lemma unauthorized_bind (P : Type) (answer : Res (HttpResponse P)) :
  isUnauthorized answer ->
  exists e, bind answer (@handleApiResponse P) = Throw e /\ isAuthError e = true.
Proof.
  intros (text & syntaxError & ->). cbn [bind]. unfold handleApiResponse.
  cbn [ok negb json status statusText].
  eexists. split; [reflexivity|]. apply includes_401.
Qed.

Lemma unauthorized_rejected (api : SheetsApi) (r : Request) :
  answeredUnauthorized api r ->
  exists e, rejectionOf api r = Some e /\ isAuthError e = true.
Proof.
  destruct r; cbn [answeredUnauthorized rejectionOf]; intros H;
    destruct (unauthorized_bind _ _ H) as (e & -> & He); exists e;
      (split; [reflexivity | exact He]).
Qed.

(** X21.  When the Sheets API answers any call of a save with status 401
    and a body that is not JSON, the handler calls
    [chrome.storage.local.clear] and asks for a new sign-in, and the call
    so answered is the last one it made: the error "HTTP Error 401: ..."
    of [handleApiResponse] passes through the promises of the save to the
    test of the handler.  So the token that was just validated, even one
    just refreshed, is not kept for another try. *)
Theorem unauthorized_call_forces_sign_in
        (api : SheetsApi) (wishlistData : option (list ListingRecord))
        (name : option jsstring) (today : jsstring)
        (read : StorageRead) (first second : IdentityAnswer)
        (setError : option jsstring)
        (t : jsstring) (r : Request) :
  isValidWishlistData wishlistData = true ->
  checked (validateToken read first second setError) = Ok t ->
  In r (fst (saveToGoogleSheets api t (arrayOf wishlistData) name today)) ->
  answeredUnauthorized api r ->
  handleSaveToGoogleSheets api wishlistData name today read first second setError
  = authRequired (fst (saveToGoogleSheets api t (arrayOf wishlistData) name today))
  /\ last (fst (saveToGoogleSheets api t (arrayOf wishlistData) name today)) r = r.
Proof.
  intros V C Hin Hun.
  destruct (unauthorized_rejected api r Hun) as (e & Hrej & Hauth).
  destruct (saveToGoogleSheets_rejection api t (arrayOf wishlistData) name today r e
              Hin Hrej) as [Hout Hlast].
  split; [|exact Hlast].
  unfold handleSaveToGoogleSheets. rewrite V. cbn [negb].
  destruct read as [m | [[|c old]|]]; try discriminate C.
  rewrite C.
  destruct (saveToGoogleSheets api t (arrayOf wishlistData) name today) as [log outcome].
  cbn [fst snd] in *. rewrite Hout, Hauth. reflexivity.
Qed.

Lemma unauthorized_call_forces_sign_in_witness :
  clearedStorage
    (handleSaveToGoogleSheets Apis.unauthorized (Some Apis.oneRecord)
       (Some (lit "Summer")) (lit "1/1/2025")
       (Stored (Some (lit "old"))) (IdentityFailed (lit "expired"))
       (IdentityToken (Some (lit "new"))) None)
  = true.
Proof.
  destruct (unauthorized_call_forces_sign_in Apis.unauthorized (Some Apis.oneRecord)
              (Some (lit "Summer")) (lit "1/1/2025")
              (Stored (Some (lit "old"))) (IdentityFailed (lit "expired"))
              (IdentityToken (Some (lit "new"))) None (lit "new")
              (CreateSpreadsheet (lit "new")
                 (documentTitleOf (Some (lit "Summer")) (lit "1/1/2025"))
                 (createdSheetTitle (Some (lit "Summer")))))
    as [Hrun _].
  - reflexivity.
  - reflexivity.
  - left. reflexivity.
  - exists (lit "Unauthorized"), Pages.boom. reflexivity.
  - rewrite Hrun. reflexivity.
Defined.

(** ** The popup and the background script *)

(** X22.  Whatever the Sheets API, the storage and the identity API
    answer, the popup that receives the response of the handler of the
    save does one of three things.  After a success it stores the id of
    the response, which is absent when the created spreadsheet came
    without one, and the URL of the response, and opens that URL in a new
    tab: the URL is never missing, it is
    "https://docs.google.com/spreadsheets/d/" followed by the id, or by
    the text "undefined" for an absent id.  After a request to sign in,
    which comes after a call of [chrome.storage.local.clear], it shows the
    sign-in prompt.  Otherwise it shows "Failed to export data to Google
    Sheets: " followed by the non-empty error of the response; the
    "Unknown error" text is never shown for a response of the handler. *)
Theorem popup_after_save
        (api : SheetsApi) (wishlistData : option (list ListingRecord))
        (name : option jsstring) (today : jsstring)
        (read : StorageRead) (first second : IdentityAnswer) (setError : option jsstring) :
  let run := handleSaveToGoogleSheets api wishlistData name today read first second setError in
  match onSaveResponse None (Some (response run)) with
  | SuccessfulSave storedId storedUrl openedTab =>
      clearedStorage run = false
      /\ List.length (requests run) = 4
      /\ storedId = spreadsheetId (response run)
      /\ storedUrl
         = Some (lit "https://docs.google.com/spreadsheets/d/" ++ textOf storedId)
      /\ openedTab = storedUrl
  | SignInPrompt => clearedStorage run = true
  | SaveStatus m type =>
      type = lit "error"
      /\ clearedStorage run = false
      /\ exists c e,
          saveError (response run) = Some (c :: e)
          /\ m = lit "Failed to export data to Google Sheets: " ++ c :: e
  end.
Proof.
  cbv zeta.
  destruct (handler_runs api wishlistData name today read first second setError)
    as [(c & m & Hrun) | [Hrun | (t & log & C & V & Hlog & Hne & Htok & Hrun)]].
  - rewrite Hrun. unfold onSaveResponse.
    cbn [saveFailed response clearedStorage requests needsAuth saved saveError optOr].
    split; [reflexivity|]. split; [reflexivity|]. exists c, m. split; reflexivity.
  - rewrite Hrun. reflexivity.
  - destruct Hrun as [(id & Hlen & _ & Hrun) | [Hrun | (c & m & Hrun)]]; rewrite Hrun.
    + unfold onSaveResponse.
      cbn [response clearedStorage requests needsAuth saved spreadsheetId
           spreadsheetUrl truthy].
      split; [reflexivity|]. split; [exact Hlen|].
      split; [reflexivity|]. split; reflexivity.
    + reflexivity.
    + unfold onSaveResponse.
      cbn [saveFailed response clearedStorage requests needsAuth saved saveError optOr].
      split; [reflexivity|]. split; [reflexivity|]. exists c, m. split; reflexivity.
Qed.

(** X23.  The popup shows the extraction controls after a click on the
    sign-in button exactly when the identity API returned a non-empty
    token and the storage accepted it; that token, and nothing else, has
    then been stored.  In every other case it shows, as an error, the
    non-empty error of the response followed by ". Please try again.";
    the "Failed to sign in with Google" text is never shown for a response
    of the background script. *)
Theorem popup_after_authorization (answer : IdentityAnswer) (setError : option jsstring) :
  let run := handleAuthorization answer setError in
  let step := onAuthorizeResponse None (Some (authResponse run)) in
  (showsExtractionControls step = true <->
   exists t token, answer = IdentityToken (Some (t :: token)) /\ setError = None)
  /\ (forall token,
         storedToken run = Some token ->
         token <> []
         /\ answer = IdentityToken (Some token)
         /\ showsExtractionControls step = true)
  /\ (showsExtractionControls step = true ->
      (exists token, storedToken run = Some token)
      /\ authStatus step = lit "Successfully signed in with Google"
      /\ authStatusType step = lit "success")
  /\ (showsExtractionControls step = false ->
      storedToken run = None
      /\ authStatusType step = lit "error"
      /\ exists c m,
          authError (authResponse run) = Some (c :: m)
          /\ authStatus step = (c :: m) ++ lit ". Please try again.").
Proof.
  cbv zeta. unfold handleAuthorization, authorize, onAuthorizeResponse.
  destruct answer as [m | [[|t token]|]].
  - cbn [authResponse authorized authError storedToken showsExtractionControls
         authStatus authStatusType message errorOf].
    split; [split; [discriminate | intros (t & token & H & _); discriminate H]|].
    split; [intros token H; discriminate H|].
    split; [discriminate|].
    intros _. split; [reflexivity|]. split; [reflexivity|].
    destruct m as [|c m]; eexists _, _; split; reflexivity.
  - cbn [authResponse authorized authError storedToken showsExtractionControls
         authStatus authStatusType message errorOf].
    split; [split; [discriminate | intros (t & token & H & _); discriminate H]|].
    split; [intros token H; discriminate H|].
    split; [discriminate|].
    intros _. split; [reflexivity|]. split; [reflexivity|].
    eexists _, _; split; reflexivity.
  - destruct setError as [m|];
      cbn [authResponse authorized authError storedToken showsExtractionControls
           authStatus authStatusType message errorOf].
    + split; [split; [discriminate | intros (t' & token' & _ & H); discriminate H]|].
      split; [intros token' H; discriminate H|].
      split; [discriminate|].
      intros _. split; [reflexivity|]. split; [reflexivity|].
      eexists _, _; split; reflexivity.
    + split; [split; [intros _; exists t, token; split; reflexivity | reflexivity]|].
      split; [intros token' H; injection H as <-; split; [discriminate|];
              split; reflexivity|].
      split; [intros _; split; [eexists; reflexivity | split; reflexivity]|].
      discriminate.
  - cbn [authResponse authorized authError storedToken showsExtractionControls
         authStatus authStatusType message errorOf].
    split; [split; [discriminate | intros (t & token & H & _); discriminate H]|].
    split; [intros token H; discriminate H|].
    split; [discriminate|].
    intros _. split; [reflexivity|]. split; [reflexivity|].
    eexists _, _; split; reflexivity.
Qed.

Lemma popup_after_authorization_witness :
  storedToken (handleAuthorization (IdentityToken (Some (lit "token"))) None)
  = Some (lit "token").
Proof.
  destruct (popup_after_authorization (IdentityToken (Some (lit "token"))) None)
    as [_ [_ [H _]]].
  destruct (H eq_refl) as [[token Htoken] _].
  rewrite Htoken. f_equal.
  assert (E : storedToken (handleAuthorization (IdentityToken (Some (lit "token"))) None)
              = Some (lit "token")) by reflexivity.
  rewrite E in Htoken. injection Htoken as <-. reflexivity.
Defined.

(** ** From the page to the sheet *)

Lemma findSheet_named (sheets : list SheetProperties) (n : jsstring)
      (sheet : SheetProperties) :
  findSheet sheets (Some n) = Some sheet -> title sheet = n.
Proof.
  unfold findSheet. intros H. apply find_some in H. destruct H as [_ H].
  cbn [sheetMatches] in H. apply eqb_true_iff in H. exact H.
Qed.

Lemma logged_update (api : SheetsApi) (token : jsstring)
      (wishlistData : list ListingRecord) (name : option jsstring) (today : jsstring)
      (tk id sheetTitle : jsstring) (lastRow : nat) (values : list (list jsstring)) :
  In (UpdateValues tk id sheetTitle lastRow values)
     (fst (saveToGoogleSheets api token wishlistData name today)) ->
  tk = token
  /\ values = sheetValues wishlistData
  /\ lastRow = S (List.length wishlistData)
  /\ exists sheets sheet, findSheet sheets name = Some sheet /\ title sheet = sheetTitle.
Proof.
  pose proof (saveToGoogleSheets_course api token wishlistData name today) as H.
  destruct (saveToGoogleSheets api token wishlistData name today) as [log outcome].
  cbn [fst snd] in *.
  inversion H as [create e Hc Hr | create get i e Hc Hg R1
                  | create get clear i sheets sheet e Hc Hg Hcl R1 R2 R3 F
                  | create get clear update i sheets sheet out Hc Hg Hcl Hu R1 R2 R3 F Hend];
    subst.
  - intros [Hin | []]. discriminate Hin.
  - intros [Hin | [Hin | []]]; discriminate Hin.
  - intros [Hin | [Hin | [Hin | []]]]; discriminate Hin.
  - intros [Hin | [Hin | [Hin | [Hin | []]]]]; try discriminate Hin.
    injection Hin as <- <- <- <- <-.
    split; [reflexivity|]. split; [reflexivity|]. split; [reflexivity|].
    exists sheets, sheet. split; [exact F | reflexivity].
Qed.

Lemma handler_requests (api : SheetsApi) (wishlistData : option (list ListingRecord))
      (name : option jsstring) (today : jsstring)
      (read : StorageRead) (first second : IdentityAnswer) (setError : option jsstring) (r : Request) :
  In r (requests (handleSaveToGoogleSheets api wishlistData name today read first second setError)) ->
  exists t,
    checked (validateToken read first second setError) = Ok t
    /\ In r (fst (saveToGoogleSheets api t (arrayOf wishlistData) name today)).
Proof.
  destruct (handler_runs api wishlistData name today read first second setError)
    as [(c & m & Hrun) | [Hrun | (t & log & C & V & Hlog & Hne & Htok & Hrun)]].
  - rewrite Hrun. intros [].
  - rewrite Hrun. intros [].
  - intros Hin. exists t. split; [exact C|]. rewrite <- Hlog.
    destruct Hrun as [(id & _ & _ & Hrun) | [Hrun | (c & m & Hrun)]];
      rewrite Hrun in Hin; exact Hin.
Qed.

(** X24.  From the page to the sheet: when the popup passes the response
    of a run on to the background script, the rows that are written, if
    any are, are the header row and one row per card that was located on
    the page, in the order of the cards, each with the seven fields of its
    card; the range ends at the row of the last card, the sheet written to
    is the one titled with the name of the run, and the call carries the
    token that [validateToken] resolved with. *)
Theorem sheet_rows_are_the_cards
        (Element : Type) (dom : Dom Element) (name : jsstring)
        (api : SheetsApi) (today : jsstring)
        (read : StorageRead) (first second : IdentityAnswer)
        (setError : option jsstring)
        (items : list ListingRecord) (n : option jsstring)
        (tk id sheetTitle : jsstring) (lastRow : nat) (values : list (list jsstring)) :
  onExtractionResponse None (Some (extractAndSendListingData dom name))
  = ProcessExtractedData items n ->
  In (UpdateValues tk id sheetTitle lastRow values)
     (requests (handleSaveToGoogleSheets api (Some items) n today read first second setError)) ->
  exists cards,
    findListingCards dom = Ok cards
    /\ lastRow = S (List.length cards)
    /\ values
       = headers
         :: map (fun card =>
                   [ propertyName (listingOf dom card); rating (listingOf dom card);
                     date (listingOf dom card); beds (listingOf dom card);
                     totalPrice (listingOf dom card); link (listingOf dom card);
                     comment (listingOf dom card) ])
                cards
    /\ sheetTitle = name
    /\ checked (validateToken read first second setError) = Ok tk.
Proof.
  intros Hstep Hin.
  destruct (run_outcome Element dom name)
    as [(c & cards & Hfind & Hrun) | (ch & m & Hrun)];
    rewrite Hrun in Hstep; unfold onExtractionResponse in Hstep;
    cbn [success data wishlistName error negb map] in Hstep; [|discriminate Hstep].
  injection Hstep as <- <-.
  destruct (handler_requests _ _ _ _ _ _ _ _ _ Hin) as (t & C & Hlog).
  cbn [arrayOf] in Hlog.
  destruct (logged_update _ _ _ _ _ _ _ _ _ _ Hlog)
    as (-> & Hvalues & Hrow & sheets & sheet & F & Htitle).
  exists (c :: cards). split; [exact Hfind|].
  split; [rewrite Hrow; cbn [List.length]; rewrite length_map; reflexivity|].
  split.
  - rewrite Hvalues. unfold sheetValues. f_equal.
    change (listingOf dom c :: map (listingOf dom) cards)
      with (map (listingOf dom) (c :: cards)).
    rewrite map_map. apply map_ext. intros card. apply rowOf_fields.
  - split; [|exact C]. rewrite <- Htitle. apply (findSheet_named sheets name sheet F).
Qed.

Lemma sheet_rows_are_the_cards_witness :
  exists cards,
    findListingCards Pages.wishlist = Ok cards /\ 3 = S (List.length cards).
Proof.
  destruct (sheet_rows_are_the_cards nat Pages.wishlist (lit "Summer") Apis.healthy
              (lit "1/1/2025") (Stored (Some (lit "old")))
              (IdentityToken (Some (lit "token"))) (IdentityFailed (lit "unused")) None
              (map (listingOf Pages.wishlist) [1; 2]%nat) (Some (lit "Summer"))
              (lit "token") (lit "abc") (lit "Summer") 3
              (sheetValues (map (listingOf Pages.wishlist) [1; 2]%nat)))
    as (cards & Hfind & Hrow & _).
  - vm_compute. reflexivity.
  - vm_compute. right. right. right. left. reflexivity.
  - exists cards. split; [exact Hfind | exact Hrow].
Defined.
